(** * MealMind: a shallow embedding of the planning core

    The first half of the file embeds the Python sources, module by module:

    - [PyStr], [PyNum]: the string and number primitives the code relies on
      ([str.lower], [a in b], [int(x)], [round(x, 2)], [sep.join]);
    - [NutritionCompliance]: [agents/nutrition_compliance.py];
    - [NutritionLookup]: the offline path of [tools/nutrition_lookup.py];
    - [ScheduleOptimizer]: [agents/schedule_optimizer.py];
    - [FamilyProfileStore]: [tools/family_profile_store.py];
    - [SessionManager]: the memory bank of [memory/session_manager.py];
    - [ProfileManager]: [agents/profile_manager.py];
    - [RecipeGenerator], [Orchestrator]: [agents/recipe_generator.py] and
      [orchestrator.py];
    - [StoreUpdates], [MemoryUpdates], [ProfileUpdates]: the functions of
      the store, the memory bank and the profile manager that change them;
    - [MealOrder], [IngredientReuse]: more of [agents/schedule_optimizer.py];
    - [MockRecipes]: the recipes [agents/recipe_generator.py] answers with
      when no language model is configured;
    - [Reading], [Fixtures] and the other reading modules: derived
      definitions the statements use, and the inputs of the examples.

    The second half states and proves the properties, one module per
    subject.

    Modelling conventions.  Python [str] is [string] (8-bit characters, so
    [lower] folds the ASCII letters only: the texts are taken to be ASCII).
    Python [int] is [Z].  Python [float] is the IEEE 754 binary64 format,
    here Rocq's primitive [float], whose [+], [-], [*], [/] and comparisons
    are the ones of the hardware (round to nearest, ties to even); the
    conversions [float(n)], [int(x)] and [round(x, 2)] are computed from the
    exact value of the float, as CPython does.  The averages of the
    cooking-time statistics alone are kept as rationals.  A dictionary read
    with [d.get(k, default)] is a record whose field is an [option] whenever
    the default matters; a Python [dict] used as a table is a [gmap], a
    Python [set] a [gset].  A raised exception is [None]. *)

From Stdlib Require Import ZArith QArith Qabs Qround Lqa String Ascii List Lia DecimalString.
From Stdlib Require Import Floats.
From stdpp Require Import gmap strings list.

Set Warnings "-inexact-float".

Local Open Scope string_scope.
Local Open Scope list_scope.

(** ** Strings *)

Module PyStr.

(** [c.lower()] on one ASCII character. *)
Definition lower_ascii (c : ascii) : ascii :=
  let n := nat_of_ascii c in
  if ((65 <=? n) && (n <=? 90))%nat then ascii_of_nat (n + 32) else c.

(** [s.lower()] on ASCII text; a character outside ASCII, which Python
    folds by the Unicode tables, is left as it is. *)
Fixpoint lower (s : string) : string :=
  match s with
  | EmptyString => EmptyString
  | String c s' => String (lower_ascii c) (lower s')
  end.

(** [sub in s]: [sub] occurs in [s] as a contiguous substring. *)
Fixpoint str_in (sub s : string) : bool :=
  String.prefix sub s ||
  match s with
  | EmptyString => false
  | String _ s' => str_in sub s'
  end.

(** [str(z)] for an integer. *)
Definition str_of_int (z : Z) : string := NilZero.string_of_int (Z.to_int z).

(** [sep.join(l)]. *)
Definition join (sep : string) (l : list string) : string := String.concat sep l.

Definition newline : string := String "010"%char EmptyString.
Definition dquote : string := String "034"%char EmptyString.

End PyStr.


(** ** Numbers *)

Module PyNum.

(** Nearest integer, ties to the even one. *)
Definition round_half_even (q : Q) : Z :=
  let f := Qfloor q in
  match Qcompare (q - inject_Z f) (1 # 2) with
  | Lt => f
  | Gt => (f + 1)%Z
  | Eq => if Z.even f then f else (f + 1)%Z
  end.

(** [float(n)] for an [int], also the conversion of the [int] operand of
    [x * n] and [x / n]: the nearest float, ties to even; [None] is the
    [OverflowError] of an [int] beyond the range of the floats. *)
Definition float_of_int (n : Z) : option float :=
  match binary_normalize prec emax n 0 false with
  | S754_infinity _ => None
  | f => Some (SF2Prim f)
  end.

(** The exact value [m * 2^e] of the magnitude of a finite float. *)
Definition magnitude (m : positive) (e : Z) : Q :=
  match e with
  | Z0 => inject_Z (Zpos m)
  | Zpos p => inject_Z (Zpos (m * 2 ^ p))
  | Zneg p => Zpos m # (2 ^ p)
  end.

(** [int(x)]: truncation towards zero of the exact value; [None] is the
    [OverflowError] for an infinity and the [ValueError] for a NaN. *)
Definition int_of_float (x : float) : option Z :=
  match Prim2SF x with
  | S754_zero _ => Some 0%Z
  | S754_finite s m e =>
      let n := Qfloor (magnitude m e) in
      Some (if s then (- n)%Z else n)
  | _ => None
  end.

(** [round(x, 2)]: the exact value of [x] is rounded to two decimals, ties
    to even, and the float nearest to that decimal is returned, with the
    sign of [x]; an infinity and a NaN round to themselves.  The quotient of
    the hundredths by 100 is rounded once, by the division of the format. *)
Definition round2 (x : float) : float :=
  match Prim2SF x with
  | S754_finite s m e =>
      match round_half_even (magnitude m e * 100) with
      | Zpos hundredths =>
          SF2Prim (SFdiv prec emax (S754_finite s hundredths 0) (S754_finite false 100 0))
      | _ => SF2Prim (S754_zero s)
      end
  | _ => x
  end.

End PyNum.

(** ** The compliance validator *)

Module NutritionCompliance.
Import PyStr PyNum.

(** An ingredient line [{"name": .., "amount": .., "unit": ..}].  The
    amount is a number; an integer amount stands here for the float that
    [amount_grams / 100.0] converts it to. *)
Record Ingredient := {
  ing_name : string;
  ing_amount : float;
  ing_unit : string
}.

(** The seven nutrient fields, shared by [NutritionInfo] (one lookup) and
    by the totals and per-serving dictionaries. *)
Record Nutrition := {
  calories : float;
  protein_g : float;
  carbs_g : float;
  fat_g : float;
  fiber_g : float;
  sugar_g : float;
  sodium_mg : float
}.

(** A recipe dictionary, as [Recipe.model_dump()] produces it or as a
    caller of the validator builds it.  [None] is an absent key. *)
Record RecipeDict := {
  d_name : string;
  d_meal_type : option string;
  d_cuisine : option string;
  d_cooking_time_minutes : option Z;
  d_servings : option Z;
  d_ingredients : list Ingredient;
  d_instructions : list string;
  d_nutritional_info : option Nutrition;
  d_tags : list string;
  d_suitable_for : list string;
  d_nutrition_validated : bool
}.

(** A member summary of the planning context. *)
Record Member := {
  m_name : string;
  m_age : option Z;
  m_health_conditions : list string;
  m_allergies : list string;
  m_dietary_restrictions : list string;
  m_preferences : list string;
  m_dislikes : list string;
  m_calorie_target : option Z
}.

(** The planning context of [generate_planning_context]; the nested copy of
    the constraints and the memory summary are read by the prompt builder
    only and are left out. *)
Record PlanningContext := {
  pc_household_id : string;
  pc_members : list Member;
  pc_member_count : nat;
  pc_cooking_time_max : Z;
  pc_appliances : list string;
  pc_budget_weekly : option float;
  pc_cuisine_preferences : list string
}.

Record Guidelines := {
  avoid : list string;
  prefer : list string
}.

(** The constraints dictionary of [ProfileManagerAgent.get_all_constraints]. *)
Record Constraints := {
  c_allergies : list string;
  c_dietary_restrictions : list string;
  c_health_conditions : list string;
  c_dislikes : list string;
  c_health_guidelines : gmap string Guidelines;
  c_disliked_ingredients_memory : list string
}.

Record NutritionValidationResult := {
  is_compliant : bool;
  violations : list string;
  warnings : list string;
  nutritional_summary : Nutrition;
  recommendations : list string
}.

(** The warnings [calculate_recipe_nutrition] sends to the logger of the
    validator: the ingredient whose lookup raised. *)
Inductive NutritionLogEvent : Type :=
| nutrition_calculation_error (ingredient : string).

(** The totals before the loop: [0.0] in every field. *)
Definition zero_nutrition : Nutrition :=
  {| calories := 0; protein_g := 0; carbs_g := 0; fat_g := 0;
     fiber_g := 0; sugar_g := 0; sodium_mg := 0 |}%float.

(** [total[key] += nutrition.key] for the seven keys. *)
Definition add_nutrition (t n : Nutrition) : Nutrition :=
  {| calories := calories t + calories n;
     protein_g := protein_g t + protein_g n;
     carbs_g := carbs_g t + carbs_g n;
     fat_g := fat_g t + fat_g n;
     fiber_g := fiber_g t + fiber_g n;
     sugar_g := sugar_g t + sugar_g n;
     sodium_mg := sodium_mg t + sodium_mg n |}%float.

Definition map_nutrition (f : float -> float) (t : Nutrition) : Nutrition :=
  {| calories := f (calories t);
     protein_g := f (protein_g t);
     carbs_g := f (carbs_g t);
     fat_g := f (fat_g t);
     fiber_g := f (fiber_g t);
     sugar_g := f (sugar_g t);
     sodium_mg := f (sodium_mg t) |}.

Section WithLookup.

(** [nutrition_tool.lookup(name, amount_grams)]; [None] when it raises. *)
Variable lookup : string -> float -> option Nutrition.

(** The lookup of one line inside the [try]: its result is added to the
    totals; when it raises, the warning is logged and the totals stay. *)
Definition add_lookup (total : Nutrition) (log : list NutritionLogEvent)
  (ingredient : Ingredient) (amount_grams : float) : Nutrition * list NutritionLogEvent :=
  match lookup (ing_name ingredient) amount_grams with
  | Some nutrition => (add_nutrition total nutrition, log)
  | None => (total, log ++ [nutrition_calculation_error (ing_name ingredient)])
  end.

(** One turn of the ingredient loop of [calculate_recipe_nutrition]. *)
Definition ingredient_step (acc : Nutrition * list NutritionLogEvent) (ingredient : Ingredient)
  : Nutrition * list NutritionLogEvent :=
  let '(total, log) := acc in
  let amount_grams := ing_amount ingredient in
  if String.eqb (ing_unit ingredient) "ml" then
    add_lookup total log ingredient amount_grams
  else if String.eqb (ing_unit ingredient) "pieces" then (total, log)
  else add_lookup total log ingredient amount_grams.

Definition recipe_servings (recipe : RecipeDict) : Z :=
  default 4%Z (d_servings recipe).

(** [calculate_recipe_nutrition]: the warnings logged, and the dictionary
    returned; [None] is the [ZeroDivisionError] of [value / servings] (or
    the [OverflowError] of servings beyond the floats). *)
Definition calculate_recipe_nutrition (recipe : RecipeDict)
  : list NutritionLogEvent * option Nutrition :=
  let '(total_nutrition, log) :=
    fold_left ingredient_step (d_ingredients recipe) (zero_nutrition, []) in
  let servings := recipe_servings recipe in
  (log,
   match float_of_int servings with
   | None => None
   | Some d =>
       if (servings =? 0)%Z then None
       else Some (map_nutrition (fun value => round2 (value / d)) total_nutrition)
   end).

Definition check_allergens (recipe : RecipeDict) (allergies : list string) : list string :=
  flat_map (fun ingredient =>
    let ingredient_name := lower (ing_name ingredient) in
    flat_map (fun allergen =>
      let allergen_lower := lower allergen in
      if str_in allergen_lower ingredient_name
      then [allergen +:+ " (found in " +:+ ing_name ingredient +:+ ")"]
      else []) allergies)
    (d_ingredients recipe).

Definition restriction_patterns : gmap string (list string) :=
  list_to_map
    [ ("vegan", ["meat"; "chicken"; "beef"; "pork"; "fish"; "egg"; "milk";
                 "cheese"; "butter"; "cream"; "yogurt"]);
      ("vegetarian", ["meat"; "chicken"; "beef"; "pork"; "fish"; "salmon"]);
      ("gluten-free", ["wheat"; "bread"; "pasta"; "flour"; "barley"; "rye"]);
      ("dairy-free", ["milk"; "cheese"; "butter"; "cream"; "yogurt"]);
      ("keto", ["rice"; "pasta"; "bread"; "potato"; "sugar"]);
      ("low-carb", ["rice"; "pasta"; "bread"; "potato"]) ].

Definition check_dietary_restrictions (recipe : RecipeDict) (restrictions : list string)
  : list string :=
  flat_map (fun restriction =>
    let restriction_lower := lower restriction in
    match restriction_patterns !! restriction_lower with
    | Some forbidden =>
        flat_map (fun ingredient =>
          let ingredient_name := lower (ing_name ingredient) in
          if existsb (fun forbidden_item => str_in forbidden_item ingredient_name) forbidden
          then [restriction +:+ " restriction violated: contains " +:+ ing_name ingredient]
          else []) (d_ingredients recipe)
    | None => []
    end) restrictions.

Definition condition_guidelines (health_guidelines : gmap string Guidelines)
  (condition : string) : Guidelines :=
  default {| avoid := []; prefer := [] |} (health_guidelines !! lower condition).

Definition check_health_conditions (recipe : RecipeDict) (health_conditions : list string)
  (health_guidelines : gmap string Guidelines) : list string * list string :=
  fold_left (fun (acc : list string * list string) condition =>
    let '(violations, warnings) := acc in
    let guidelines := condition_guidelines health_guidelines condition in
    let found :=
      flat_map (fun ingredient =>
        let ingredient_name := lower (ing_name ingredient) in
        flat_map (fun avoid_item =>
          if str_in (lower avoid_item) ingredient_name
          then [condition +:+ ": should avoid " +:+ ing_name ingredient]
          else []) (avoid guidelines)) (d_ingredients recipe) in
    let has_preferred :=
      existsb (fun ingredient =>
        let ingredient_name := lower (ing_name ingredient) in
        existsb (fun prefer_item => str_in (lower prefer_item) ingredient_name)
                (prefer guidelines)) (d_ingredients recipe) in
    let warning :=
      match prefer guidelines with
      | [] => []
      | _ :: _ =>
          if has_preferred then []
          else [condition +:+ ": consider adding " +:+ join ", " (take 3 (prefer guidelines))]
      end in
    (violations ++ found, warnings ++ warning))
    health_conditions ([], []).

Definition meal_percentage (meal_type : string) : float :=
  if String.eqb meal_type "breakfast" then 0.25%float
  else if String.eqb meal_type "lunch" then 0.35%float
  else if String.eqb meal_type "dinner" then 0.40%float
  else 0.33%float.

(** The two f-strings of [check_calorie_targets]; [None] when an [int(..)]
    raises. *)
Definition over_target_message (member_name meal_type : string)
  (calories expected_calories : float) : option string :=
  match int_of_float (calories - expected_calories), int_of_float expected_calories with
  | Some over, Some expected =>
      Some (member_name +:+ ": " +:+ meal_type +:+ " is " +:+ str_of_int over
              +:+ " calories over target (" +:+ str_of_int expected +:+ " expected)")
  | _, _ => None
  end.

Definition under_target_message (member_name meal_type : string)
  (calories expected_calories : float) : option string :=
  match int_of_float (expected_calories - calories), int_of_float expected_calories with
  | Some under, Some expected =>
      Some (member_name +:+ ": " +:+ meal_type +:+ " is " +:+ str_of_int under
              +:+ " calories under target (" +:+ str_of_int expected +:+ " expected)")
  | _, _ => None
  end.

(** The body of the member loop of [check_calorie_targets]: the warnings it
    appends, [None] when it raises.  [if target:] skips a target that is
    absent or zero; [target * meal_pct] converts the target to a float. *)
Definition member_calorie_warning (calories : float) (meal_type : string) (member : Member)
  : option (list string) :=
  match m_calorie_target member with
  | None => Some []
  | Some target =>
      if (target =? 0)%Z then Some []
      else
        match float_of_int target with
        | None => None
        | Some target_float =>
            let expected_calories := (target_float * meal_percentage meal_type)%float in
            let difference := PrimFloat.abs (calories - expected_calories) in
            if (expected_calories * 0.3 <? difference)%float then
              if (expected_calories <? calories)%float then
                option_map (fun message => [message])
                  (over_target_message (m_name member) meal_type calories expected_calories)
              else
                option_map (fun message => [message])
                  (under_target_message (m_name member) meal_type calories expected_calories)
            else Some []
        end
  end.

Definition check_calorie_targets (nutrition_per_serving : Nutrition)
  (members : list Member) (meal_type : string) : option (list string) :=
  fold_left (fun (result : option (list string)) member =>
    match result with
    | None => None
    | Some warnings =>
        option_map (app warnings)
          (member_calorie_warning (calories nutrition_per_serving) meal_type member)
    end)
    members (Some []).

(** [validate_recipe]: the result returned; [None] when the nutrition
    calculation or the calorie check raises.  The warnings the calculation
    logs are those of [calculate_recipe_nutrition]. *)
Definition validate_recipe (recipe : RecipeDict) (planning_context : PlanningContext)
  (constraints : Constraints) : option NutritionValidationResult :=
  match snd (calculate_recipe_nutrition recipe) with
  | None => None
  | Some nutrition =>
      let allergens := c_allergies constraints in
      let violations1 :=
        match allergens with
        | [] => []
        | _ :: _ => map (fun a => "ALLERGEN ALERT: " +:+ a) (check_allergens recipe allergens)
        end in
      let restrictions := c_dietary_restrictions constraints in
      let violations2 :=
        match restrictions with
        | [] => violations1
        | _ :: _ => violations1 ++ check_dietary_restrictions recipe restrictions
        end in
      let health_conditions := c_health_conditions constraints in
      let health_guidelines := c_health_guidelines constraints in
      let '(violations3, warnings1) :=
        match health_conditions with
        | [] => (violations2, [])
        | _ :: _ =>
            let '(condition_violations, condition_warnings) :=
              check_health_conditions recipe health_conditions health_guidelines in
            (violations2 ++ condition_violations, condition_warnings)
        end in
      let members := pc_members planning_context in
      match check_calorie_targets nutrition members (default "dinner" (d_meal_type recipe)) with
      | None => None
      | Some calorie_warnings =>
          let warnings2 := warnings1 ++ calorie_warnings in
          let recommendations1 :=
            if (protein_g nutrition <? 15)%float
            then ["Consider adding more protein sources"] else [] in
          let recommendations2 :=
            if (fiber_g nutrition <? 5)%float
            then recommendations1 ++ ["Consider adding more fiber-rich ingredients"]
            else recommendations1 in
          let warnings3 :=
            if (800 <? sodium_mg nutrition)%float
            then warnings2 ++ ["High sodium content - consider reducing salt"]
            else warnings2 in
          Some {| is_compliant := (length violations3 =? 0)%nat;
                  violations := violations3;
                  warnings := warnings3;
                  nutritional_summary := nutrition;
                  recommendations := recommendations2 |}
      end
  end.

Definition generate_feedback (validation_result : NutritionValidationResult) : string :=
  if is_compliant validation_result then "Recipe is compliant with all requirements."
  else
    let bullet := fun s => "  - " +:+ s in
    let part1 :=
      match violations validation_result with
      | [] => []
      | vs => "CRITICAL ISSUES:" :: map bullet vs
      end in
    let part2 :=
      match warnings validation_result with
      | [] => []
      | ws => (newline +:+ "WARNINGS:") :: map bullet ws
      end in
    let part3 :=
      match recommendations validation_result with
      | [] => []
      | rs => (newline +:+ "RECOMMENDATIONS:") :: map bullet rs
      end in
    join newline (part1 ++ part2 ++ part3).

End WithLookup.

End NutritionCompliance.

(** ** The nutrient lookup tool, offline path *)

Module NutritionLookup.
Import PyStr NutritionCompliance.

(** Per-100g estimates of [_get_fallback_data]; the table writes some as
    integers, which the product with the scale converts to floats. *)
Record FoodData := {
  energy : float;
  protein : float;
  carbohydrate : float;
  total_lipid : float;
  fiber : float
}.

Definition food (e p c f fi : float) : FoodData :=
  {| energy := e; protein := p; carbohydrate := c; total_lipid := f; fiber := fi |}.

Definition fallback_db : list (string * FoodData) :=
  [ ("chicken", food 165 31 0 3.6 0);
    ("rice", food 130 2.7 28 0.3 0.4);
    ("broccoli", food 34 2.8 7 0.4 2.6);
    ("salmon", food 208 20 0 13 0);
    ("egg", food 155 13 1.1 11 0);
    ("olive oil", food 884 0 0 100 0);
    ("tomato", food 18 0.9 3.9 0.2 1.2);
    ("spinach", food 23 2.9 3.6 0.4 2.2);
    ("potato", food 77 2 17 0.1 2.1);
    ("beef", food 250 26 0 15 0) ]%float.

Definition generic_default : FoodData := (food 100 5 15 3 2)%float.

(** [_get_fallback_data]: the first key of [fallback_db] that contains, or is
    contained in, the lower-cased ingredient; the generic default otherwise. *)
Definition _get_fallback_data (ingredient : string) : FoodData :=
  let ingredient_lower := lower ingredient in
  match find (fun entry => str_in (fst entry) ingredient_lower
                           || str_in ingredient_lower (fst entry)) fallback_db with
  | Some entry => snd entry
  | None => generic_default
  end.

(** [NutritionLookupTool.lookup] when no API key is configured and the cache
    is cold: [search_food] answers with [_get_fallback_data], whose result
    is never empty, so the lookup does not raise. *)
Definition lookup (ingredient : string) (amount_grams : float) : option Nutrition :=
  let food_data := _get_fallback_data ingredient in
  let scale := (amount_grams / 100)%float in
  Some {| calories := energy food_data * scale;
          protein_g := protein food_data * scale;
          carbs_g := carbohydrate food_data * scale;
          fat_g := total_lipid food_data * scale;
          fiber_g := fiber food_data * scale;
          sugar_g := 0 * scale;
          sodium_mg := 0 * scale |}%float.

End NutritionLookup.

(** ** The schedule optimizer: cooking-time statistics *)

Module ScheduleOptimizer.
Import NutritionCompliance.

(** One entry [{"day": n, "meals": [...]}] of the weekly plan. *)
Record DayPlan := {
  day : Z;
  meals : list RecipeDict
}.

(** A Python number that is an [int] or [float('inf')]. *)
Inductive ext : Type :=
| Fin (z : Z)
| PosInf.

(** [min(min_time, day_time)]. *)
Definition ext_min (min_time : ext) (day_time : Z) : ext :=
  match min_time with
  | PosInf => Fin day_time
  | Fin m => if (day_time <? m)%Z then Fin day_time else Fin m
  end.

Record CookingTimeStats := {
  total_minutes : Z;
  average_per_day : Q;
  max_day : Z;
  min_day : ext;
  daily_times : list Z
}.

(** [sum(meal.get("cooking_time_minutes", 0) for meal in day.get("meals", []))]. *)
Definition day_cooking_time (d : DayPlan) : Z :=
  fold_left Z.add (map (fun meal => default 0%Z (d_cooking_time_minutes meal)) (meals d)) 0%Z.

(** The four accumulators of the loop of [analyze_cooking_times]. *)
Record TimeAcc := {
  acc_daily_times : list Z;
  acc_total_time : Z;
  acc_max_time : Z;
  acc_min_time : ext
}.

Definition time_step (acc : TimeAcc) (d : DayPlan) : TimeAcc :=
  let day_time := day_cooking_time d in
  {| acc_daily_times := acc_daily_times acc ++ [day_time];
     acc_total_time := (acc_total_time acc + day_time)%Z;
     acc_max_time := Z.max (acc_max_time acc) day_time;
     acc_min_time := ext_min (acc_min_time acc) day_time |}.

Definition time_init : TimeAcc :=
  {| acc_daily_times := []; acc_total_time := 0; acc_max_time := 0; acc_min_time := PosInf |}.

Definition analyze_cooking_times (weekly_plan : list DayPlan) : CookingTimeStats :=
  let acc := fold_left time_step weekly_plan time_init in
  {| total_minutes := acc_total_time acc;
     average_per_day :=
       match weekly_plan with
       | [] => 0
       | _ :: _ => inject_Z (acc_total_time acc) / inject_Z (Z.of_nat (length weekly_plan))
       end;
     max_day := acc_max_time acc;
     min_day := match acc_min_time acc with
                | PosInf => Fin 0
                | Fin m => Fin m
                end;
     daily_times := acc_daily_times acc |}.

End ScheduleOptimizer.

(** ** The profile store *)

Module FamilyProfileStore.
Import NutritionCompliance.

(** [HouseholdProfile]; [members] is the dictionary from member name to
    [FamilyMember], in insertion order. *)
Record HouseholdProfile := {
  household_id : string;
  members : list (string * Member);
  shared_appliances : list string;
  cooking_time_max_minutes : Z;
  budget_weekly : option float;
  cuisine_preferences : list string;
  meal_count_per_day : Z
}.

(** The dictionary returned by the store's [get_all_constraints]; the empty
    dictionary returned for an unknown household reads as four empty lists
    through [constraints.get(key, [])]. *)
Record StoreConstraints := {
  sc_allergies : list string;
  sc_dietary_restrictions : list string;
  sc_health_conditions : list string;
  sc_dislikes : list string
}.

Definition get_household (profiles : gmap string HouseholdProfile) (household_id : string)
  : option HouseholdProfile :=
  profiles !! household_id.

(** The four Python sets of the aggregation loop. *)
Record ConstraintSets := {
  all_allergies : gset string;
  all_restrictions : gset string;
  all_conditions : gset string;
  all_dislikes : gset string
}.

(** [s.update(l)] on each of the four sets. *)
Definition update_sets (sets : ConstraintSets) (member : Member) : ConstraintSets :=
  {| all_allergies := all_allergies sets ∪ list_to_set (m_allergies member);
     all_restrictions := all_restrictions sets ∪ list_to_set (m_dietary_restrictions member);
     all_conditions := all_conditions sets ∪ list_to_set (m_health_conditions member);
     all_dislikes := all_dislikes sets ∪ list_to_set (m_dislikes member) |}.

Definition empty_sets : ConstraintSets :=
  {| all_allergies := ∅; all_restrictions := ∅; all_conditions := ∅; all_dislikes := ∅ |}.

Definition aggregate_members (ms : list (string * Member)) : ConstraintSets :=
  fold_left update_sets (map snd ms) empty_sets.

Definition get_all_constraints (profiles : gmap string HouseholdProfile) (household_id : string)
  : StoreConstraints :=
  match get_household profiles household_id with
  | None =>
      {| sc_allergies := []; sc_dietary_restrictions := [];
         sc_health_conditions := []; sc_dislikes := [] |}
  | Some household =>
      let sets := aggregate_members (members household) in
      {| sc_allergies := elements (all_allergies sets);
         sc_dietary_restrictions := elements (all_restrictions sets);
         sc_health_conditions := elements (all_conditions sets);
         sc_dislikes := elements (all_dislikes sets) |}
  end.

End FamilyProfileStore.

(** ** The memory bank *)

Module SessionManager.
Import PyStr NutritionCompliance.

Record Memory := {
  health_condition_mappings : gmap string Guidelines;
  disliked_ingredients : gmap string (list string)
}.

Definition _initialize_memory_structure : Memory :=
  {| health_condition_mappings :=
       list_to_map
         [ ("diabetes",
            {| avoid := ["sugar"; "white bread"; "candy"; "soda"];
               prefer := ["whole grains"; "vegetables"; "lean protein"] |});
           ("PCOS",
            {| avoid := ["refined carbs"; "sugary foods"];
               prefer := ["low-GI foods"; "lean protein"; "vegetables"] |});
           ("high blood pressure",
            {| avoid := ["salt"; "processed foods"; "fatty meats"];
               prefer := ["low sodium"; "vegetables"; "whole grains"] |});
           ("gluten intolerance",
            {| avoid := ["wheat"; "barley"; "rye"];
               prefer := ["rice"; "quinoa"; "gluten-free grains"] |}) ];
     disliked_ingredients := ∅ |}.

Definition get_health_condition_guidelines (memory : Memory) (condition : string) : Guidelines :=
  let condition_lower := lower condition in
  default {| avoid := []; prefer := [] |} (health_condition_mappings memory !! condition_lower).

Definition get_disliked_ingredients (memory : Memory) (household_id : string) : list string :=
  default [] (disliked_ingredients memory !! household_id).

End SessionManager.

(** ** The profile manager *)

Module ProfileManager.
Import NutritionCompliance FamilyProfileStore SessionManager.

Definition get_all_constraints (profiles : gmap string HouseholdProfile) (memory : Memory)
  (household_id : string) : Constraints :=
  let constraints := FamilyProfileStore.get_all_constraints profiles household_id in
  let health_guidelines :=
    fold_left (fun (hg : gmap string Guidelines) condition =>
                 <[condition := get_health_condition_guidelines memory condition]> hg)
              (sc_health_conditions constraints) ∅ in
  {| c_allergies := sc_allergies constraints;
     c_dietary_restrictions := sc_dietary_restrictions constraints;
     c_health_conditions := sc_health_conditions constraints;
     c_dislikes := sc_dislikes constraints;
     c_health_guidelines := health_guidelines;
     c_disliked_ingredients_memory := get_disliked_ingredients memory household_id |}.

Record ProfileValidation := {
  valid : bool;
  errors : list string;
  profile_warnings : list string
}.

Definition validate_profile_completeness (profiles : gmap string HouseholdProfile)
  (household_id : string) : ProfileValidation :=
  match get_household profiles household_id with
  | None => {| valid := false; errors := ["Household profile not found"];
               profile_warnings := [] |}
  | Some profile =>
      let errors1 :=
        match members profile with
        | [] => ["No family members added to household"]
        | _ :: _ => []
        end in
      let warnings :=
        flat_map (fun entry =>
          match m_health_conditions (snd entry), m_allergies (snd entry),
                m_dietary_restrictions (snd entry) with
          | [], [], [] => [fst entry +:+ " has no dietary constraints specified"]
          | _, _, _ => []
          end) (members profile) in
      let errors2 :=
        if (cooking_time_max_minutes profile <=? 0)%Z
        then errors1 ++ ["Cooking time must be greater than 0"]
        else errors1 in
      {| valid := (length errors2 =? 0)%nat; errors := errors2; profile_warnings := warnings |}
  end.

(** [generate_planning_context]; [None] is the [ValueError] for an unknown
    household.  The summary of a member carries the dictionary key as its
    name. *)
Definition generate_planning_context (profiles : gmap string HouseholdProfile)
  (household_id : string) : option PlanningContext :=
  match get_household profiles household_id with
  | None => None
  | Some profile =>
      Some {| pc_household_id := household_id;
              pc_members :=
                map (fun entry =>
                  {| m_name := fst entry;
                     m_age := m_age (snd entry);
                     m_health_conditions := m_health_conditions (snd entry);
                     m_allergies := m_allergies (snd entry);
                     m_dietary_restrictions := m_dietary_restrictions (snd entry);
                     m_preferences := m_preferences (snd entry);
                     m_dislikes := m_dislikes (snd entry);
                     m_calorie_target := m_calorie_target (snd entry) |}) (members profile);
              pc_member_count := length (members profile);
              pc_cooking_time_max := cooking_time_max_minutes profile;
              pc_appliances := shared_appliances profile;
              pc_budget_weekly := budget_weekly profile;
              pc_cuisine_preferences := cuisine_preferences profile |}
  end.

End ProfileManager.

(** ** The recipe generator: the [Recipe] model and regeneration *)

Module RecipeGenerator.
Import PyStr NutritionCompliance.

(** The pydantic model [Recipe]. *)
Record Recipe := {
  name : string;
  meal_type : string;
  cuisine : option string;
  cooking_time_minutes : Z;
  servings : Z;
  ingredients : list Ingredient;
  instructions : list string;
  nutritional_info : option Nutrition;
  tags : list string;
  suitable_for : list string
}.

(** [recipe.model_dump()]: every field of the model is a key. *)
Definition model_dump (recipe : Recipe) : RecipeDict :=
  {| d_name := name recipe;
     d_meal_type := Some (meal_type recipe);
     d_cuisine := cuisine recipe;
     d_cooking_time_minutes := Some (cooking_time_minutes recipe);
     d_servings := Some (servings recipe);
     d_ingredients := ingredients recipe;
     d_instructions := instructions recipe;
     d_nutritional_info := nutritional_info recipe;
     d_tags := tags recipe;
     d_suitable_for := suitable_for recipe;
     d_nutrition_validated := false |}.

(** The arguments of one [generate_recipe] call. *)
Record GenerationCall := {
  call_meal_type : string;
  call_additional_requirements : option string;
  call_retry_count : Z
}.

(** The text [regenerate_recipe] passes as [additional_requirements]. *)
Definition regeneration_requirements (original_name feedback : string) : string :=
  newline +:+ "Previous recipe " +:+ dquote +:+ original_name +:+ dquote +:+ " had issues:"
    +:+ newline +:+ feedback +:+ newline +:+ newline
    +:+ "Please generate a NEW recipe that addresses these issues." +:+ newline.

End RecipeGenerator.

(** ** The orchestrator *)

Module Orchestrator.
Import PyStr NutritionCompliance ScheduleOptimizer RecipeGenerator.

(** The warnings and errors the orchestrator logs (informational records
    are not modelled). *)
Inductive LogEvent : Type :=
| recipe_validation_failed (recipe : string) (attempt : Z) (violation_count : nat)
| recipe_generation_exhausted (meal_type : string) (max_retries : Z)
| recipe_generation_failed (day_num : Z) (meal_type : string).

Section WithSource.

(** The Recipe Source: [recipe_generator.generate_recipe], a call to a
    language model or to a deterministic generator.  It is a transition on
    a state of its own.  A call answers with a [Recipe], or raises ([None]):
    the generator builds the [Recipe] model from the answer outside its
    [try], and the model refuses an answer that is not a recipe. *)
Variable SourceState : Type.
Variable generate : string -> PlanningContext -> Constraints -> option string -> Z ->
                    SourceState -> option (Recipe * SourceState).

Variable lookup : string -> float -> option Nutrition.

(** What a run can observe and change: the state of the Recipe Source, the
    calls made to it so far, and the log. *)
Record World := {
  source_state : SourceState;
  generation_calls : list GenerationCall;
  log : list LogEvent
}.

(** State, with [None] for a raised exception. *)
Definition M (A : Type) : Type := World -> option (A * World).

Definition ret {A : Type} (a : A) : M A := fun w => Some (a, w).

Definition bind {A B : Type} (m : M A) (k : A -> M B) : M B :=
  fun w => match m w with
           | None => None
           | Some (a, w') => k a w'
           end.

Definition raise_or {A : Type} (o : option A) : M A :=
  fun w => match o with
           | None => None
           | Some a => Some (a, w)
           end.

Definition log_event (e : LogEvent) : M unit :=
  fun w => Some (tt, {| source_state := source_state w;
                        generation_calls := generation_calls w;
                        log := log w ++ [e] |}).

Notation "'do' x <- m ; k" := (bind m (fun x => k))
  (at level 10, x name, m at level 100, k at level 200).

(** [recipe_generator.generate_recipe(...)]. *)
Definition generate_recipe (meal_type : string) (planning_context : PlanningContext)
  (constraints : Constraints) (additional_requirements : option string) (retry_count : Z)
  : M Recipe :=
  fun w =>
    match generate meal_type planning_context constraints
                   additional_requirements retry_count (source_state w) with
    | None => None
    | Some (recipe, s) =>
        Some (recipe,
              {| source_state := s;
                 generation_calls :=
                   generation_calls w ++
                   [{| call_meal_type := meal_type;
                       call_additional_requirements := additional_requirements;
                       call_retry_count := retry_count |}];
                 log := log w |})
    end.

(** [recipe_generator.regenerate_recipe(original_recipe, feedback, ...)]. *)
Definition regenerate_recipe (original_recipe : Recipe) (feedback : string)
  (planning_context : PlanningContext) (constraints : Constraints) : M Recipe :=
  generate_recipe (meal_type original_recipe) planning_context constraints
                  (Some (regeneration_requirements (name original_recipe) feedback)) 1.

(** The accepted dictionary: the nutrition summary attached and the
    validated flag set. *)
Definition accept (recipe_dict : RecipeDict) (validation : NutritionValidationResult)
  : RecipeDict :=
  {| d_name := d_name recipe_dict;
     d_meal_type := d_meal_type recipe_dict;
     d_cuisine := d_cuisine recipe_dict;
     d_cooking_time_minutes := d_cooking_time_minutes recipe_dict;
     d_servings := d_servings recipe_dict;
     d_ingredients := d_ingredients recipe_dict;
     d_instructions := d_instructions recipe_dict;
     d_nutritional_info := Some (nutritional_summary validation);
     d_tags := d_tags recipe_dict;
     d_suitable_for := d_suitable_for recipe_dict;
     d_nutrition_validated := true |}.

(** The loop [for attempt in range(max_retries)] of
    [_generate_validated_recipe], with [remaining] turns left; [Some] is the
    early [return recipe_dict], [None] the end of the loop. *)
Fixpoint attempt_loop (meal_type : string) (planning_context : PlanningContext)
  (constraints : Constraints) (max_retries : Z) (remaining : nat) (attempt : Z)
  : M (option RecipeDict) :=
  match remaining with
  | O => ret None
  | S remaining' =>
      do recipe <- generate_recipe meal_type planning_context constraints None attempt;
      let recipe_dict := model_dump recipe in
      do validation <- raise_or (validate_recipe lookup recipe_dict planning_context constraints);
      if is_compliant validation then
        ret (Some (accept recipe_dict validation))
      else
        do _ <- log_event (recipe_validation_failed (name recipe) (attempt + 1)
                                                    (length (violations validation)));
        do _ <- (if (attempt <? max_retries - 1)%Z then
                   let feedback := generate_feedback validation in
                   do _ <- regenerate_recipe recipe feedback planning_context constraints;
                   ret tt
                 else ret tt);
        attempt_loop meal_type planning_context constraints max_retries remaining'
                     (attempt + 1)%Z
  end.

Definition _generate_validated_recipe (meal_type : string) (planning_context : PlanningContext)
  (constraints : Constraints) (max_retries : Z) : M (option RecipeDict) :=
  do result <- attempt_loop meal_type planning_context constraints max_retries
                            (Z.to_nat max_retries) 0%Z;
  match result with
  | Some recipe_dict => ret (Some recipe_dict)
  | None =>
      do _ <- log_event (recipe_generation_exhausted meal_type max_retries);
      ret None
  end.

(** One turn of the loop over the meal types. *)
Definition plan_meal (planning_context : PlanningContext) (constraints : Constraints)
  (max_retries : Z) (day_num : Z) (day_meals : list RecipeDict) (meal_type : string)
  : M (list RecipeDict) :=
  do recipe <- _generate_validated_recipe meal_type planning_context constraints max_retries;
  match recipe with
  | Some r => ret (day_meals ++ [r])
  | None =>
      do _ <- log_event (recipe_generation_failed day_num meal_type);
      ret day_meals
  end.

Fixpoint plan_meals (planning_context : PlanningContext) (constraints : Constraints)
  (max_retries : Z) (day_num : Z) (meal_types : list string) (day_meals : list RecipeDict)
  : M (list RecipeDict) :=
  match meal_types with
  | [] => ret day_meals
  | meal_type :: rest =>
      do day_meals' <- plan_meal planning_context constraints max_retries day_num
                                 day_meals meal_type;
      plan_meals planning_context constraints max_retries day_num rest day_meals'
  end.

Definition meal_types : list string := ["breakfast"; "lunch"; "dinner"].

(** The loop [for day_num in range(1, days + 1)], with [remaining] days
    left. *)
Fixpoint plan_days (planning_context : PlanningContext) (constraints : Constraints)
  (max_retries : Z) (remaining : nat) (day_num : Z) (weekly_plan : list DayPlan)
  : M (list DayPlan) :=
  match remaining with
  | O => ret weekly_plan
  | S remaining' =>
      do day_meals <- plan_meals planning_context constraints max_retries day_num
                                 meal_types [];
      plan_days planning_context constraints max_retries remaining' (day_num + 1)%Z
                (weekly_plan ++ [{| day := day_num; meals := day_meals |}])
  end.

(** Steps 1 to 3 of [generate_complete_meal_plan]: the value is the
    ["weekly_plan"] entry of the returned dictionary, of which the
    optimization and the grocery list of steps 4 and 5 are functions. *)
Definition generate_complete_meal_plan
  (profiles : gmap string FamilyProfileStore.HouseholdProfile)
  (memory : SessionManager.Memory) (household_id : string) (days : Z) (max_retries : Z)
  : M (list DayPlan) :=
  do planning_context <- raise_or (ProfileManager.generate_planning_context profiles household_id);
  let constraints := ProfileManager.get_all_constraints profiles memory household_id in
  let validation := ProfileManager.validate_profile_completeness profiles household_id in
  if negb (ProfileManager.valid validation) then raise_or None
  else plan_days planning_context constraints max_retries (Z.to_nat days) 1%Z [].

End WithSource.

Arguments ret {SourceState A} a.
Arguments source_state {SourceState} w.
Arguments generation_calls {SourceState} w.
Arguments log {SourceState} w.

End Orchestrator.

(** ** Derived definitions the statements use *)

Module Reading.
Import PyStr PyNum NutritionCompliance.

(** The violations [validate_recipe] collects, in order, with the emptiness
    guards of the source dropped (each check on an empty list is empty). *)
Definition recipe_violations (recipe : RecipeDict) (constraints : Constraints) : list string :=
  map (fun a => "ALLERGEN ALERT: " +:+ a) (check_allergens recipe (c_allergies constraints))
  ++ check_dietary_restrictions recipe (c_dietary_restrictions constraints)
  ++ fst (check_health_conditions recipe (c_health_conditions constraints)
                                  (c_health_guidelines constraints)).

(** An ingredient line enters the nutrient totals unless its unit is
    ["pieces"]. *)
Definition counted (ingredient : Ingredient) : bool :=
  negb (String.eqb (ing_unit ingredient) "pieces").

(** The lookups of the counted lines that succeed, in recipe order. *)
Definition counted_lookups (lookup : string -> float -> option Nutrition)
  (lines : list Ingredient) : list Nutrition :=
  omap (fun ingredient => lookup (ing_name ingredient) (ing_amount ingredient))
       (filter (fun ingredient => counted ingredient = true) lines).

Definition sum_nutrition (l : list Nutrition) : Nutrition :=
  fold_left add_nutrition l zero_nutrition.

(** The reading of the specification: only lines whose unit is grams or ml
    are summed. *)
Definition weight_bearing (ingredient : Ingredient) : bool :=
  String.eqb (ing_unit ingredient) "grams" || String.eqb (ing_unit ingredient) "ml".

Definition weight_bearing_lookups (lookup : string -> float -> option Nutrition)
  (lines : list Ingredient) : list Nutrition :=
  omap (fun ingredient => lookup (ing_name ingredient) (ing_amount ingredient))
       (filter (fun ingredient => weight_bearing ingredient = true) lines).

(** The names of the counted lines whose lookup fails, in recipe order. *)
Definition failed_lookups (lookup : string -> float -> option Nutrition)
  (lines : list Ingredient) : list string :=
  map ing_name
      (filter (fun ingredient =>
                 counted ingredient = true
                 /\ lookup (ing_name ingredient) (ing_amount ingredient) = None) lines).

(** Each field of the totals divided by the servings, as a float, and
    rounded to two decimals. *)
Definition per_serving (servings : float) (total : Nutrition) : Nutrition :=
  map_nutrition (fun value => round2 (value / servings)) total.

End Reading.

(** ** Inputs of the examples *)

Module Fixtures.
Import PyStr PyNum NutritionCompliance.

Definition line (n : string) (a : float) (u : string) : Ingredient :=
  {| ing_name := n; ing_amount := a; ing_unit := u |}.

Arguments line n a%_float u.

Definition dict (n meal : string) (s : option Z) (l : list Ingredient) : RecipeDict :=
  {| d_name := n; d_meal_type := Some meal; d_cuisine := None;
     d_cooking_time_minutes := Some 20%Z; d_servings := s; d_ingredients := l;
     d_instructions := []; d_nutritional_info := None; d_tags := [];
     d_suitable_for := []; d_nutrition_validated := false |}.

Definition constraints_of (allergies restrictions : list string) : Constraints :=
  {| c_allergies := allergies; c_dietary_restrictions := restrictions;
     c_health_conditions := []; c_dislikes := []; c_health_guidelines := ∅;
     c_disliked_ingredients_memory := [] |}.

Definition member_of (n : string) (allergies : list string) (target : option Z) : Member :=
  {| m_name := n; m_age := None; m_health_conditions := []; m_allergies := allergies;
     m_dietary_restrictions := []; m_preferences := []; m_dislikes := [];
     m_calorie_target := target |}.

Definition context_of (ms : list Member) : PlanningContext :=
  {| pc_household_id := "home"; pc_members := ms; pc_member_count := length ms;
     pc_cooking_time_max := 45; pc_appliances := []; pc_budget_weekly := None;
     pc_cuisine_preferences := [] |}.

Definition bob : Member := member_of "Bob" ["peanut"] (Some 2000%Z).
Definition zoe : Member := member_of "Zoe" [] (Some 0%Z).
Definition lea : Member := member_of "Lea" [] (Some 1400%Z).
Definition tom : Member := member_of "Tom" [] None.

Definition peanut_constraints : Constraints := constraints_of ["peanut"] [].
Definition vegetarian_constraints : Constraints := constraints_of [] ["vegetarian"].

Definition peanut_butter : Ingredient := line "Peanut Butter" 60 "grams".

(** A peanut recipe that declares zero servings. *)
Definition peanut_toast_zero : RecipeDict :=
  dict "Peanut Toast" "breakfast" (Some 0%Z) [peanut_butter; line "bread" 2 "pieces"].

Definition peanut_toast : RecipeDict :=
  dict "Peanut Toast" "breakfast" (Some 4%Z) [peanut_butter; line "bread" 2 "pieces"].

Definition tofu : Ingredient := line "Firm Tofu" 400 "grams".

Definition tofu_bowl : RecipeDict :=
  dict "Tofu Bowl" "dinner" (Some 4%Z) [tofu; line "rice" 300 "grams"; line "lemon" 2 "pieces"].

(** A recipe whose only line is measured in tablespoons. *)
Definition oil_dressing : RecipeDict :=
  dict "Dressing" "lunch" None [line "olive oil" 2 "tbsp"].

(** A lookup that does not know saffron: it raises for it, and answers as
    the offline lookup for anything else. *)
Definition patchy_lookup (ingredient : string) (amount_grams : float) : option Nutrition :=
  if String.eqb ingredient "saffron" then None
  else NutritionLookup.lookup ingredient amount_grams.

Definition saffron_rice : RecipeDict :=
  dict "Saffron Rice" "dinner" (Some 4%Z)
       [line "rice" 300 "grams"; line "saffron" 1 "grams"; tofu; line "lemon" 2 "pieces"].

(** A serving of 500 kcal. *)
Definition serving_500 : Nutrition :=
  {| calories := 500; protein_g := 20; carbs_g := 60; fat_g := 15;
     fiber_g := 6; sugar_g := 5; sodium_mg := 300 |}%float.

(** A serving of 637 kcal. *)
Definition serving_637 : Nutrition :=
  {| calories := 637; protein_g := 20; carbs_g := 60; fat_g := 15;
     fiber_g := 6; sugar_g := 5; sodium_mg := 300 |}%float.

(** A day whose single meal cooks for [t] minutes. *)
Definition day_of (n t : Z) : ScheduleOptimizer.DayPlan :=
  {| ScheduleOptimizer.day := n;
     ScheduleOptimizer.meals :=
       [{| d_name := "Meal"; d_meal_type := Some "dinner"; d_cuisine := None;
           d_cooking_time_minutes := Some t; d_servings := Some 4%Z; d_ingredients := [];
           d_instructions := []; d_nutritional_info := None; d_tags := [];
           d_suitable_for := []; d_nutrition_validated := true |}] |}.

Definition three_days : list ScheduleOptimizer.DayPlan :=
  [day_of 1 40; day_of 2 50; day_of 3 30].

End Fixtures.

Module StoreReading.
Import NutritionCompliance FamilyProfileStore.

(** Two members that differ only in the order of their lists. *)
Definition member_equiv (m1 m2 : Member) : Prop :=
  Permutation (m_allergies m1) (m_allergies m2)
  /\ Permutation (m_dietary_restrictions m1) (m_dietary_restrictions m2)
  /\ Permutation (m_health_conditions m1) (m_health_conditions m2)
  /\ Permutation (m_dislikes m1) (m_dislikes m2).

(** Two rosters that differ only in the order of the members and in the
    order of the entries of each member's lists. *)
Definition roster_equiv (ms1 ms2 : list (string * Member)) : Prop :=
  exists ms, Permutation ms1 ms
             /\ Forall2 (fun e1 e2 => member_equiv (snd e1) (snd e2)) ms ms2.

(** The entries some member of the roster has in the list [field]. *)
Definition listed (field : Member -> list string) (ms : list (string * Member)) (x : string)
  : Prop :=
  exists e, In e ms /\ In x (field (snd e)).

Definition household_of (ms : list (string * Member)) : HouseholdProfile :=
  {| household_id := "home"; members := ms; shared_appliances := [];
     cooking_time_max_minutes := 45; budget_weekly := None; cuisine_preferences := [];
     meal_count_per_day := 3 |}.

Definition store_of (ms : list (string * Member)) : gmap string HouseholdProfile :=
  {[ "home" := household_of ms ]}.

Definition alice_caps : Member := Fixtures.member_of "Alice" ["Peanuts"] None.
Definition bob_lower : Member := Fixtures.member_of "Bob" ["peanuts"; "shellfish"] None.

Definition casing_roster : list (string * Member) :=
  [("Alice", alice_caps); ("Bob", bob_lower)].

Definition bob_swapped : Member := Fixtures.member_of "Bob" ["shellfish"; "peanuts"] None.

Definition casing_roster_permuted : list (string * Member) :=
  [("Bob", bob_swapped); ("Alice", alice_caps)].

End StoreReading.

Module MemoryReading.
Import NutritionCompliance.

Definition no_guidelines : Guidelines := {| avoid := []; prefer := [] |}.

(** The entry the default memory holds under the key "PCOS". *)
Definition pcos_entry : Guidelines :=
  {| avoid := ["refined carbs"; "sugary foods"];
     prefer := ["low-GI foods"; "lean protein"; "vegetables"] |}.

(** A household with one member whose health condition is PCOS. *)
Definition pcos_household : gmap string FamilyProfileStore.HouseholdProfile :=
  StoreReading.store_of
    [("Sara",
      {| m_name := "Sara"; m_age := None; m_health_conditions := ["PCOS"];
         m_allergies := []; m_dietary_restrictions := []; m_preferences := [];
         m_dislikes := []; m_calorie_target := None |})].

End MemoryReading.

Module OrchestratorReading.
Import PyStr NutritionCompliance ScheduleOptimizer RecipeGenerator Orchestrator.

(** The slots the log reports as failed, in order. *)
Definition failed_slots (events : list LogEvent) : list (Z * string) :=
  flat_map (fun e => match e with
                     | recipe_generation_failed day_num meal_type => [(day_num, meal_type)]
                     | _ => []
                     end) events.

(** A meal of the plan was accepted: it is a generated recipe that the
    validator found compliant, with the summary attached. *)
Definition accepted (lookup : string -> float -> option Nutrition)
  (planning_context : PlanningContext) (constraints : Constraints) (meal : RecipeDict) : Prop :=
  exists recipe vr,
    meal = accept (model_dump recipe) vr
    /\ validate_recipe lookup (model_dump recipe) planning_context constraints = Some vr
    /\ is_compliant vr = true.

(** The days numbered from [day_num]. *)
Fixpoint day_numbers (remaining : nat) (day_num : Z) : list Z :=
  match remaining with
  | O => []
  | S k => day_num :: day_numbers k (day_num + 1)
  end.

Definition total_meals (weekly_plan : list DayPlan) : nat :=
  length (flat_map meals weekly_plan).

(** The slots of a plan of [days] days, in planning order. *)
Definition all_slots (days : nat) : list (Z * string) :=
  flat_map (fun day_num => map (pair day_num) meal_types) (day_numbers days 1).

(** The weekly plan made of the outcomes of the slots, three to a day: a
    slot with a recipe adds it to its day, a slot without adds nothing. *)
Fixpoint plan_of (day_nums : list Z) (outcomes : list (option RecipeDict)) : list DayPlan :=
  match day_nums with
  | [] => []
  | day_num :: rest =>
      {| day := day_num; meals := omap id (take 3 outcomes) |}
      :: plan_of rest (drop 3 outcomes)
  end.

(** The slots whose outcome is no recipe, in order. *)
Fixpoint unfilled (slots : list (Z * string)) (outcomes : list (option RecipeDict))
  : list (Z * string) :=
  match slots, outcomes with
  | slot :: slots', None :: outcomes' => slot :: unfilled slots' outcomes'
  | _ :: slots', Some _ :: outcomes' => unfilled slots' outcomes'
  | _, _ => []
  end.

(** *** What a slot is to do

    The reading of a slot, stated on the Recipe Source, the validator and
    the log alone. *)

Section Slots.

Variable SourceState : Type.
Variable generate : string -> PlanningContext -> Constraints -> option string -> Z ->
                    SourceState -> option (Recipe * SourceState).
Variable lookup : string -> float -> option Nutrition.
Variable planning_context : PlanningContext.
Variable constraints : Constraints.
Variable max_retries : Z.

(** [recipe] answers attempt [attempt] of a slot for [meal]: the Recipe
    Source gave it to a call for that meal type, with that retry count and
    no further requirements. *)
Definition attempt_answer (meal : string) (attempt : Z) (recipe : Recipe) : Prop :=
  exists s s', generate meal planning_context constraints None attempt s = Some (recipe, s').

(** The candidates tried and rejected from attempt [attempt] on: each
    answers its attempt and was validated as non-compliant. *)
Fixpoint rejected_from (meal : string) (attempt : Z)
  (tried : list (Recipe * NutritionValidationResult)) : Prop :=
  match tried with
  | [] => True
  | (recipe, validation) :: rest =>
      attempt_answer meal attempt recipe
      /\ validate_recipe lookup (model_dump recipe) planning_context constraints
         = Some validation
      /\ is_compliant validation = false
      /\ rejected_from meal (attempt + 1) rest
  end.

(** The warnings logged for them. *)
Fixpoint rejection_events (attempt : Z) (tried : list (Recipe * NutritionValidationResult))
  : list LogEvent :=
  match tried with
  | [] => []
  | (recipe, validation) :: rest =>
      recipe_validation_failed (name recipe) (attempt + 1) (length (violations validation))
      :: rejection_events (attempt + 1) rest
  end.

(** A slot with outcome [Some recipe_dict] rejected fewer than
    [max_retries] candidates and accepted the next one, which the validator
    found compliant.  A slot with outcome [None] rejected [max_retries]
    candidates, one for each attempt, and is logged as exhausted and as
    failed, with its day and meal type. *)
Definition slot_outcome (day_num : Z) (meal : string) (w w' : World SourceState)
  (outcome : option RecipeDict) : Prop :=
  exists tried,
    rejected_from meal 0 tried
    /\ match outcome with
       | Some recipe_dict =>
           (length tried < Z.to_nat max_retries)%nat
           /\ (exists recipe validation,
                 attempt_answer meal (Z.of_nat (length tried)) recipe
                 /\ validate_recipe lookup (model_dump recipe) planning_context constraints
                    = Some validation
                 /\ is_compliant validation = true
                 /\ recipe_dict = accept (model_dump recipe) validation)
           /\ log w' = log w ++ rejection_events 0 tried
       | None =>
           length tried = Z.to_nat max_retries
           /\ log w' = log w ++ rejection_events 0 tried
                             ++ [recipe_generation_exhausted meal max_retries;
                                 recipe_generation_failed day_num meal]
       end.

(** The slots taken one after the other, each from the world the one
    before it left. *)
Fixpoint slots_run (slots : list (Z * string)) (w : World SourceState)
  (outcomes : list (option RecipeDict)) (w' : World SourceState) : Prop :=
  match slots, outcomes with
  | [], [] => w' = w
  | (day_num, meal) :: slots', outcome :: outcomes' =>
      exists w1, slot_outcome day_num meal w w1 outcome /\ slots_run slots' w1 outcomes' w'
  | _, _ => False
  end.

End Slots.

(** ** Recipe Source stubs

    The state of a stub is the number of calls it has answered; the answer
    to call [n] (counted from 1) is named "Candidate n" and has the
    ingredients the script gives for [n]. *)

Definition candidate (n : nat) (meal : string) (lines : list Ingredient) : Recipe :=
  {| name := "Candidate " +:+ str_of_int (Z.of_nat n);
     meal_type := meal; cuisine := None; cooking_time_minutes := 20; servings := 4;
     ingredients := lines; instructions := []; nutritional_info := None; tags := [];
     suitable_for := [] |}.

Definition scripted (script : nat -> list Ingredient)
  : string -> PlanningContext -> Constraints -> option string -> Z -> nat
    -> option (Recipe * nat) :=
  fun meal _ _ _ _ s => Some (candidate (S s) meal (script (S s)), S s).

(** A source whose first answer declares zero servings. *)
Definition zero_servings_first
  : string -> PlanningContext -> Constraints -> option string -> Z -> nat
    -> option (Recipe * nat) :=
  fun meal _ _ _ _ s =>
    Some ({| name := "Candidate " +:+ str_of_int (Z.of_nat (S s));
             meal_type := meal; cuisine := None; cooking_time_minutes := 20;
             servings := if (s =? 0)%nat then 0 else 4;
             ingredients := [Fixtures.line "oats" 300 "grams"]; instructions := [];
             nutritional_info := None; tags := []; suitable_for := [] |}, S s).

(** A source that raises on its third call. *)
Definition raises_on_third_call
  : string -> PlanningContext -> Constraints -> option string -> Z -> nat
    -> option (Recipe * nat) :=
  fun meal _ _ _ _ s =>
    if (s =? 2)%nat then None
    else Some (candidate (S s) meal [Fixtures.line "oats" 300 "grams"], S s).

Definition oats : Ingredient := Fixtures.line "oats" 300 "grams".
Definition peanut_oil : Ingredient := Fixtures.line "Peanut Oil" 30 "ml".

(** Violating on the first call, compliant on every later call. *)
Definition violating_then_compliant :=
  scripted (fun n => if (n =? 1)%nat then [Fixtures.peanut_butter] else [oats]).

(** Violating on the first call, compliant on the second, violating again
    from the third. *)
Definition compliant_on_second_only :=
  scripted (fun n => if (n =? 2)%nat then [oats] else [Fixtures.peanut_butter]).

Definition always_peanut_butter := scripted (fun _ => [Fixtures.peanut_butter]).
Definition always_peanut_oil := scripted (fun _ => [peanut_oil]).

Definition start : World nat :=
  {| source_state := 0%nat; generation_calls := []; log := [] |}.

Definition peanut_household : gmap string FamilyProfileStore.HouseholdProfile :=
  StoreReading.store_of [("Bob", Fixtures.bob)].

Definition bob_context : PlanningContext :=
  {| pc_household_id := "home"; pc_members := [Fixtures.bob]; pc_member_count := 1;
     pc_cooking_time_max := 45; pc_appliances := []; pc_budget_weekly := None;
     pc_cuisine_preferences := [] |}.

End OrchestratorReading.

Module ScheduleReading.
Import NutritionCompliance ScheduleOptimizer.

(** No meal of the plan has a negative cooking time. *)
Definition nonneg_times (weekly_plan : list DayPlan) : Prop :=
  Forall (fun d => Forall (fun meal => (0 <= default 0 (d_cooking_time_minutes meal))%Z)
                          (meals d)) weekly_plan.

(** What the loop maintains when no time is negative. *)
Definition acc_ok (acc : TimeAcc) : Prop :=
  (0 <= acc_total_time acc)%Z
  /\ (0 <= acc_max_time acc)%Z
  /\ match acc_min_time acc with
     | PosInf => True
     | Fin m => (0 <= m)%Z
     end
  /\ Forall (fun t => (0 <= t)%Z) (acc_daily_times acc).

End ScheduleReading.

(** ** Hits of the validator's three blocking checks *)

Module Hits.
Import PyStr NutritionCompliance.

(** Some ingredient name contains, up to case, some allergy term. *)
Definition allergen_hit (recipe : RecipeDict) (constraints : Constraints) : Prop :=
  exists ingredient allergen,
    In ingredient (d_ingredients recipe)
    /\ In allergen (c_allergies constraints)
    /\ str_in (lower allergen) (lower (ing_name ingredient)) = true.

(** Some ingredient name contains a forbidden term of a restriction the
    pattern table knows. *)
Definition restriction_hit (recipe : RecipeDict) (constraints : Constraints) : Prop :=
  exists restriction forbidden ingredient term,
    In restriction (c_dietary_restrictions constraints)
    /\ restriction_patterns !! lower restriction = Some forbidden
    /\ In ingredient (d_ingredients recipe)
    /\ In term forbidden
    /\ str_in term (lower (ing_name ingredient)) = true.

(** Some ingredient name contains, up to case, an avoid term of the
    guidelines found for a health condition. *)
Definition avoid_hit (recipe : RecipeDict) (constraints : Constraints) : Prop :=
  exists condition term ingredient,
    In condition (c_health_conditions constraints)
    /\ In term (avoid (condition_guidelines (c_health_guidelines constraints) condition))
    /\ In ingredient (d_ingredients recipe)
    /\ str_in (lower term) (lower (ing_name ingredient)) = true.


(** The violations one condition adds in [check_health_conditions]. *)
Definition condition_violations (recipe : RecipeDict) (health_guidelines : gmap string Guidelines)
  (condition : string) : list string :=
  flat_map (fun ingredient =>
    flat_map (fun avoid_item =>
      if str_in (lower avoid_item) (lower (ing_name ingredient))
      then [condition +:+ ": should avoid " +:+ ing_name ingredient]
      else []) (avoid (condition_guidelines health_guidelines condition)))
    (d_ingredients recipe).

(** Some ingredient name contains, up to case, a preferred term. *)
Definition has_preferred (recipe : RecipeDict) (guidelines : Guidelines) : bool :=
  existsb (fun ingredient =>
    existsb (fun prefer_item => str_in (lower prefer_item) (lower (ing_name ingredient)))
            (prefer guidelines)) (d_ingredients recipe).

(** The warning one condition adds in [check_health_conditions]. *)
Definition condition_warning (recipe : RecipeDict) (health_guidelines : gmap string Guidelines)
  (condition : string) : list string :=
  let guidelines := condition_guidelines health_guidelines condition in
  match prefer guidelines with
  | [] => []
  | _ :: _ =>
      if has_preferred recipe guidelines then []
      else [condition +:+ ": consider adding " +:+ join ", " (take 3 (prefer guidelines))]
  end.

End Hits.

Module ValidatorInputs.
Import NutritionCompliance Fixtures.

(** The tofu bowl with its lines reordered and measured differently. *)
Definition tofu_bowl_reordered : RecipeDict :=
  dict "Tofu Bowl" "lunch" (Some 2%Z)
       [line "lemon" 1 "ml"; line "rice" 80 "cups"; line "Firm Tofu" 5 "pieces";
        line "rice" 10 "grams"].

End ValidatorInputs.

Module ValidatorInputs2.
Import NutritionCompliance Fixtures.

(** A chicken and salmon dish. *)
Definition surf_and_turf : RecipeDict :=
  dict "Surf and Turf" "dinner" (Some 4%Z)
       [line "Chicken and Beef Skewer" 300 "grams"; line "salmon" 200 "grams"].

(** A recipe with no ingredient line. *)
Definition empty_recipe : RecipeDict := dict "Nothing" "lunch" (Some 4%Z) [].

(** Allergies, restrictions and a condition with guidelines. *)
Definition strict_constraints : Constraints :=
  {| c_allergies := ["peanut"; "egg"];
     c_dietary_restrictions := ["vegan"; "keto"];
     c_health_conditions := ["diabetes"];
     c_dislikes := ["olives"];
     c_health_guidelines :=
       {[ "diabetes" := {| avoid := ["sugar"]; prefer := ["vegetables"] |} ]};
     c_disliked_ingredients_memory := [] |}.

(** A failed validation with one entry of each kind. *)
Definition failed_validation : NutritionValidationResult :=
  {| is_compliant := false;
     violations := ["ALLERGEN ALERT: peanut (found in Peanut Butter)"];
     warnings := ["Bob: lunch is 300 calories under target (700 expected)"];
     nutritional_summary := serving_500;
     recommendations := ["Consider adding more protein sources"] |}.

End ValidatorInputs2.

Module GuidelineInputs.
Import NutritionCompliance Fixtures.

(** A household whose one member spells the condition with a capital. *)
Definition capital_diabetes_household : gmap string FamilyProfileStore.HouseholdProfile :=
  StoreReading.store_of
    [("Dan",
      {| m_name := "Dan"; m_age := None; m_health_conditions := ["Diabetes"];
         m_allergies := []; m_dietary_restrictions := []; m_preferences := [];
         m_dislikes := []; m_calorie_target := None |})].

(** The same household with the condition in lower case. *)
Definition diabetes_household : gmap string FamilyProfileStore.HouseholdProfile :=
  StoreReading.store_of
    [("Dan",
      {| m_name := "Dan"; m_age := None; m_health_conditions := ["diabetes"];
         m_allergies := []; m_dietary_restrictions := []; m_preferences := [];
         m_dislikes := []; m_calorie_target := None |})].

Definition candy_bar : RecipeDict :=
  dict "Candy Bar" "breakfast" (Some 1%Z) [line "Brown Sugar" 50 "grams"].

End GuidelineInputs.

(** ** The schedule optimizer: meal order and ingredient reuse *)

Module MealOrder.
Import NutritionCompliance ScheduleOptimizer.

(** The sort key [m.get("cooking_time_minutes", 0)]. *)
Definition meal_time (meal : RecipeDict) : Z := default 0%Z (d_cooking_time_minutes meal).

(** [sorted(meals, key=..., reverse=True)] is the stable sort by descending
    key, and a stable sort has one result; it is computed here by insertion
    from the right, a meal going in front of the first meal whose key is not
    greater than its own. *)
Fixpoint insert_desc (meal : RecipeDict) (sorted_meals : list RecipeDict) : list RecipeDict :=
  match sorted_meals with
  | [] => [meal]
  | m :: rest =>
      if (meal_time meal <? meal_time m)%Z then m :: insert_desc meal rest
      else meal :: sorted_meals
  end.

Definition sorted_desc (meals : list RecipeDict) : list RecipeDict :=
  fold_right insert_desc [] meals.

(** One entry of the optimized plan. *)
Record OptimizedDay := {
  od_day : Z;
  od_meals : list RecipeDict;
  od_total_cooking_time : Z;
  od_within_limit : bool
}.

Definition optimize_day (cooking_time_max : Z) (d : DayPlan) : OptimizedDay :=
  let sorted_meals := sorted_desc (meals d) in
  let total_time := fold_left Z.add (map meal_time sorted_meals) 0%Z in
  {| od_day := day d;
     od_meals := sorted_meals;
     od_total_cooking_time := total_time;
     od_within_limit := (total_time <=? cooking_time_max)%Z |}.

Definition optimize_meal_order (weekly_plan : list DayPlan) (cooking_time_max : Z)
  : list OptimizedDay :=
  map (optimize_day cooking_time_max) weekly_plan.

(** Meals in order of descending cooking time: no meal cooks longer than
    one listed before it. *)
Fixpoint longest_first (meals : list RecipeDict) : Prop :=
  match meals with
  | [] => True
  | m :: rest => Forall (fun later => (meal_time later <= meal_time m)%Z) rest
                 /\ longest_first rest
  end.

(** The meals of the list that cook for [t] minutes, in list order. *)
Definition cooking_for (t : Z) (meals : list RecipeDict) : list RecipeDict :=
  List.filter (fun meal => (meal_time meal =? t)%Z) meals.

End MealOrder.

Module IngredientReuse.
Import PyStr NutritionCompliance ScheduleOptimizer.

(** [ingredient_counts[name] += 1] on a [defaultdict(int)]; the dictionary
    is the list of its items in insertion order. *)
Fixpoint incr (name : string) (counts : list (string * Z)) : list (string * Z) :=
  match counts with
  | [] => [(name, 1%Z)]
  | (k, n) :: rest =>
      if String.eqb k name then (k, (n + 1)%Z) :: rest else (k, n) :: incr name rest
  end.


Definition analyze_ingredient_reuse (weekly_plan : list DayPlan) : list (string * Z) :=
  fold_left (fun counts d =>
    fold_left (fun counts meal =>
      fold_left (fun counts ingredient => incr (lower (ing_name ingredient)) counts)
                (d_ingredients meal) counts)
      (meals d) counts)
    weekly_plan [].




End IngredientReuse.

Module ScheduleInputs.
Import NutritionCompliance ScheduleOptimizer Fixtures.

Definition timed (n : string) (t : option Z) (l : list Ingredient) : RecipeDict :=
  {| d_name := n; d_meal_type := Some "dinner"; d_cuisine := None;
     d_cooking_time_minutes := t; d_servings := Some 4%Z; d_ingredients := l;
     d_instructions := []; d_nutritional_info := None; d_tags := [];
     d_suitable_for := []; d_nutrition_validated := true |}.

(** Two days; two meals of the first day tie at 20 minutes. *)
Definition busy_week : list DayPlan :=
  [ {| day := 1;
       meals := [ timed "Toast" (Some 20%Z) [line "Bread" 100 "grams"; line "Egg" 2 "pieces"];
                  timed "Roast" (Some 90%Z) [line "chicken" 500 "grams"; line "rice" 200 "grams"];
                  timed "Soup" (Some 20%Z) [line "Rice" 50 "grams"; line "egg" 1 "pieces"];
                  timed "Fruit" None [line "apple" 1 "pieces"] ] |};
    {| day := 2;
       meals := [ timed "Fried Rice" (Some 30%Z) [line "RICE" 300 "grams"; line "egg" 2 "pieces"] ] |} ].

End ScheduleInputs.

(** ** The profile store: creating households and adding members *)

Module StoreUpdates.
Import NutritionCompliance FamilyProfileStore.

(** [members[name] = member] on a dictionary in insertion order: an
    existing key keeps its place and takes the new value, a new key goes
    last. *)
Fixpoint dict_set (name : string) (member : Member) (ms : list (string * Member))
  : list (string * Member) :=
  match ms with
  | [] => [(name, member)]
  | (k, v) :: rest =>
      if String.eqb k name then (k, member) :: rest else (k, v) :: dict_set name member rest
  end.

(** [members.get(name)]. *)
Fixpoint dict_get (name : string) (ms : list (string * Member)) : option Member :=
  match ms with
  | [] => None
  | (k, v) :: rest => if String.eqb k name then Some v else dict_get name rest
  end.

(** [create_household]: the profile returned and the store afterwards. *)
Definition create_household (profiles : gmap string HouseholdProfile) (household_id : string)
  (cooking_time_max_minutes : Z) (appliances : option (list string)) (budget_weekly : option float)
  : HouseholdProfile * gmap string HouseholdProfile :=
  match profiles !! household_id with
  | Some existing => (existing, profiles)
  | None =>
      let profile :=
        {| household_id := household_id;
           members := [];
           shared_appliances := default [] appliances;
           cooking_time_max_minutes := cooking_time_max_minutes;
           budget_weekly := budget_weekly;
           cuisine_preferences := [];
           meal_count_per_day := 3 |} in
      (profile, <[household_id := profile]> profiles)
  end.

(** The household with [members[name] = member]. *)
Definition with_member (profile : HouseholdProfile) (name : string) (member : Member)
  : HouseholdProfile :=
  {| household_id := household_id profile;
     members := dict_set name member (members profile);
     shared_appliances := shared_appliances profile;
     cooking_time_max_minutes := cooking_time_max_minutes profile;
     budget_weekly := budget_weekly profile;
     cuisine_preferences := cuisine_preferences profile;
     meal_count_per_day := meal_count_per_day profile |}.

(** [add_member]; [None] is the [ValueError] for an unknown household. *)
Definition add_member (profiles : gmap string HouseholdProfile) (household_id name : string)
  (age : option Z) (health_conditions allergies dietary_restrictions preferences
   dislikes : option (list string)) (calorie_target : option Z)
  : option (Member * gmap string HouseholdProfile) :=
  match profiles !! household_id with
  | None => None
  | Some profile =>
      let member :=
        {| m_name := name;
           m_age := age;
           m_health_conditions := default [] health_conditions;
           m_allergies := default [] allergies;
           m_dietary_restrictions := default [] dietary_restrictions;
           m_preferences := default [] preferences;
           m_dislikes := default [] dislikes;
           m_calorie_target := calorie_target |} in
      Some (member, <[household_id := with_member profile name member]> profiles)
  end.

Definition get_member (profiles : gmap string HouseholdProfile) (household_id member_name : string)
  : option Member :=
  match get_household profiles household_id with
  | Some household => dict_get member_name (members household)
  | None => None
  end.

(** [delete_household]: the flag returned and the store afterwards. *)
Definition delete_household (profiles : gmap string HouseholdProfile) (household_id : string)
  : bool * gmap string HouseholdProfile :=
  match profiles !! household_id with
  | Some _ => (true, delete household_id profiles)
  | None => (false, profiles)
  end.

End StoreUpdates.

(** ** The memory bank: dislikes and the plan history *)

Module MemoryUpdates.
Import NutritionCompliance SessionManager.

(** [add_disliked_ingredient]. *)
Definition add_disliked_ingredient (memory : Memory) (household_id ingredient : string)
  : Memory :=
  let current := default [] (disliked_ingredients memory !! household_id) in
  let updated :=
    if bool_decide (ingredient ∈ current) then current else current ++ [ingredient] in
  {| health_condition_mappings := health_condition_mappings memory;
     disliked_ingredients := <[household_id := updated]> (disliked_ingredients memory) |}.

Section History.

(** The plan dictionary stored in an entry; entries are compared with
    [==] by [list.remove]. *)
Context {Plan : Type} `{EqDecision Plan}.

(** One entry of [memory["historical_plans"]]. *)
Record PlanEntry := {
  entry_household_id : string;
  entry_created_at : string;
  entry_plan : Plan
}.

#[export] Instance PlanEntry_eq_dec : EqDecision PlanEntry.
Proof. solve_decision. Defined.

(** [l.remove(x)]: the first element equal to [x] goes; [None] is the
    [ValueError] when there is none. *)
Fixpoint list_remove (x : PlanEntry) (l : list PlanEntry) : option (list PlanEntry) :=
  match l with
  | [] => None
  | y :: rest =>
      if decide (y = x) then Some rest
      else option_map (cons y) (list_remove x rest)
  end.

(** [[p for p in plans if p["household_id"] == household_id]]. *)
Definition plans_of (household_id : string) (plans : list PlanEntry) : list PlanEntry :=
  List.filter (fun p => String.eqb (entry_household_id p) household_id) plans.

(** The loop [for old_plan in old: plans.remove(old_plan)]. *)
Fixpoint remove_all (old : list PlanEntry) (plans : list PlanEntry) : option (list PlanEntry) :=
  match old with
  | [] => Some plans
  | old_plan :: rest =>
      match list_remove old_plan plans with
      | None => None
      | Some plans' => remove_all rest plans'
      end
  end.

(** [store_meal_plan] on the list under ["historical_plans"]; [now] is the
    time stamp of the call. *)
Definition store_meal_plan (historical_plans : list PlanEntry) (household_id now : string)
  (plan : Plan) : option (list PlanEntry) :=
  let plan_entry :=
    {| entry_household_id := household_id; entry_created_at := now; entry_plan := plan |} in
  let plans := historical_plans ++ [plan_entry] in
  let household_plans := plans_of household_id plans in
  if (10 <? length household_plans)%nat then
    remove_all (take (length household_plans - 10) household_plans) plans
  else Some plans.

(** [get_recent_plans]: the slice [household_plans[-limit:]]. *)
Definition get_recent_plans (historical_plans : list PlanEntry) (household_id : string)
  (limit : Z) : list PlanEntry :=
  let household_plans := plans_of household_id historical_plans in
  if (0 <? limit)%Z then drop (length household_plans - Z.to_nat limit) household_plans
  else drop (Z.to_nat (- limit)) household_plans.

End History.

Arguments PlanEntry Plan : clear implicits.

End MemoryUpdates.

(** ** The profile manager: adding a family member *)

Module ProfileUpdates.
Import NutritionCompliance FamilyProfileStore SessionManager StoreUpdates MemoryUpdates.

(** [add_family_member]: the member is stored, then each dislike goes to
    the long-term memory; [None] is the store's [ValueError]. *)
Definition add_family_member (profiles : gmap string HouseholdProfile) (memory : Memory)
  (household_id name : string) (age : option Z)
  (health_conditions allergies dietary_restrictions preferences dislikes : option (list string))
  (calorie_target : option Z)
  : option (Member * gmap string HouseholdProfile * Memory) :=
  match add_member profiles household_id name age health_conditions allergies
                   dietary_restrictions preferences dislikes calorie_target with
  | None => None
  | Some (member, profiles') =>
      let memory' :=
        fold_left (fun memory dislike => add_disliked_ingredient memory household_id dislike)
                  (default [] dislikes) memory in
      Some (member, profiles', memory')
  end.

End ProfileUpdates.

Module StoreInputs.
Import NutritionCompliance FamilyProfileStore StoreUpdates Fixtures.

(** A store with one household, created and then given two members. *)
Definition empty_home : gmap string HouseholdProfile :=
  snd (create_household ∅ "home" 45 None None).


End StoreInputs.

Module MemoryInputs.
Import NutritionCompliance SessionManager MemoryUpdates.

(** Twelve plans of one household with one plan of another in between;
    the plan itself is a number here. *)
Definition entry_of (h : string) (n : nat) : PlanEntry nat :=
  {| entry_household_id := h; entry_created_at := "2025-01-01T00:00:00"; entry_plan := n |}.

Definition long_history : list (PlanEntry nat) :=
  map (entry_of "home") (seq 1 6) ++ [entry_of "other" 100] ++ map (entry_of "home") (seq 7 6).

End MemoryInputs.

(** ** The recipe generator without a language model: the mock recipes *)

Module MockRecipes.
Import PyStr NutritionCompliance RecipeGenerator.

Definition ingredient (n : string) (a : float) (u : string) : Ingredient :=
  {| ing_name := n; ing_amount := a; ing_unit := u |}.

Arguments ingredient n a%_float u.

(** [[m['name'] for m in planning_context.get('members', [])]]. *)
Definition everyone (planning_context : PlanningContext) : list string :=
  map m_name (pc_members planning_context).

(** The members that do not list ["vegetarian"], up to case. *)
Definition non_vegetarians (planning_context : PlanningContext) : list string :=
  map m_name
      (List.filter (fun m => negb (bool_decide ("vegetarian" ∈ map lower (m_dietary_restrictions m))))
                   (pc_members planning_context)).

Definition _generate_mock_recipe (meal_type : string) (planning_context : PlanningContext)
  (constraints : Constraints) : Recipe :=
  let restrictions := map lower (c_dietary_restrictions constraints) in
  let is_vegetarian :=
    bool_decide ("vegetarian" ∈ restrictions) || bool_decide ("vegan" ∈ restrictions) in
  let is_gluten_free := bool_decide ("gluten-free" ∈ restrictions) in
  let is_vegan := bool_decide ("vegan" ∈ restrictions) in
  let tags := (if is_vegan then ["vegan"] else [])
              ++ (if is_gluten_free then ["gluten-free"] else []) in
  if String.eqb meal_type "breakfast" then
    if is_gluten_free && negb is_vegetarian then
      {| name := "Scrambled Eggs with Roasted Vegetables";
         meal_type := "breakfast";
         cuisine := Some "American";
         cooking_time_minutes := 25;
         servings := 4;
         ingredients :=
           [ ingredient "eggs" 8 "pieces";
             ingredient "bell pepper" 150 "grams";
             ingredient "onion" 100 "grams";
             ingredient "tomato" 150 "grams";
             ingredient "olive oil" 20 "ml";
             ingredient "potato" 300 "grams" ];
         instructions :=
           [ "Dice potatoes and roast at 400°F for 15 minutes";
             "Chop vegetables into small pieces";
             "Heat olive oil in a pan over medium heat";
             "Sauté onions, peppers, and tomatoes for 5 minutes";
             "Beat eggs in a bowl and pour into pan";
             "Scramble until cooked through";
             "Serve with roasted potatoes" ];
         nutritional_info := None;
         tags := tags ++ ["high-protein"; "gluten-free"];
         suitable_for := non_vegetarians planning_context |}
    else if is_vegetarian then
      {| name := "Oatmeal with Fruits and Nuts";
         meal_type := "breakfast";
         cuisine := Some "American";
         cooking_time_minutes := 15;
         servings := 4;
         ingredients :=
           [ ingredient "oats" 300 "grams";
             ingredient "banana" 400 "grams";
             ingredient "blueberries" 200 "grams";
             ingredient "walnuts" 100 "grams";
             ingredient "honey" 60 "ml";
             ingredient "cinnamon" 5 "grams" ];
         instructions :=
           [ "Cook oats in water according to package directions";
             "Slice bananas";
             "Divide oatmeal into 4 bowls";
             "Top with bananas, blueberries, and walnuts";
             "Drizzle with honey and sprinkle cinnamon";
             "Serve warm" ];
         nutritional_info := None;
         tags := tags ++ ["vegetarian"; "high-fiber"];
         suitable_for := everyone planning_context |}
    else
      {| name := "Vegetable Omelette with Potatoes";
         meal_type := "breakfast";
         cuisine := Some "American";
         cooking_time_minutes := 20;
         servings := 4;
         ingredients :=
           [ ingredient "eggs" 8 "pieces";
             ingredient "bell pepper" 150 "grams";
             ingredient "onion" 100 "grams";
             ingredient "tomato" 100 "grams";
             ingredient "potato" 300 "grams";
             ingredient "olive oil" 20 "ml" ];
         instructions :=
           [ "Chop vegetables and potato into small pieces";
             "Heat olive oil in a pan over medium heat";
             "Sauté potatoes for 10 minutes until golden";
             "Add onions and bell peppers, cook 3 minutes";
             "Beat eggs in a bowl and pour over vegetables";
             "Cook until eggs are set, about 5 minutes";
             "Serve hot" ];
         nutritional_info := None;
         tags := tags ++ ["high-protein"; "vegetarian"];
         suitable_for := everyone planning_context |}
  else if String.eqb meal_type "lunch" then
    if is_vegetarian then
      {| name := "Mediterranean Quinoa Bowl";
         meal_type := "lunch";
         cuisine := Some "Mediterranean";
         cooking_time_minutes := 30;
         servings := 4;
         ingredients :=
           [ ingredient "quinoa" 300 "grams";
             ingredient "chickpeas" 400 "grams";
             ingredient "cherry tomatoes" 200 "grams";
             ingredient "cucumber" 150 "grams";
             ingredient "red onion" 100 "grams";
             ingredient "olive oil" 40 "ml";
             ingredient "lemon juice" 30 "ml";
             ingredient "feta cheese" 100 "grams" ];
         instructions :=
           [ "Cook quinoa according to package instructions";
             "Drain and rinse chickpeas";
             "Chop all vegetables";
             "Mix quinoa, chickpeas, and vegetables in large bowl";
             "Whisk together olive oil and lemon juice";
             "Pour dressing over salad and toss";
             "Top with crumbled feta cheese" ];
         nutritional_info := None;
         tags := tags ++ ["vegetarian"; "high-protein"; "mediterranean"];
         suitable_for := everyone planning_context |}
    else
      {| name := "Grilled Chicken Salad Bowl";
         meal_type := "lunch";
         cuisine := Some "Mediterranean";
         cooking_time_minutes := 30;
         servings := 4;
         ingredients :=
           [ ingredient "chicken breast" 600 "grams";
             ingredient "mixed greens" 200 "grams";
             ingredient "cherry tomatoes" 200 "grams";
             ingredient "cucumber" 150 "grams";
             ingredient "quinoa" 200 "grams";
             ingredient "olive oil" 30 "ml";
             ingredient "lemon juice" 30 "ml" ];
         instructions :=
           [ "Cook quinoa according to package instructions";
             "Season chicken with salt, pepper, and herbs";
             "Grill chicken for 6-7 minutes per side until cooked through";
             "Chop vegetables while chicken cooks";
             "Slice cooked chicken into strips";
             "Assemble bowls with quinoa, greens, vegetables, and chicken";
             "Drizzle with olive oil and lemon juice" ];
         nutritional_info := None;
         tags := tags ++ ["high-protein"; "low-carb"];
         suitable_for := non_vegetarians planning_context |}
  else
    if is_vegetarian then
      {| name := "Vegetable Stir-Fry with Tofu";
         meal_type := "dinner";
         cuisine := Some "Asian";
         cooking_time_minutes := 35;
         servings := 4;
         ingredients :=
           [ ingredient "firm tofu" 400 "grams";
             ingredient "broccoli" 300 "grams";
             ingredient "bell pepper" 200 "grams";
             ingredient "carrot" 150 "grams";
             ingredient "snap peas" 200 "grams";
             ingredient "rice" 300 "grams";
             ingredient "soy sauce" 40 "ml";
             ingredient "sesame oil" 20 "ml";
             ingredient "garlic" 15 "grams";
             ingredient "ginger" 10 "grams" ];
         instructions :=
           [ "Cook rice according to package instructions";
             "Press and cube tofu, then pan-fry until golden";
             "Chop all vegetables into bite-sized pieces";
             "Heat sesame oil in wok or large pan";
             "Stir-fry garlic and ginger for 30 seconds";
             "Add vegetables and stir-fry for 5-7 minutes";
             "Add tofu and soy sauce, toss to combine";
             "Serve over rice" ];
         nutritional_info := None;
         tags := tags ++ ["vegetarian"; "high-protein"; "asian"];
         suitable_for := everyone planning_context |}
    else
      {| name := "Baked Salmon with Roasted Vegetables";
         meal_type := "dinner";
         cuisine := Some "American";
         cooking_time_minutes := 40;
         servings := 4;
         ingredients :=
           [ ingredient "salmon" 600 "grams";
             ingredient "broccoli" 300 "grams";
             ingredient "sweet potato" 400 "grams";
             ingredient "carrot" 200 "grams";
             ingredient "olive oil" 40 "ml";
             ingredient "garlic" 20 "grams";
             ingredient "lemon" 2 "pieces" ];
         instructions :=
           [ "Preheat oven to 400°F (200°C)";
             "Cut vegetables into bite-sized pieces";
             "Toss vegetables with olive oil, minced garlic, salt, and pepper";
             "Spread vegetables on baking sheet and roast for 20 minutes";
             "Season salmon with salt, pepper, and lemon juice";
             "Place salmon on same baking sheet with vegetables";
             "Roast for additional 15-20 minutes until salmon is cooked through";
             "Serve hot with lemon wedges" ];
         nutritional_info := None;
         tags := tags ++ ["high-protein"; "omega-3"; "healthy-fats"];
         suitable_for := non_vegetarians planning_context |}.

(** [generate_recipe] when no language model is configured: the mock
    recipe, whatever the additional requirements and the retry count; the
    generator keeps no state. *)
Definition mock_generate (meal_type : string) (planning_context : PlanningContext)
  (constraints : Constraints) (additional_requirements : option string) (retry_count : Z)
  (s : unit) : option (Recipe * unit) :=
  Some (_generate_mock_recipe meal_type planning_context constraints, s).

End MockRecipes.

(** ** What a plan and a log hold, slot by slot *)

Module PlanReading.
Import NutritionCompliance ScheduleOptimizer RecipeGenerator Orchestrator OrchestratorReading.

(** The days numbered from [day_num], without a meal. *)
Definition empty_days (remaining : nat) (day_num : Z) : list DayPlan :=
  map (fun n => {| day := n; meals := [] |}) (day_numbers remaining day_num).

(** The slots of the days numbered from [day_num], in planning order. *)
Definition slots_from (remaining : nat) (day_num : Z) : list (Z * string) :=
  flat_map (fun n => map (pair n) meal_types) (day_numbers remaining day_num).


(** A household profile the profile check accepts. *)
Definition complete_profile (profiles : gmap string FamilyProfileStore.HouseholdProfile)
  (household_id : string) : Prop :=
  exists profile,
    profiles !! household_id = Some profile
    /\ FamilyProfileStore.members profile <> []
    /\ (0 < FamilyProfileStore.cooking_time_max_minutes profile)%Z.

(** A vegan household of one. *)
Definition vera : Member :=
  {| m_name := "Vera"; m_age := None; m_health_conditions := [];
     m_allergies := []; m_dietary_restrictions := ["Vegan"]; m_preferences := [];
     m_dislikes := []; m_calorie_target := None |}.

Definition vegan_household : gmap string FamilyProfileStore.HouseholdProfile :=
  StoreReading.store_of [("Vera", vera)].



Definition offline_start : World unit :=
  {| source_state := tt; generation_calls := []; log := [] |}.

End PlanReading.

Module MockReading.
Import PyStr NutritionCompliance RecipeGenerator.




End MockReading.

(** * Properties of the primitives *)

Module PrimitiveFacts.
Import PyStr PyNum.

Lemma append_cons c s t : String c s +:+ t = String c (s +:+ t).
Proof. reflexivity. Qed.

Lemma prefix_app sub s :
  String.prefix sub s = true <-> exists post, s = sub +:+ post.
Proof.
  revert s. induction sub as [|c sub IH]; intros s.
  - split; [intros _; exists s; reflexivity|intros _; destruct s; reflexivity].
  - destruct s as [|d s]; simpl.
    + split; [discriminate|intros [post H]; discriminate].
    + destruct (Ascii.ascii_dec c d) as [->|N].
      * rewrite IH. split; intros [post H]; exists post; rewrite append_cons in *; congruence.
      * split; [discriminate|intros [post H]; rewrite append_cons in H; congruence].
Qed.

Lemma str_in_nil sub : str_in sub EmptyString = String.prefix sub EmptyString || false.
Proof. reflexivity. Qed.

Lemma str_in_cons sub d s :
  str_in sub (String d s) = String.prefix sub (String d s) || str_in sub s.
Proof. reflexivity. Qed.

(** [str_in] is Python's substring test: [sub in s] holds exactly when [s]
    is some text, then [sub], then some text. *)
Lemma str_in_substring sub s :
  str_in sub s = true <-> exists pre post, s = pre +:+ sub +:+ post.
Proof.
  induction s as [|d s IH].
  - rewrite str_in_nil, orb_false_r, prefix_app. split.
    + intros [post H]. exists EmptyString, post. exact H.
    + intros (pre & post & H). destruct pre; [exists post; exact H|discriminate].
  - rewrite str_in_cons, orb_true_iff, prefix_app, IH. split.
    + intros [[post H]|(pre & post & H)].
      * exists EmptyString, post. exact H.
      * exists (String d pre), post. rewrite append_cons. congruence.
    + intros (pre & post & H). destruct pre as [|e pre].
      * left. exists post. exact H.
      * right. exists pre, post. rewrite append_cons in H. congruence.
Qed.

Lemma lower_ascii_idempotent c : lower_ascii (lower_ascii c) = lower_ascii c.
Proof. destruct c as [[] [] [] [] [] [] [] []]; reflexivity. Qed.

Lemma lower_idempotent s : lower (lower s) = lower s.
Proof.
  induction s as [|c s IH]; simpl; [reflexivity|].
  rewrite lower_ascii_idempotent, IH. reflexivity.
Qed.

Lemma lower_app s t : lower (s +:+ t) = lower s +:+ lower t.
Proof.
  induction s as [|c s IH]; [reflexivity|].
  rewrite !append_cons. simpl. rewrite IH. reflexivity.
Qed.

(** [round_half_even] is within one half of its argument. *)
Lemma round_half_even_close q :
  (Qabs (inject_Z (round_half_even q) - q) <= 1 # 2)%Q.
Proof.
  unfold round_half_even.
  pose proof (Qfloor_le q) as Hlo. pose proof (Qlt_floor q) as Hhi.
  set (f := Qfloor q) in *.
  assert (Hf1 : (inject_Z (f + 1) == inject_Z f + 1)%Q) by (rewrite inject_Z_plus; reflexivity).
  rewrite Hf1 in Hhi.
  destruct (Qcompare (q - inject_Z f) (1 # 2)) eqn:E.
  - apply Qeq_alt in E.
    destruct (Z.even f); [|rewrite Hf1]; apply Qabs_Qle_condition; split; lra.
  - apply Qlt_alt in E. apply Qabs_Qle_condition; split; lra.
  - apply Qgt_alt in E. rewrite Hf1. apply Qabs_Qle_condition; split; lra.
Qed.

(** The conversions on sample values: the product 1400 * 0.35 falls just
    below 490, [int] truncates, [round(x, 2)] rounds the exact value of the
    float (2.675 is stored below the tie, 0.125 is a tie and goes to the
    even hundredth), and an [int] beyond the floats does not convert. *)
Example float_conversions :
  (1400 * 0.35 = 489.99999999999994)%float
  /\ int_of_float (1400 * 0.35) = Some 489%Z
  /\ int_of_float (-2.7) = Some (-2)%Z
  /\ int_of_float infinity = None
  /\ map round2 [2.675; 0.125; 7.025; -0.001; 1e22]%float
     = [2.67; 0.12; 7.03; -0.0; 1e22]%float
  /\ float_of_int (2 ^ 53 + 1) = Some 9007199254740992%float
  /\ float_of_int (2 ^ 1024) = None.
Proof. vm_compute. repeat split. Qed.

End PrimitiveFacts.

(** * Properties of the validator *)

Module ValidatorFacts.
Import PyStr PyNum NutritionCompliance Reading.

Lemma flat_map_nil_inv {A B : Type} (f : A -> list B) (l : list A) :
  flat_map f l = [] -> forall x, In x l -> f x = [].
Proof.
  induction l as [|a l IH]; simpl; intros H x Hx; [contradiction|].
  apply app_eq_nil in H as [Ha Hl].
  destruct Hx as [<-|Hx]; auto.
Qed.

Lemma flat_map_const_nil {A B : Type} (l : list A) :
  flat_map (fun _ : A => @nil B) l = [].
Proof. induction l; simpl; auto. Qed.

Lemma check_allergens_nil recipe : check_allergens recipe [] = [].
Proof. unfold check_allergens. simpl. apply flat_map_const_nil. Qed.

Lemma check_dietary_restrictions_nil recipe : check_dietary_restrictions recipe [] = [].
Proof. reflexivity. Qed.

Lemma check_health_conditions_nil recipe hg : check_health_conditions recipe [] hg = ([], []).
Proof. reflexivity. Qed.

(** The result of a validation that returns: its summary is the calculated
    nutrition, its violations are the three checks in order, and compliance
    is their absence. *)
Lemma validate_recipe_inv lookup recipe planning_context constraints vr :
  validate_recipe lookup recipe planning_context constraints = Some vr ->
  snd (calculate_recipe_nutrition lookup recipe) = Some (nutritional_summary vr)
  /\ violations vr = recipe_violations recipe constraints
  /\ is_compliant vr = (length (violations vr) =? 0)%nat.
Proof.
  unfold validate_recipe, recipe_violations.
  destruct (snd (calculate_recipe_nutrition lookup recipe)) as [nutrition|]; [|discriminate].
  destruct constraints as [al rs hc dl hg dm]; simpl.
  assert (Ha : match al with
               | [] => []
               | _ :: _ => map (fun a => "ALLERGEN ALERT: " +:+ a) (check_allergens recipe al)
               end = map (fun a => "ALLERGEN ALERT: " +:+ a) (check_allergens recipe al)).
  { destruct al; [rewrite check_allergens_nil|]; reflexivity. }
  rewrite Ha. clear Ha.
  set (v1 := map _ (check_allergens recipe al)).
  assert (Hr : match rs with
               | [] => v1
               | _ :: _ => v1 ++ check_dietary_restrictions recipe rs
               end = v1 ++ check_dietary_restrictions recipe rs).
  { destruct rs; [rewrite check_dietary_restrictions_nil, app_nil_r|]; reflexivity. }
  rewrite Hr. clear Hr.
  set (v2 := v1 ++ check_dietary_restrictions recipe rs).
  destruct hc as [|h hc'].
  - simpl. destruct (check_calorie_targets _ _ _); [|discriminate].
    intros [= <-]. simpl. unfold v2. rewrite app_nil_r. auto.
  - destruct (check_health_conditions recipe (h :: hc') hg) as [cv cw] eqn:E.
    destruct (check_calorie_targets _ _ _); [|discriminate].
    intros [= <-]. simpl. unfold v2. rewrite <- app_assoc. auto.
Qed.

(** The division by the servings raises for zero servings and for servings
    beyond the floats, and only then. *)
Lemma calculate_recipe_nutrition_raises lookup recipe :
  snd (calculate_recipe_nutrition lookup recipe) = None
  <-> recipe_servings recipe = 0%Z \/ float_of_int (recipe_servings recipe) = None.
Proof.
  unfold calculate_recipe_nutrition.
  destruct (fold_left _ _ _) as [total log]. cbn [snd].
  destruct (float_of_int (recipe_servings recipe)) as [d|].
  - destruct (Z.eqb_spec (recipe_servings recipe) 0) as [E|N].
    + split; [left; exact E|reflexivity].
    + split; [discriminate|]. intros [E|E]; [contradiction|discriminate].
  - split; [right|]; reflexivity.
Qed.

(** [validate_recipe] returns exactly when the nutrition calculation and
    the calorie check return: the other checks do not raise. *)
Lemma validate_recipe_returns lookup recipe planning_context constraints nutrition
  calorie_warnings :
  snd (calculate_recipe_nutrition lookup recipe) = Some nutrition ->
  check_calorie_targets nutrition (pc_members planning_context)
                        (default "dinner" (d_meal_type recipe)) = Some calorie_warnings ->
  exists vr, validate_recipe lookup recipe planning_context constraints = Some vr.
Proof.
  intros Hn Hc. unfold validate_recipe. rewrite Hn. cbv zeta.
  destruct (match c_health_conditions constraints with [] => _ | _ :: _ => _ end) as [v w].
  rewrite Hc. eexists. reflexivity.
Qed.

Lemma validate_recipe_returned lookup recipe planning_context constraints vr :
  validate_recipe lookup recipe planning_context constraints = Some vr ->
  exists calorie_warnings,
    check_calorie_targets (nutritional_summary vr) (pc_members planning_context)
                          (default "dinner" (d_meal_type recipe)) = Some calorie_warnings.
Proof.
  intros H. pose proof (validate_recipe_inv _ _ _ _ _ H) as (Hn & _).
  unfold validate_recipe in H. rewrite Hn in H. cbv zeta in H.
  destruct (match c_health_conditions constraints with [] => _ | _ :: _ => _ end) as [v w].
  destruct (check_calorie_targets _ _ _) as [cw|]; [|discriminate].
  exists cw. reflexivity.
Qed.

(** Whether a validation returns does not depend on the constraints. *)
Lemma validate_recipe_returns_for_all_constraints lookup recipe planning_context
  constraints1 constraints2 vr :
  validate_recipe lookup recipe planning_context constraints1 = Some vr ->
  exists vr', validate_recipe lookup recipe planning_context constraints2 = Some vr'.
Proof.
  intros H. pose proof (validate_recipe_inv _ _ _ _ _ H) as (Hn & _).
  destruct (validate_recipe_returned _ _ _ _ _ H) as (cw & Hc).
  exact (validate_recipe_returns lookup recipe planning_context constraints2 _ _ Hn Hc).
Qed.

Lemma float_of_int_zero : float_of_int 0 = Some 0%float.
Proof. reflexivity. Qed.

Lemma validate_recipe_raises lookup recipe planning_context constraints :
  recipe_servings recipe = 0%Z ->
  validate_recipe lookup recipe planning_context constraints = None.
Proof.
  intros Hs. unfold validate_recipe.
  rewrite (proj2 (calculate_recipe_nutrition_raises lookup recipe) (or_introl Hs)).
  reflexivity.
Qed.

Lemma compliant_no_violations lookup recipe planning_context constraints vr :
  validate_recipe lookup recipe planning_context constraints = Some vr ->
  is_compliant vr = true ->
  recipe_violations recipe constraints = [].
Proof.
  intros H Hc. apply validate_recipe_inv in H as (_ & Hv & Hi).
  rewrite Hi in Hc. apply Nat.eqb_eq in Hc. rewrite <- Hv.
  destruct (violations vr); [reflexivity|discriminate].
Qed.

Lemma violation_not_compliant lookup recipe planning_context constraints vr v :
  validate_recipe lookup recipe planning_context constraints = Some vr ->
  In v (recipe_violations recipe constraints) ->
  is_compliant vr = false /\ In v (violations vr).
Proof.
  intros H Hin. apply validate_recipe_inv in H as (_ & Hv & Hi).
  rewrite Hi, Hv. split; [|assumption].
  destruct (recipe_violations recipe constraints); [contradiction|reflexivity].
Qed.

Lemma allergen_alert_listed recipe constraints ingredient allergen :
  In ingredient (d_ingredients recipe) ->
  In allergen (c_allergies constraints) ->
  str_in (lower allergen) (lower (ing_name ingredient)) = true ->
  In ("ALLERGEN ALERT: " +:+ allergen +:+ " (found in " +:+ ing_name ingredient +:+ ")")
     (recipe_violations recipe constraints).
Proof.
  intros Hi Ha Hs. unfold recipe_violations. apply in_or_app. left.
  apply (in_map (fun a => "ALLERGEN ALERT: " +:+ a)).
  unfold check_allergens. apply in_flat_map. exists ingredient. split; [assumption|].
  apply in_flat_map. exists allergen. split; [assumption|].
  cbv zeta. rewrite Hs. left. reflexivity.
Qed.

(** In a validation that returns, an allergen hit is a blocking
    violation. *)
Lemma allergen_hit_is_violation lookup recipe planning_context constraints ingredient allergen vr :
  validate_recipe lookup recipe planning_context constraints = Some vr ->
  In ingredient (d_ingredients recipe) ->
  In allergen (c_allergies constraints) ->
  str_in (lower allergen) (lower (ing_name ingredient)) = true ->
  is_compliant vr = false
  /\ In ("ALLERGEN ALERT: " +:+ allergen +:+ " (found in " +:+ ing_name ingredient +:+ ")")
        (violations vr).
Proof.
  intros Hvr Hi Ha Hhit.
  eapply violation_not_compliant; eauto using allergen_alert_listed.
Qed.

End ValidatorFacts.

Module ValidatorClaims.
Import PyStr PyNum NutritionCompliance Reading Fixtures ValidatorFacts.

(** C2.  The failing input of the allergen property: the recipe lists
    "Peanut Butter", the household is allergic to "peanut", the name contains
    the allergen, and yet [validate_recipe] returns no result whatever the
    nutrient lookup is, because the recipe declares zero servings and the
    division by the servings raises before the allergen check runs.  The
    same recipe with four servings is reported with the allergen alert. *)
Theorem allergen_recipe_with_zero_servings_raises :
  In peanut_butter (d_ingredients peanut_toast_zero)
  /\ In "peanut" (c_allergies peanut_constraints)
  /\ str_in (lower "peanut") (lower (ing_name peanut_butter)) = true
  /\ (forall lookup,
        validate_recipe lookup peanut_toast_zero (context_of [bob]) peanut_constraints = None)
  /\ option_map violations
       (validate_recipe NutritionLookup.lookup peanut_toast (context_of [bob])
                        peanut_constraints)
     = Some ["ALLERGEN ALERT: peanut (found in Peanut Butter)"].
Proof.
  split; [left; reflexivity|].
  split; [left; reflexivity|].
  split; [reflexivity|].
  split; [|vm_compute; reflexivity].
  intros lookup. apply validate_recipe_raises. reflexivity.
Qed.

(** The household example of the specification does not trigger: the
    allergy "peanuts" is not a substring of "peanut butter". *)
Example peanuts_is_not_in_peanut_butter :
  str_in (lower "peanuts") (lower "peanut butter") = false
  /\ option_map is_compliant
       (validate_recipe NutritionLookup.lookup
          (dict "Toast" "breakfast" (Some 4%Z) [line "peanut butter" 60 "grams"])
          (context_of [bob]) (constraints_of ["peanuts"] []))
     = Some true.
Proof. vm_compute. split; reflexivity. Qed.

Lemma vegetarian_patterns :
  restriction_patterns !! lower "vegetarian"
  = Some ["meat"; "chicken"; "beef"; "pork"; "fish"; "salmon"].
Proof. vm_compute. reflexivity. Qed.

Lemma vegetarian_violation_listed recipe constraints ingredient term :
  In "vegetarian" (c_dietary_restrictions constraints) ->
  In ingredient (d_ingredients recipe) ->
  In term ["meat"; "chicken"; "beef"; "pork"; "fish"; "salmon"] ->
  str_in term (lower (ing_name ingredient)) = true ->
  In ("vegetarian restriction violated: contains " +:+ ing_name ingredient)
     (recipe_violations recipe constraints).
Proof.
  intros Hr Hi Ht Hs. unfold recipe_violations.
  apply in_or_app. right. apply in_or_app. left.
  unfold check_dietary_restrictions. apply in_flat_map.
  exists "vegetarian". split; [assumption|].
  cbv zeta. rewrite vegetarian_patterns.
  apply in_flat_map. exists ingredient. split; [assumption|].
  cbv zeta.
  assert (E : existsb (fun forbidden_item => str_in forbidden_item (lower (ing_name ingredient)))
                      ["meat"; "chicken"; "beef"; "pork"; "fish"; "salmon"] = true).
  { apply existsb_exists. exists term. auto. }
  rewrite E. left. reflexivity.
Qed.

(** C8.  Under the restriction "vegetarian", a recipe that validates as
    compliant has no ingredient whose lower-cased name contains chicken,
    beef, pork, fish or salmon; and an ingredient that does contain one of
    them makes the result non-compliant, with a violation that names the
    restriction and the ingredient. *)
Theorem vegetarian_compliant_has_no_meat lookup recipe planning_context constraints vr :
  In "vegetarian" (c_dietary_restrictions constraints) ->
  validate_recipe lookup recipe planning_context constraints = Some vr ->
  (is_compliant vr = true ->
   forall ingredient term,
     In ingredient (d_ingredients recipe) ->
     In term ["chicken"; "beef"; "pork"; "fish"; "salmon"] ->
     str_in term (lower (ing_name ingredient)) = false)
  /\ (forall ingredient term,
        In ingredient (d_ingredients recipe) ->
        In term ["chicken"; "beef"; "pork"; "fish"; "salmon"] ->
        str_in term (lower (ing_name ingredient)) = true ->
        is_compliant vr = false
        /\ In ("vegetarian restriction violated: contains " +:+ ing_name ingredient)
              (violations vr)).
Proof.
  intros Hr Hv.
  assert (Hblock : forall ingredient term,
             In ingredient (d_ingredients recipe) ->
             In term ["chicken"; "beef"; "pork"; "fish"; "salmon"] ->
             str_in term (lower (ing_name ingredient)) = true ->
             is_compliant vr = false
             /\ In ("vegetarian restriction violated: contains " +:+ ing_name ingredient)
                   (violations vr)).
  { intros ingredient term Hi Ht Hs.
    eapply violation_not_compliant; [eassumption|].
    eapply vegetarian_violation_listed; eauto. right. exact Ht. }
  split; [|exact Hblock].
  intros Hc ingredient term Hi Ht.
  destruct (str_in term (lower (ing_name ingredient))) eqn:E; [|reflexivity].
  destruct (Hblock ingredient term Hi Ht E) as [Hn _]. congruence.
Qed.

(** The tofu bowl validates as compliant for a vegetarian household. *)
Lemma vegetarian_compliant_has_no_meat_witness :
  str_in "chicken" (lower (ing_name tofu)) = false.
Proof.
  assert (E : exists vr,
             validate_recipe NutritionLookup.lookup tofu_bowl (context_of [bob])
                             vegetarian_constraints = Some vr
             /\ is_compliant vr = true).
  { vm_compute. eexists. split; reflexivity. }
  destruct E as (vr & E & Hc).
  exact (proj1 (vegetarian_compliant_has_no_meat NutritionLookup.lookup tofu_bowl
                  (context_of [bob]) vegetarian_constraints vr
                  (or_introl eq_refl) E)
               Hc tofu "chicken" (or_introl eq_refl) (or_introl eq_refl)).
Defined.

End ValidatorClaims.

Module NutritionClaims.
Import PyStr PyNum NutritionCompliance Reading Fixtures ValidatorFacts.

(** One turn of the ingredient loop, by cases on the line. *)
Lemma ingredient_step_cases lookup total log i :
  ingredient_step lookup (total, log) i
  = if counted i then
      match lookup (ing_name i) (ing_amount i) with
      | Some nutrition => (add_nutrition total nutrition, log)
      | None => (total, log ++ [nutrition_calculation_error (ing_name i)])
      end
    else (total, log).
Proof.
  unfold ingredient_step, add_lookup, counted.
  destruct (String.eqb_spec (ing_unit i) "ml") as [E|_].
  - rewrite E. reflexivity.
  - destruct (String.eqb (ing_unit i) "pieces"); reflexivity.
Qed.

(** The ingredient loop adds the lookups of the counted lines that succeed
    and logs the counted lines whose lookup fails. *)
Lemma fold_ingredient_step lookup lines total log :
  fold_left (ingredient_step lookup) lines (total, log)
  = (fold_left add_nutrition (counted_lookups lookup lines) total,
     log ++ map nutrition_calculation_error (failed_lookups lookup lines)).
Proof.
  revert total log. induction lines as [|i lines IH]; intros total log.
  - cbn. rewrite app_nil_r. reflexivity.
  - cbn [fold_left]. rewrite ingredient_step_cases.
    unfold counted_lookups, failed_lookups in *. rewrite !filter_cons.
    destruct (counted i) eqn:C.
    + rewrite decide_True by reflexivity. cbn [omap list_omap].
      destruct (lookup (ing_name i) (ing_amount i)) as [n|] eqn:L.
      * rewrite decide_False by (intros [_ H]; discriminate H).
        rewrite IH. reflexivity.
      * rewrite decide_True by (split; reflexivity).
        rewrite IH. cbn [map]. rewrite <- app_assoc. reflexivity.
    + rewrite decide_False by discriminate.
      rewrite decide_False by (intros [H _]; discriminate H). apply IH.
Qed.

(** The calculation, for servings that divide. *)
Lemma calculate_recipe_nutrition_value lookup recipe servings :
  recipe_servings recipe <> 0%Z ->
  float_of_int (recipe_servings recipe) = Some servings ->
  calculate_recipe_nutrition lookup recipe
  = (map nutrition_calculation_error (failed_lookups lookup (d_ingredients recipe)),
     Some (per_serving servings
             (sum_nutrition (counted_lookups lookup (d_ingredients recipe))))).
Proof.
  intros Hs Hf. unfold calculate_recipe_nutrition.
  rewrite fold_ingredient_step, Hf.
  destruct (Z.eqb_spec (recipe_servings recipe) 0) as [E|_]; [contradiction|].
  reflexivity.
Qed.

(** Members without a calorie target raise nothing in the calorie check. *)
Lemma check_calorie_targets_without_targets nutrition members meal_type :
  Forall (fun m => m_calorie_target m = None) members ->
  check_calorie_targets nutrition members meal_type = Some [].
Proof.
  unfold check_calorie_targets. intros H.
  induction H as [|m members Hm _ IH]; [reflexivity|].
  cbn [fold_left]. unfold member_calorie_warning at 2. rewrite Hm. exact IH.
Qed.

(** C7, as the code has it.  For a recipe whose servings are not zero (and
    within the floats), the nutrition per serving is the floating-point sum,
    taken in recipe order from 0.0, of the lookups that succeed over exactly
    the ingredient lines whose unit is not "pieces" (the amount of every
    other line, whatever its unit, is passed to the lookup as grams), each
    field divided by the servings, 4 when absent, and rounded to two
    decimals.  A counted line whose lookup fails is logged with its name and
    skipped: the calculation still returns, the validation carries that
    summary whenever it returns, it fails only if the calorie check on that
    summary does, and it does return for a household without calorie
    targets. *)
Theorem nutrition_per_serving_sums_counted_lines lookup recipe servings :
  recipe_servings recipe <> 0%Z ->
  float_of_int (recipe_servings recipe) = Some servings ->
  let summary :=
    per_serving servings (sum_nutrition (counted_lookups lookup (d_ingredients recipe))) in
  calculate_recipe_nutrition lookup recipe
  = (map nutrition_calculation_error (failed_lookups lookup (d_ingredients recipe)),
     Some summary)
  /\ (d_servings recipe = None -> recipe_servings recipe = 4%Z)
  /\ (forall planning_context constraints vr,
        validate_recipe lookup recipe planning_context constraints = Some vr ->
        nutritional_summary vr = summary)
  /\ (forall planning_context constraints,
        validate_recipe lookup recipe planning_context constraints = None
        <-> check_calorie_targets summary (pc_members planning_context)
                                  (default "dinner" (d_meal_type recipe)) = None)
  /\ (forall planning_context constraints,
        Forall (fun m => m_calorie_target m = None) (pc_members planning_context) ->
        exists vr,
          validate_recipe lookup recipe planning_context constraints = Some vr
          /\ nutritional_summary vr = summary).
Proof.
  intros Hs Hf summary.
  pose proof (calculate_recipe_nutrition_value lookup recipe servings Hs Hf) as Hc.
  fold summary in Hc.
  assert (Hn : snd (calculate_recipe_nutrition lookup recipe) = Some summary)
    by (rewrite Hc; reflexivity).
  assert (Hsum : forall planning_context constraints vr,
             validate_recipe lookup recipe planning_context constraints = Some vr ->
             nutritional_summary vr = summary).
  { intros planning_context constraints vr Hvr.
    apply validate_recipe_inv in Hvr as (Hn' & _ & _). congruence. }
  split; [exact Hc|]. split.
  { intros E. unfold recipe_servings. rewrite E. reflexivity. }
  split; [exact Hsum|]. split.
  - intros planning_context constraints. split.
    + intros Hnone.
      destruct (check_calorie_targets summary (pc_members planning_context)
                  (default "dinner" (d_meal_type recipe))) as [cw|] eqn:Hcw; [|reflexivity].
      destruct (validate_recipe_returns lookup recipe planning_context constraints
                  summary cw Hn Hcw) as [vr Hvr].
      congruence.
    + intros Hnone.
      destruct (validate_recipe lookup recipe planning_context constraints) as [vr|] eqn:Hvr;
        [|reflexivity].
      destruct (validate_recipe_returned _ _ _ _ _ Hvr) as (cw & Hcw).
      rewrite (Hsum _ _ _ Hvr) in Hcw. congruence.
  - intros planning_context constraints Hnt.
    destruct (validate_recipe_returns lookup recipe planning_context constraints summary []
                Hn (check_calorie_targets_without_targets _ _ _ Hnt)) as [vr Hvr].
    exists vr. split; [exact Hvr|]. exact (Hsum _ _ _ Hvr).
Qed.

(** Saffron rice on a lookup that does not know saffron: the line is
    logged, the rice and the tofu are summed, the lemon is not looked up. *)
Lemma nutrition_per_serving_sums_counted_lines_witness :
  calculate_recipe_nutrition patchy_lookup saffron_rice
  = ([nutrition_calculation_error "saffron"],
     Some {| calories := 197.5; protein_g := 7.03; carbs_g := 36; fat_g := 3.23;
             fiber_g := 2.3; sugar_g := 0; sodium_mg := 0 |}%float).
Proof.
  refine (eq_trans
            (proj1 (nutrition_per_serving_sums_counted_lines patchy_lookup saffron_rice 4 _ _))
            _).
  - vm_compute. discriminate.
  - vm_compute. reflexivity.
  - vm_compute. reflexivity.
Defined.

(** C7, as the specification words it, fails: a line measured in
    tablespoons is neither grams nor ml, yet its lookup enters the totals. *)
Lemma tablespoon_line_is_counted :
  weight_bearing_lookups NutritionLookup.lookup (d_ingredients oil_dressing) = []
  /\ snd (calculate_recipe_nutrition NutritionLookup.lookup oil_dressing)
     <> Some (per_serving 4
                (sum_nutrition
                   (weight_bearing_lookups NutritionLookup.lookup (d_ingredients oil_dressing))))
  /\ option_map calories (snd (calculate_recipe_nutrition NutritionLookup.lookup oil_dressing))
     = Some 4.42%float.
Proof.
  split; [reflexivity|]. split; [|vm_compute; reflexivity].
  intros H. apply (f_equal (option_map (fun n => (calories n =? 0)%float))) in H.
  vm_compute in H. discriminate H.
Qed.

End NutritionClaims.

Module CalorieClaims.
Import PyStr PyNum NutritionCompliance Reading Fixtures ValidatorFacts.

Lemma check_calorie_targets_from nutrition meal_type members acc :
  fold_left (fun (result : option (list string)) member =>
               match result with
               | None => None
               | Some warnings =>
                   option_map (app warnings)
                     (member_calorie_warning (calories nutrition) meal_type member)
               end) members (Some acc)
  = option_map (app acc) (check_calorie_targets nutrition members meal_type).
Proof.
  unfold check_calorie_targets.
  set (step := fun (result : option (list string)) member => _).
  assert (Hnone : forall l, fold_left step l None = None).
  { induction l as [|m l IH]; [reflexivity|exact IH]. }
  revert acc. induction members as [|m members IH]; intros acc.
  - cbn. rewrite app_nil_r. reflexivity.
  - cbn [fold_left]. unfold step at 2 4.
    destruct (member_calorie_warning (calories nutrition) meal_type m) as [w|];
      cbn [option_map].
    + rewrite (IH (acc ++ w)), (IH ([] ++ w)).
      destruct (fold_left step members (Some [])) as [r|]; cbn [option_map]; [|reflexivity].
      rewrite app_assoc. reflexivity.
    + rewrite !Hnone. reflexivity.
Qed.

(** The check on a roster of one is the body of the member loop. *)
Lemma check_calorie_targets_one nutrition member meal_type :
  check_calorie_targets nutrition [member] meal_type
  = member_calorie_warning (calories nutrition) meal_type member.
Proof.
  unfold check_calorie_targets. cbn [fold_left].
  destruct (member_calorie_warning (calories nutrition) meal_type member); reflexivity.
Qed.

(** The warnings of a roster are those of its parts, in order; the check
    raises as soon as one part does. *)
Lemma check_calorie_targets_app nutrition before after meal_type :
  check_calorie_targets nutrition (before ++ after) meal_type
  = match check_calorie_targets nutrition before meal_type,
          check_calorie_targets nutrition after meal_type with
    | Some w1, Some w2 => Some (w1 ++ w2)
    | _, _ => None
    end.
Proof.
  unfold check_calorie_targets at 1. rewrite fold_left_app.
  fold (check_calorie_targets nutrition before meal_type).
  destruct (check_calorie_targets nutrition before meal_type) as [w1|].
  - rewrite check_calorie_targets_from.
    destruct (check_calorie_targets nutrition after meal_type); reflexivity.
  - induction after as [|m l IH]; [reflexivity|exact IH].
Qed.

(** What [validate_recipe] decides does not depend on the planning context,
    hence not on any calorie target. *)
Lemma verdict_ignores_context lookup recipe constraints context1 context2 v1 v2 :
  validate_recipe lookup recipe context1 constraints = Some v1 ->
  validate_recipe lookup recipe context2 constraints = Some v2 ->
  violations v1 = violations v2 /\ is_compliant v1 = is_compliant v2.
Proof.
  intros H1 H2.
  apply validate_recipe_inv in H1 as (_ & Hv1 & Hc1).
  apply validate_recipe_inv in H2 as (_ & Hv2 & Hc2).
  rewrite Hc1, Hc2, Hv1, Hv2. auto.
Qed.

(** C9, as the code has it, in the floating-point arithmetic of the code.
    The meal shares are 0.25, 0.35 and 0.40 for breakfast, lunch and dinner
    and 0.33 for any other meal type.  A member whose calorie target is
    absent or zero is skipped.  For a member whose target is set and not
    zero, the expected value is the product of the target, as a float, and
    the share: when the absolute difference between the calories per
    serving and the expected value exceeds the product of the expected
    value and 0.3, the member gets exactly one warning, the over-target one
    if the calories exceed the expected value and the under-target one
    otherwise, with both amounts truncated to integers; when it does not,
    the member gets none.  The warnings of the roster are the members'
    warnings in order, and neither the violations nor the compliance verdict
    of a validation that returns depends on the roster. *)
Theorem calorie_check_warns_beyond_30_percent
  lookup nutrition meal_type member before after recipe constraints :
  let c := calories nutrition in
  (meal_percentage "breakfast" = 0.25%float
   /\ meal_percentage "lunch" = 0.35%float
   /\ meal_percentage "dinner" = 0.40%float
   /\ (~ In meal_type ["breakfast"; "lunch"; "dinner"] ->
       meal_percentage meal_type = 0.33%float))
  /\ (m_calorie_target member = None \/ m_calorie_target member = Some 0%Z ->
      check_calorie_targets nutrition [member] meal_type = Some [])
  /\ (forall target target_float,
        m_calorie_target member = Some target ->
        target <> 0%Z ->
        float_of_int target = Some target_float ->
        let expected := (target_float * meal_percentage meal_type)%float in
        let difference := PrimFloat.abs (c - expected) in
        ((expected * 0.3 <? difference)%float = true -> (expected <? c)%float = true ->
         check_calorie_targets nutrition [member] meal_type
         = option_map (fun message => [message])
             (over_target_message (m_name member) meal_type c expected))
        /\ ((expected * 0.3 <? difference)%float = true -> (expected <? c)%float = false ->
            check_calorie_targets nutrition [member] meal_type
            = option_map (fun message => [message])
                (under_target_message (m_name member) meal_type c expected))
        /\ ((expected * 0.3 <? difference)%float = false ->
            check_calorie_targets nutrition [member] meal_type = Some []))
  /\ (forall expected amount expected_int,
        int_of_float expected = Some expected_int ->
        (int_of_float (c - expected) = Some amount ->
         over_target_message (m_name member) meal_type c expected
         = Some (m_name member +:+ ": " +:+ meal_type +:+ " is " +:+ str_of_int amount
                   +:+ " calories over target (" +:+ str_of_int expected_int +:+ " expected)"))
        /\ (int_of_float (expected - c) = Some amount ->
            under_target_message (m_name member) meal_type c expected
            = Some (m_name member +:+ ": " +:+ meal_type +:+ " is " +:+ str_of_int amount
                      +:+ " calories under target (" +:+ str_of_int expected_int
                      +:+ " expected)")))
  /\ check_calorie_targets nutrition (before ++ member :: after) meal_type
     = match check_calorie_targets nutrition before meal_type,
             check_calorie_targets nutrition [member] meal_type,
             check_calorie_targets nutrition after meal_type with
       | Some w1, Some w2, Some w3 => Some (w1 ++ w2 ++ w3)
       | _, _, _ => None
       end
  /\ (forall context1 context2 v1 v2,
        validate_recipe lookup recipe context1 constraints = Some v1 ->
        validate_recipe lookup recipe context2 constraints = Some v2 ->
        violations v1 = violations v2 /\ is_compliant v1 = is_compliant v2).
Proof.
  intros c.
  split.
  { split; [reflexivity|]. split; [reflexivity|]. split; [reflexivity|].
    intros Hn. unfold meal_percentage.
    destruct (String.eqb_spec meal_type "breakfast") as [->|_];
      [exfalso; apply Hn; simpl; auto|].
    destruct (String.eqb_spec meal_type "lunch") as [->|_];
      [exfalso; apply Hn; simpl; auto|].
    destruct (String.eqb_spec meal_type "dinner") as [->|_];
      [exfalso; apply Hn; simpl; auto|].
    reflexivity. }
  split.
  { rewrite check_calorie_targets_one. unfold member_calorie_warning.
    intros [H|H]; rewrite H; reflexivity. }
  split.
  { intros target target_float Ht Hz Hf expected difference.
    rewrite check_calorie_targets_one. unfold member_calorie_warning.
    rewrite Ht, Hf.
    destruct (Z.eqb_spec target 0) as [E|_]; [contradiction|].
    fold c. fold expected. fold difference.
    split; [|split].
    - intros H1 H2. rewrite H1, H2. reflexivity.
    - intros H1 H2. rewrite H1, H2. reflexivity.
    - intros H1. rewrite H1. reflexivity. }
  split.
  { intros expected amount expected_int He. split; intros Ha.
    - unfold over_target_message. rewrite Ha, He. reflexivity.
    - unfold under_target_message. rewrite Ha, He. reflexivity. }
  split.
  { rewrite check_calorie_targets_app.
    change (member :: after) with ([member] ++ after).
    rewrite check_calorie_targets_app.
    destruct (check_calorie_targets nutrition before meal_type) as [w1|]; [|reflexivity].
    destruct (check_calorie_targets nutrition [member] meal_type) as [w2|]; [|reflexivity].
    destruct (check_calorie_targets nutrition after meal_type) as [w3|]; reflexivity. }
  intros context1 context2 v1 v2. apply verdict_ignores_context.
Qed.

(** Lea's target is 1400 kcal: the expected lunch is 1400 * 0.35, which is
    489.99999999999994 in floating point, so a lunch of 637 kcal is warned
    about and 489 is printed.  Tom has no target and is skipped.  Bob's
    target is 2000 kcal: a 500 kcal dinner is 300 kcal under the 800
    expected. *)
Lemma calorie_check_warns_beyond_30_percent_witness :
  check_calorie_targets serving_637 [lea] "lunch"
  = Some ["Lea: lunch is 147 calories over target (489 expected)"]
  /\ check_calorie_targets serving_500 [tom] "lunch" = Some []
  /\ check_calorie_targets serving_500 [bob] "dinner"
     = Some ["Bob: dinner is 300 calories under target (800 expected)"].
Proof.
  split; [|split].
  - refine (eq_trans
      (proj1 (proj1 (proj2 (proj2
         (calorie_check_warns_beyond_30_percent NutritionLookup.lookup serving_637 "lunch"
            lea [] [] tofu_bowl vegetarian_constraints)))
         1400%Z 1400%float eq_refl _ _) _ _) _).
    + discriminate.
    + vm_compute. reflexivity.
    + vm_compute. reflexivity.
    + vm_compute. reflexivity.
    + vm_compute. reflexivity.
  - refine (proj1 (proj2
      (calorie_check_warns_beyond_30_percent NutritionLookup.lookup serving_500 "lunch"
         tom [] [] tofu_bowl vegetarian_constraints)) _).
    left. reflexivity.
  - refine (eq_trans
      (proj1 (proj2 (proj1 (proj2 (proj2
         (calorie_check_warns_beyond_30_percent NutritionLookup.lookup serving_500 "dinner"
            bob [] [] tofu_bowl vegetarian_constraints)))
         2000%Z 2000%float eq_refl _ _)) _ _) _).
    + discriminate.
    + vm_compute. reflexivity.
    + vm_compute. reflexivity.
    + vm_compute. reflexivity.
    + vm_compute. reflexivity.
Defined.

(** C9, as the specification words it, fails for a member whose target is
    zero: the difference exceeds 30% of the expected value, which is zero,
    and no warning is emitted. *)
Lemma zero_target_is_skipped :
  m_calorie_target zoe = Some 0%Z
  /\ float_of_int 0 = Some 0%float
  /\ (0 * meal_percentage "lunch" * 0.3
      <? PrimFloat.abs (calories serving_500 - 0 * meal_percentage "lunch"))%float = true
  /\ check_calorie_targets serving_500 [zoe] "lunch" = Some [].
Proof.
  split; [reflexivity|]. split; [vm_compute; reflexivity|].
  split; vm_compute; reflexivity.
Qed.

(** The comparison is made on floats: for a target of 1400 kcal a lunch of
    637 kcal is exactly 30% over the 490 kcal expected, which does not
    exceed 30%, yet the code warns, since 1400 * 0.35 falls below 490. *)
Example rounding_moves_the_30_percent_line :
  (Qabs (637 - 1400 * (35 # 100)) == 1400 * (35 # 100) * (3 # 10))%Q
  /\ (1400 * meal_percentage "lunch")%float = 489.99999999999994%float
  /\ member_calorie_warning 637 "lunch" lea
     = Some ["Lea: lunch is 147 calories over target (489 expected)"].
Proof. split; [reflexivity|]. split; vm_compute; reflexivity. Qed.

End CalorieClaims.

(** * Properties of the cooking-time statistics *)

Module ScheduleFacts.
Import NutritionCompliance ScheduleOptimizer ScheduleReading Fixtures.

Lemma fold_add_nonneg (l : list Z) (a : Z) :
  (0 <= a)%Z -> Forall (fun t => (0 <= t)%Z) l -> (0 <= fold_left Z.add l a)%Z.
Proof.
  revert a. induction l as [|t l IH]; intros a Ha Hl; simpl; [assumption|].
  inversion Hl; subst. apply IH; [lia|assumption].
Qed.

Lemma day_cooking_time_nonneg d :
  Forall (fun meal => (0 <= default 0 (d_cooking_time_minutes meal))%Z) (meals d) ->
  (0 <= day_cooking_time d)%Z.
Proof.
  intros H. unfold day_cooking_time. apply fold_add_nonneg; [lia|].
  induction H; simpl; constructor; auto.
Qed.

Lemma time_step_ok acc d :
  acc_ok acc -> (0 <= day_cooking_time d)%Z -> acc_ok (time_step acc d).
Proof.
  intros (Ht & Hm & Hn & Hd) Hday. unfold acc_ok, time_step. simpl.
  split; [lia|]. split; [lia|]. split.
  - unfold ext_min. destruct (acc_min_time acc) as [m|]; [|assumption].
    destruct (day_cooking_time d <? m)%Z; assumption.
  - apply Forall_app. split; [assumption|]. constructor; [assumption|constructor].
Qed.

Lemma fold_time_step_ok weekly_plan acc :
  acc_ok acc -> nonneg_times weekly_plan -> acc_ok (fold_left time_step weekly_plan acc).
Proof.
  revert acc. induction weekly_plan as [|d plan IH]; intros acc Hacc Hplan; simpl.
  - assumption.
  - inversion Hplan; subst. apply IH; [|assumption].
    apply time_step_ok; [assumption|]. apply day_cooking_time_nonneg. assumption.
Qed.

Lemma average_nonneg (t : Z) (n : nat) :
  (0 <= t)%Z -> (0 <= inject_Z t / inject_Z (Z.of_nat (S n)))%Q.
Proof.
  intros Ht. unfold Qdiv. apply Qmult_le_0_compat.
  - unfold Qle. simpl. lia.
  - apply Qinv_le_0_compat. unfold Qle. simpl. lia.
Qed.

(** C10.  [analyze_cooking_times] is a total function.  On the empty plan
    it returns zero for the total, the average, the maximum and the minimum
    and an empty per-day list.  On any plan the minimum it returns is an
    integer, never the infinity the loop starts from.  On a plan whose
    cooking times are all non-negative every returned number is
    non-negative. *)
Theorem cooking_time_stats_are_finite_and_nonnegative :
  analyze_cooking_times []
  = {| total_minutes := 0; average_per_day := 0; max_day := 0; min_day := Fin 0;
       daily_times := [] |}
  /\ (forall weekly_plan, min_day (analyze_cooking_times weekly_plan) <> PosInf)
  /\ (forall weekly_plan,
        nonneg_times weekly_plan ->
        let stats := analyze_cooking_times weekly_plan in
        (0 <= total_minutes stats)%Z
        /\ (0 <= average_per_day stats)%Q
        /\ (0 <= max_day stats)%Z
        /\ (exists m, min_day stats = Fin m /\ (0 <= m)%Z)
        /\ Forall (fun t => (0 <= t)%Z) (daily_times stats)).
Proof.
  split; [reflexivity|]. split.
  - intros weekly_plan. unfold analyze_cooking_times. simpl.
    destruct (acc_min_time _); discriminate.
  - intros weekly_plan Hplan.
    assert (Hok : acc_ok (fold_left time_step weekly_plan time_init)).
    { apply fold_time_step_ok; [|assumption].
      unfold acc_ok, time_init. simpl. repeat split; try lia. constructor. }
    destruct Hok as (Ht & Hm & Hn & Hd).
    unfold analyze_cooking_times. simpl.
    split; [assumption|]. split.
    { destruct weekly_plan as [|d plan]; [unfold Qle; simpl; lia|].
      apply average_nonneg. assumption. }
    split; [assumption|]. split; [|assumption].
    destruct (acc_min_time _) as [m|]; [exists m; auto|exists 0%Z; split; [reflexivity|lia]].
Qed.

(** The three-day plan of the specification's example. *)
Lemma cooking_time_stats_are_finite_and_nonnegative_witness :
  (0 <= total_minutes (analyze_cooking_times three_days))%Z
  /\ (0 <= average_per_day (analyze_cooking_times three_days))%Q
  /\ (0 <= max_day (analyze_cooking_times three_days))%Z
  /\ (exists m, min_day (analyze_cooking_times three_days) = Fin m /\ (0 <= m)%Z)
  /\ Forall (fun t => (0 <= t)%Z) (daily_times (analyze_cooking_times three_days)).
Proof.
  refine (proj2 (proj2 cooking_time_stats_are_finite_and_nonnegative) three_days _).
  unfold nonneg_times, three_days, day_of. simpl.
  repeat constructor; simpl; lia.
Defined.

(** The example of the specification: per-day totals 40, 50 and 30. *)
Example three_days_stats :
  analyze_cooking_times three_days
  = {| total_minutes := 120; average_per_day := 120 # 3; max_day := 50; min_day := Fin 30;
       daily_times := [40; 50; 30]%Z |}
  /\ (average_per_day (analyze_cooking_times three_days) == 40)%Q.
Proof. split; reflexivity. Qed.

End ScheduleFacts.

(** * Properties of the constraint aggregation *)

Module StoreFacts.
Import PyStr NutritionCompliance FamilyProfileStore StoreReading.

Lemma fold_update_sets ms acc :
  let sets := fold_left update_sets ms acc in
  all_allergies sets = all_allergies acc ∪ ⋃ (map (fun m => list_to_set (m_allergies m)) ms)
  /\ all_restrictions sets
     = all_restrictions acc ∪ ⋃ (map (fun m => list_to_set (m_dietary_restrictions m)) ms)
  /\ all_conditions sets
     = all_conditions acc ∪ ⋃ (map (fun m => list_to_set (m_health_conditions m)) ms)
  /\ all_dislikes sets = all_dislikes acc ∪ ⋃ (map (fun m => list_to_set (m_dislikes m)) ms).
Proof.
  revert acc. induction ms as [|m ms IH]; intros acc; simpl.
  - rewrite !union_empty_r_L. auto.
  - destruct (IH (update_sets acc m)) as (H1 & H2 & H3 & H4).
    rewrite H1, H2, H3, H4. simpl. rewrite <- !(assoc_L (∪)). auto.
Qed.

Lemma elem_of_field_union (field : Member -> list string) (ms : list (string * Member)) x :
  x ∈ (⋃ (map (fun m => list_to_set (field m)) (map snd ms)) : gset string)
  <-> listed field ms x.
Proof.
  unfold listed. rewrite elem_of_union_list. split.
  - intros (X & HX & Hx). apply list_elem_of_In, in_map_iff in HX as (m & <- & Hm).
    apply in_map_iff in Hm as (e & <- & He).
    exists e. split; [assumption|]. apply list_elem_of_In.
    apply elem_of_list_to_set in Hx. assumption.
  - intros (e & He & Hx). exists (list_to_set (field (snd e))). split.
    + apply list_elem_of_In, in_map_iff. exists (snd e). split; [reflexivity|].
      apply in_map. assumption.
    + apply elem_of_list_to_set, list_elem_of_In. assumption.
Qed.

Lemma listed_perm field ms1 ms2 x :
  Permutation ms1 ms2 -> listed field ms1 x -> listed field ms2 x.
Proof.
  intros Hp (e & He & Hx). exists e. split; [|assumption].
  eapply Permutation_in; eassumption.
Qed.

Lemma listed_forall2 (field : Member -> list string) (ms1 ms2 : list (string * Member)) x :
  Forall2 (fun e1 e2 => Permutation (field (snd e1)) (field (snd e2))) ms1 ms2 ->
  listed field ms1 x -> listed field ms2 x.
Proof.
  intros HF (e & He & Hx). induction HF as [|e1 e2 l1 l2 Hpe HF IH].
  - destruct He.
  - destruct He as [<-|He].
    + exists e2. split; [left; reflexivity|]. eapply Permutation_in; eassumption.
    + destruct (IH He) as (e' & He' & Hx'). exists e'. split; [right|]; assumption.
Qed.

Lemma Forall2_flip_perm (field : Member -> list string) (ms1 ms2 : list (string * Member)) :
  Forall2 (fun e1 e2 => Permutation (field (snd e1)) (field (snd e2))) ms1 ms2 ->
  Forall2 (fun e1 e2 => Permutation (field (snd e1)) (field (snd e2))) ms2 ms1.
Proof.
  induction 1; constructor; auto. symmetry. assumption.
Qed.

Lemma listed_roster_equiv (field : Member -> list string) (ms1 ms2 : list (string * Member)) :
  (exists ms, Permutation ms1 ms
              /\ Forall2 (fun e1 e2 => Permutation (field (snd e1)) (field (snd e2))) ms ms2) ->
  forall x, listed field ms1 x <-> listed field ms2 x.
Proof.
  intros (ms & Hp & HF) x. split; intros H.
  - eapply listed_forall2; [eassumption|]. eapply listed_perm; eassumption.
  - eapply listed_perm; [symmetry; eassumption|].
    eapply listed_forall2; [|eassumption]. apply Forall2_flip_perm. assumption.
Qed.

Lemma field_union_equiv (field : Member -> list string) (ms1 ms2 : list (string * Member)) :
  (exists ms, Permutation ms1 ms
              /\ Forall2 (fun e1 e2 => Permutation (field (snd e1)) (field (snd e2))) ms ms2) ->
  (⋃ (map (fun m => list_to_set (field m)) (map snd ms1)) : gset string)
  = ⋃ (map (fun m => list_to_set (field m)) (map snd ms2)).
Proof.
  intros H. apply set_eq. intros x. rewrite !elem_of_field_union.
  apply listed_roster_equiv. assumption.
Qed.

Lemma roster_equiv_field (P : Member -> Member -> Prop) ms1 ms2 :
  (forall m1 m2, member_equiv m1 m2 -> P m1 m2) ->
  roster_equiv ms1 ms2 ->
  exists ms, Permutation ms1 ms /\ Forall2 (fun e1 e2 => P (snd e1) (snd e2)) ms ms2.
Proof.
  intros HP (ms & Hp & HF). exists ms. split; [assumption|].
  clear Hp. induction HF as [|e1 e2 l1 l2 He HF IH]; constructor; [|exact IH].
  apply HP. exact He.
Qed.

(** The aggregated sets of a known household, as unions over its roster. *)
Lemma aggregate_members_unions ms :
  all_allergies (aggregate_members ms)
  = ⋃ (map (fun m => list_to_set (m_allergies m)) (map snd ms))
  /\ all_restrictions (aggregate_members ms)
     = ⋃ (map (fun m => list_to_set (m_dietary_restrictions m)) (map snd ms))
  /\ all_conditions (aggregate_members ms)
     = ⋃ (map (fun m => list_to_set (m_health_conditions m)) (map snd ms))
  /\ all_dislikes (aggregate_members ms)
     = ⋃ (map (fun m => list_to_set (m_dislikes m)) (map snd ms)).
Proof.
  unfold aggregate_members.
  destruct (fold_update_sets (map snd ms) empty_sets) as (H1 & H2 & H3 & H4).
  rewrite H1, H2, H3, H4. simpl. rewrite !union_empty_l_L. auto.
Qed.

Lemma aggregate_members_equiv ms1 ms2 :
  roster_equiv ms1 ms2 -> aggregate_members ms1 = aggregate_members ms2.
Proof.
  intros H.
  destruct (aggregate_members_unions ms1) as (A1 & B1 & C1 & D1).
  destruct (aggregate_members_unions ms2) as (A2 & B2 & C2 & D2).
  destruct (aggregate_members ms1) as [a1 b1 c1 d1], (aggregate_members ms2) as [a2 b2 c2 d2].
  simpl in *. subst. f_equal; apply field_union_equiv.
  - apply (roster_equiv_field (fun m1 m2 => Permutation (m_allergies m1) (m_allergies m2)));
      [intros ? ? (? & ? & ? & ?); assumption|assumption].
  - apply (roster_equiv_field
             (fun m1 m2 => Permutation (m_dietary_restrictions m1) (m_dietary_restrictions m2)));
      [intros ? ? (? & ? & ? & ?); assumption|assumption].
  - apply (roster_equiv_field
             (fun m1 m2 => Permutation (m_health_conditions m1) (m_health_conditions m2)));
      [intros ? ? (? & ? & ? & ?); assumption|assumption].
  - apply (roster_equiv_field (fun m1 m2 => Permutation (m_dislikes m1) (m_dislikes m2)));
      [intros ? ? (? & ? & ? & ?); assumption|assumption].
Qed.

Lemma In_elements_union (field : Member -> list string) ms x :
  In x (elements (⋃ (map (fun m => list_to_set (field m)) (map snd ms)) : gset string))
  <-> listed field ms x.
Proof.
  rewrite <- list_elem_of_In, elem_of_elements. apply elem_of_field_union.
Qed.

(** C5, as the code has it.  The aggregation is a function of the
    household, and for a known household each of the four lists holds,
    without repetition, exactly the strings that some member lists; two
    rosters that differ only in the order of the members and of the entries
    of each member's lists aggregate to the same entries.  Strings are
    compared as they are written. *)
Theorem aggregation_is_order_independent_union profiles1 profiles2 id h1 h2 :
  profiles1 !! id = Some h1 ->
  profiles2 !! id = Some h2 ->
  roster_equiv (members h1) (members h2) ->
  let r1 := get_all_constraints profiles1 id in
  let r2 := get_all_constraints profiles2 id in
  (Permutation (sc_allergies r1) (sc_allergies r2)
   /\ Permutation (sc_dietary_restrictions r1) (sc_dietary_restrictions r2)
   /\ Permutation (sc_health_conditions r1) (sc_health_conditions r2)
   /\ Permutation (sc_dislikes r1) (sc_dislikes r2))
  /\ (NoDup (sc_allergies r1) /\ NoDup (sc_dietary_restrictions r1)
      /\ NoDup (sc_health_conditions r1) /\ NoDup (sc_dislikes r1))
  /\ (forall x, In x (sc_allergies r1) <-> listed m_allergies (members h1) x)
  /\ (forall x, In x (sc_dietary_restrictions r1)
                <-> listed m_dietary_restrictions (members h1) x)
  /\ (forall x, In x (sc_health_conditions r1) <-> listed m_health_conditions (members h1) x)
  /\ (forall x, In x (sc_dislikes r1) <-> listed m_dislikes (members h1) x).
Proof.
  intros H1 H2 Hr. unfold get_all_constraints, get_household. rewrite H1, H2. simpl.
  rewrite (aggregate_members_equiv _ _ Hr).
  split; [repeat split; reflexivity|].
  split; [repeat split; apply NoDup_elements|].
  rewrite <- (aggregate_members_equiv _ _ Hr).
  destruct (aggregate_members_unions (members h1)) as (A & B & C & D).
  rewrite A, B, C, D.
  repeat split; intros; apply In_elements_union; assumption.
Qed.

(** The roster with its members and Bob's allergies swapped. *)
Lemma aggregation_is_order_independent_union_witness :
  Permutation
    (sc_allergies (get_all_constraints (store_of casing_roster) "home"))
    (sc_allergies (get_all_constraints (store_of casing_roster_permuted) "home")).
Proof.
  refine (proj1 (proj1 (aggregation_is_order_independent_union
                          (store_of casing_roster) (store_of casing_roster_permuted) "home"
                          (household_of casing_roster) (household_of casing_roster_permuted)
                          eq_refl eq_refl _))).
  exists [("Bob", bob_lower); ("Alice", alice_caps)]. split.
  - apply perm_swap.
  - constructor; [|constructor; [|constructor]].
    + repeat split; simpl; try reflexivity. apply perm_swap.
    + repeat split; reflexivity.
Defined.

(** C5, as the specification words it, fails: "Peanuts" and "peanuts" are
    the same allergen up to case, and the aggregated list keeps both. *)
Lemma case_variants_are_both_kept :
  lower "Peanuts" = lower "peanuts"
  /\ In "Peanuts" (sc_allergies (get_all_constraints (store_of casing_roster) "home"))
  /\ In "peanuts" (sc_allergies (get_all_constraints (store_of casing_roster) "home"))
  /\ length (sc_allergies (get_all_constraints (store_of casing_roster) "home")) = 3.
Proof.
  vm_compute. repeat split; auto.
Qed.

End StoreFacts.

(** * Properties of the guideline lookup *)

Module MemoryFacts.
Import PyStr NutritionCompliance SessionManager MemoryReading.

Lemma lower_ascii_not_upper_P c : lower_ascii c <> "P"%char.
Proof.
  destruct c as [[] [] [] [] [] [] [] []]; vm_compute; discriminate.
Qed.

(** No spelling of a condition is folded to the key "PCOS". *)
Lemma lower_never_PCOS condition : lower condition <> "PCOS".
Proof.
  destruct condition as [|c rest]; simpl; [discriminate|].
  intros H. injection H as Hc _. exact (lower_ascii_not_upper_P c Hc).
Qed.

(** An unknown condition resolves to empty lists. *)
Lemma unknown_condition_has_no_guidelines memory condition :
  health_condition_mappings memory !! lower condition = None ->
  get_health_condition_guidelines memory condition = no_guidelines.
Proof.
  intros H. unfold get_health_condition_guidelines. rewrite H. reflexivity.
Qed.

(** C6.  The failing input of the guideline lookup.  The default memory
    holds guideline data for PCOS under the key "PCOS", but the lookup
    lower-cases the condition before reading the table and no lower-cased
    string equals "PCOS": for "PCOS", however it is spelled, the lookup
    returns empty avoid and prefer lists, and the constraints of a household
    with a PCOS member carry empty guidelines.  The lookup of "diabetes",
    "high blood pressure" and "gluten intolerance" returns the default data,
    and an unknown condition resolves to empty lists. *)
Theorem pcos_guidelines_are_unreachable :
  health_condition_mappings _initialize_memory_structure !! "PCOS" = Some pcos_entry
  /\ (forall condition, String.eqb (lower condition) "PCOS" = false)
  /\ get_health_condition_guidelines _initialize_memory_structure "PCOS" = no_guidelines
  /\ get_health_condition_guidelines _initialize_memory_structure "pcos" = no_guidelines
  /\ c_health_guidelines
       (ProfileManager.get_all_constraints pcos_household _initialize_memory_structure "home")
     !! "PCOS" = Some no_guidelines
  /\ get_health_condition_guidelines _initialize_memory_structure "Diabetes"
     = {| avoid := ["sugar"; "white bread"; "candy"; "soda"];
          prefer := ["whole grains"; "vegetables"; "lean protein"] |}
  /\ get_health_condition_guidelines _initialize_memory_structure "high blood pressure"
     = {| avoid := ["salt"; "processed foods"; "fatty meats"];
          prefer := ["low sodium"; "vegetables"; "whole grains"] |}
  /\ get_health_condition_guidelines _initialize_memory_structure "gluten intolerance"
     = {| avoid := ["wheat"; "barley"; "rye"];
          prefer := ["rice"; "quinoa"; "gluten-free grains"] |}
  /\ get_health_condition_guidelines _initialize_memory_structure "asthma" = no_guidelines.
Proof.
  split; [vm_compute; reflexivity|].
  split; [intros condition; apply String.eqb_neq, lower_never_PCOS|].
  repeat split; vm_compute; reflexivity.
Qed.

End MemoryFacts.
(** * Properties of the orchestrator *)

Module OrchestratorFacts.
Import PyStr NutritionCompliance ScheduleOptimizer RecipeGenerator Orchestrator.
Import OrchestratorReading ValidatorFacts.

Lemma failed_slots_app l1 l2 : failed_slots (l1 ++ l2) = failed_slots l1 ++ failed_slots l2.
Proof. unfold failed_slots. apply flat_map_app. Qed.

Section Runs.

Variable SourceState : Type.
Variable generate : string -> PlanningContext -> Constraints -> option string -> Z ->
                    SourceState -> option (Recipe * SourceState).
Variable lookup : string -> float -> option Nutrition.
Variable planning_context : PlanningContext.
Variable constraints : Constraints.
Variable max_retries : Z.

Local Notation "'calls' w" := (length (generation_calls w)) (at level 10, w at level 9).

Local Notation "'attempts'" := (attempt_loop SourceState generate lookup).
Local Notation "'validated_slot'" := (_generate_validated_recipe SourceState generate lookup).

(** One call of the Recipe Source that returns: the answer, one more
    recorded call, the log untouched. *)
Lemma generate_recipe_run meal additional retry (w : World SourceState) recipe w' :
  generate_recipe SourceState generate meal planning_context constraints additional retry w
  = Some (recipe, w') ->
  generate meal planning_context constraints additional retry (source_state w)
  = Some (recipe, source_state w')
  /\ calls w' = S (calls w)
  /\ log w' = log w.
Proof.
  unfold generate_recipe.
  destruct (generate meal planning_context constraints additional retry (source_state w))
    as [[answer s]|]; [|discriminate].
  intros [= <- <-]. cbn. rewrite length_app. cbn. repeat split. lia.
Qed.

(** A call returns when the Recipe Source does. *)
Lemma generate_recipe_returns meal additional retry (w : World SourceState) recipe s :
  generate meal planning_context constraints additional retry (source_state w)
  = Some (recipe, s) ->
  exists w',
    generate_recipe SourceState generate meal planning_context constraints additional retry w
    = Some (recipe, w').
Proof. unfold generate_recipe. intros ->. eexists. reflexivity. Qed.

(** One turn of the loop of attempts that does not raise. *)
Lemma attempt_loop_turn meal k attempt (w : World SourceState) r w' :
  attempts meal planning_context constraints max_retries (S k) attempt w = Some (r, w') ->
  exists recipe w1 validation,
    generate_recipe SourceState generate meal planning_context constraints None attempt w
    = Some (recipe, w1)
    /\ validate_recipe lookup (model_dump recipe) planning_context constraints
       = Some validation
    /\ ((is_compliant validation = true
         /\ r = Some (accept (model_dump recipe) validation) /\ w' = w1)
        \/ (is_compliant validation = false
            /\ exists w2,
                 log w2 = log w1 ++ [recipe_validation_failed
                                       (name recipe) (attempt + 1)
                                       (length (violations validation))]
                 /\ (calls w2 <= S (calls w1))%nat
                 /\ ((attempt <? max_retries - 1)%Z = false -> calls w2 = calls w1)
                 /\ attempts meal planning_context constraints max_retries k (attempt + 1)%Z w2
                    = Some (r, w'))).
Proof.
  cbn [attempt_loop]. unfold bind at 1. intros Hrun.
  destruct (generate_recipe SourceState generate meal planning_context constraints None
              attempt w) as [[recipe w1]|] eqn:G; [|discriminate].
  unfold bind at 1, raise_or in Hrun.
  destruct (validate_recipe lookup (model_dump recipe) planning_context constraints)
    as [validation|] eqn:V; [|discriminate].
  exists recipe, w1, validation. split; [reflexivity|]. split; [exact V|].
  destruct (is_compliant validation) eqn:C.
  - left. injection Hrun as <- <-. auto.
  - right. split; [reflexivity|].
    unfold bind at 1, log_event in Hrun. unfold bind at 1 in Hrun.
    destruct (attempt <? max_retries - 1)%Z eqn:A.
    + unfold bind at 1, regenerate_recipe in Hrun.
      match type of Hrun with
      | context [generate_recipe _ _ ?m _ _ ?a ?rc ?w0] =>
          destruct (generate_recipe SourceState generate m planning_context constraints
                      a rc w0) as [[r2 w2]|] eqn:G2; [|discriminate];
          apply generate_recipe_run in G2 as (_ & Hc2 & Hl2)
      end.
      unfold ret at 1 in Hrun. exists w2. cbn in Hc2, Hl2.
      split; [exact Hl2|]. split; [lia|]. split; [discriminate|exact Hrun].
    + unfold ret at 1 in Hrun. eexists. split; [|split; [|split; [|exact Hrun]]].
      * reflexivity.
      * cbn. lia.
      * reflexivity.
Qed.

(** The loop of attempts: what it returns was accepted, it reports no slot
    failure itself, and with [remaining] turns left it calls the Recipe
    Source at most [2 * remaining - 1] times. *)
Lemma attempt_loop_spec meal remaining attempt (w : World SourceState) r w' :
  attempts meal planning_context constraints max_retries remaining attempt w = Some (r, w') ->
  (remaining = 0%nat \/ (Z.of_nat remaining + attempt = max_retries)%Z) ->
  (forall rd, r = Some rd -> accepted lookup planning_context constraints rd)
  /\ failed_slots (log w') = failed_slots (log w)
  /\ (calls w' <= calls w + (2 * remaining - 1))%nat.
Proof.
  revert attempt w. induction remaining as [|k IH]; intros attempt w Hrun Hinv.
  - cbn in Hrun. injection Hrun as <- <-.
    split; [discriminate|]. split; [reflexivity|lia].
  - destruct Hinv as [Hinv|Hinv]; [discriminate|].
    apply attempt_loop_turn in Hrun
      as (recipe & w1 & validation & G & V & [(C & -> & ->)|(C & w2 & Hl2 & Hc2 & Hlast & L)]);
      apply generate_recipe_run in G as (_ & Hc1 & Hl1).
    + split; [|split; [congruence|lia]].
      intros rd [= <-]. exists recipe, validation. auto.
    + assert (Hk : k = 0%nat \/ (Z.of_nat k + (attempt + 1) = max_retries)%Z)
        by (destruct k; [left; reflexivity|right; lia]).
      apply IH in L as (Ha & Hf & Hb); [|exact Hk].
      split; [exact Ha|]. split.
      { rewrite Hf, Hl2, failed_slots_app, Hl1. cbn. apply app_nil_r. }
      destruct k as [|k'].
      * assert (A : (attempt <? max_retries - 1)%Z = false) by (apply Z.ltb_ge; lia).
        rewrite (Hlast A) in Hb. lia.
      * lia.
Qed.

(** The loop of attempts, read from the log: the candidates it rejected,
    one for each attempt made, and the one it accepted, if any. *)
Lemma attempt_loop_outcome meal remaining attempt (w : World SourceState) r w' :
  attempts meal planning_context constraints max_retries remaining attempt w = Some (r, w') ->
  exists tried,
    rejected_from SourceState generate lookup planning_context constraints meal attempt tried
    /\ log w' = log w ++ rejection_events attempt tried
    /\ match r with
       | Some recipe_dict =>
           (length tried < remaining)%nat
           /\ exists recipe validation,
                attempt_answer SourceState generate planning_context constraints meal
                               (attempt + Z.of_nat (length tried)) recipe
                /\ validate_recipe lookup (model_dump recipe) planning_context constraints
                   = Some validation
                /\ is_compliant validation = true
                /\ recipe_dict = accept (model_dump recipe) validation
       | None => length tried = remaining
       end.
Proof.
  revert attempt w. induction remaining as [|k IH]; intros attempt w Hrun.
  - cbn in Hrun. injection Hrun as <- <-. exists []. cbn.
    rewrite app_nil_r. auto.
  - apply attempt_loop_turn in Hrun
      as (recipe & w1 & validation & G & V & [(C & -> & ->)|(C & w2 & Hl2 & _ & _ & L)]);
      apply generate_recipe_run in G as (G & _ & Hl1).
    + exists []. cbn. rewrite app_nil_r, Z.add_0_r.
      split; [exact I|]. split; [exact Hl1|]. split; [lia|].
      exists recipe, validation. split; [|auto].
      exists (source_state w), (source_state w1). exact G.
    + apply IH in L as (tried & Hrej & Hlog & Hr).
      exists ((recipe, validation) :: tried). split; [|split].
      * cbn. split; [|auto].
        exists (source_state w), (source_state w1). exact G.
      * rewrite Hlog, Hl2, Hl1, <- app_assoc. reflexivity.
      * destruct r as [rd|].
        -- destruct Hr as (Hlen & recipe' & validation' & Ha & Hrest).
           split; [cbn [length]; lia|].
           exists recipe', validation'. split; [|exact Hrest].
           replace (attempt + Z.of_nat (length ((recipe, validation) :: tried)))%Z
             with (attempt + 1 + Z.of_nat (length tried))%Z by (cbn [length]; lia).
           exact Ha.
        -- cbn [length]. lia.
Qed.

(** The loop only appends to the log. *)
Lemma attempt_loop_log meal remaining attempt (w : World SourceState) r w' :
  attempts meal planning_context constraints max_retries remaining attempt w = Some (r, w') ->
  exists events, log w' = log w ++ events.
Proof.
  intros Hrun. apply attempt_loop_outcome in Hrun as (tried & _ & Hlog & _).
  eexists. exact Hlog.
Qed.

Lemma _generate_validated_recipe_spec meal (w : World SourceState) r w' :
  validated_slot meal planning_context constraints max_retries w = Some (r, w') ->
  (forall rd, r = Some rd -> accepted lookup planning_context constraints rd)
  /\ failed_slots (log w') = failed_slots (log w)
  /\ (calls w' <= calls w + (2 * Z.to_nat max_retries - 1))%nat
  /\ (r = None ->
      exists events, log w' = log w ++ events
                                    ++ [recipe_generation_exhausted meal max_retries]).
Proof.
  unfold _generate_validated_recipe, bind at 1. intros Hrun.
  destruct (attempts meal planning_context constraints max_retries
                     (Z.to_nat max_retries) 0 w) as [[r0 w0]|] eqn:L; [|discriminate].
  pose proof (attempt_loop_log _ _ _ _ _ _ L) as (events & Hev).
  apply attempt_loop_spec in L as (Ha & Hf & Hb);
    [|destruct (Z.to_nat max_retries) eqn:E; [left; reflexivity|right; lia]].
  destruct r0 as [rd|].
  - injection Hrun as <- <-. split; [exact Ha|]. split; [exact Hf|].
    split; [exact Hb|discriminate].
  - unfold bind, log_event, ret in Hrun. injection Hrun as <- <-. cbn.
    split; [discriminate|]. split.
    { rewrite failed_slots_app, Hf. cbn. apply app_nil_r. }
    split; [exact Hb|]. intros _. exists events. rewrite Hev, <- app_assoc. reflexivity.
Qed.

(** One slot: either one accepted meal is appended, or the day's meals are
    left as they are and the slot is logged as failed. *)
Lemma plan_meal_spec day_num day_meals meal (w : World SourceState) day_meals' w' :
  plan_meal SourceState generate lookup planning_context constraints max_retries
            day_num day_meals meal w = Some (day_meals', w') ->
  (calls w' <= calls w + (2 * Z.to_nat max_retries - 1))%nat
  /\ ((exists rd, day_meals' = day_meals ++ [rd]
                  /\ accepted lookup planning_context constraints rd
                  /\ failed_slots (log w') = failed_slots (log w))
      \/ (day_meals' = day_meals
          /\ failed_slots (log w') = failed_slots (log w) ++ [(day_num, meal)])).
Proof.
  unfold plan_meal, bind at 1. intros Hrun.
  destruct (validated_slot meal planning_context constraints max_retries w)
    as [[r w0]|] eqn:G; [|discriminate].
  apply _generate_validated_recipe_spec in G as (Ha & Hf & Hb & _).
  destruct r as [rd|].
  - injection Hrun as <- <-. split; [exact Hb|]. left. exists rd. auto.
  - unfold bind, log_event, ret in Hrun. injection Hrun as <- <-. cbn.
    split; [exact Hb|]. right. split; [reflexivity|].
    rewrite failed_slots_app, Hf. reflexivity.
Qed.

Lemma plan_meals_spec day_num types day_meals (w : World SourceState) day_meals' w' :
  plan_meals SourceState generate lookup planning_context constraints max_retries
             day_num types day_meals w = Some (day_meals', w') ->
  exists added failed,
    day_meals' = day_meals ++ added
    /\ Forall (accepted lookup planning_context constraints) added
    /\ failed_slots (log w') = failed_slots (log w) ++ map (pair day_num) failed
    /\ (length added + length failed = length types)%nat
    /\ (calls w' <= calls w + length types * (2 * Z.to_nat max_retries - 1))%nat.
Proof.
  revert day_meals w. induction types as [|meal types IH]; intros day_meals w Hrun.
  - simpl in Hrun. injection Hrun as <- <-. exists [], []. simpl.
    rewrite !app_nil_r. repeat split; try reflexivity; try constructor; lia.
  - simpl in Hrun. unfold bind at 1 in Hrun.
    destruct (plan_meal SourceState generate lookup planning_context constraints max_retries
                        day_num day_meals meal w) as [[meals1 w1]|] eqn:P; [|discriminate].
    apply plan_meal_spec in P as (Hb1 & Hcase).
    apply IH in Hrun as (added & failed & Hm & Ha & Hf & Hn & Hb).
    destruct Hcase as [(rd & -> & Hacc & Hf1)|(-> & Hf1)].
    + exists (rd :: added), failed. repeat split.
      * rewrite Hm, <- app_assoc. reflexivity.
      * constructor; assumption.
      * rewrite Hf, Hf1. reflexivity.
      * simpl. lia.
      * simpl. lia.
    + exists added, (meal :: failed). repeat split.
      * exact Hm.
      * exact Ha.
      * rewrite Hf, Hf1, <- app_assoc. reflexivity.
      * simpl. lia.
      * simpl. lia.
Qed.

Lemma plan_days_spec remaining day_num weekly_plan (w : World SourceState) weekly_plan' w' :
  plan_days SourceState generate lookup planning_context constraints max_retries
            remaining day_num weekly_plan w = Some (weekly_plan', w') ->
  exists new_days failed,
    weekly_plan' = weekly_plan ++ new_days
    /\ map day new_days = day_numbers remaining day_num
    /\ Forall (fun d => Forall (accepted lookup planning_context constraints) (meals d)
                        /\ (length (meals d) <= 3)%nat) new_days
    /\ failed_slots (log w') = failed_slots (log w) ++ failed
    /\ (total_meals new_days + length failed = 3 * remaining)%nat
    /\ (calls w' <= calls w + 3 * remaining * (2 * Z.to_nat max_retries - 1))%nat.
Proof.
  revert day_num weekly_plan w. induction remaining as [|k IH];
    intros day_num weekly_plan w Hrun.
  - simpl in Hrun. injection Hrun as <- <-. exists [], []. simpl.
    rewrite !app_nil_r. repeat split; try reflexivity; try constructor; lia.
  - cbn [plan_days] in Hrun. unfold bind at 1 in Hrun.
    destruct (plan_meals SourceState generate lookup planning_context constraints max_retries
                         day_num meal_types [] w) as [[day_meals w1]|] eqn:P; [|discriminate].
    apply plan_meals_spec in P as (added & failed1 & Hm & Ha & Hf1 & Hn1 & Hb1).
    simpl in Hm. subst day_meals.
    apply IH in Hrun as (new_days & failed & Hp & Hd & Hall & Hf & Hn & Hb).
    exists ({| day := day_num; meals := added |} :: new_days),
           (map (pair day_num) failed1 ++ failed).
    simpl in Hn1. repeat split.
    + rewrite Hp, <- app_assoc. reflexivity.
    + simpl. rewrite Hd. reflexivity.
    + constructor; [|exact Hall]. simpl. split; [exact Ha|lia].
    + rewrite Hf, Hf1, <- app_assoc. reflexivity.
    + unfold total_meals in *. simpl. rewrite !length_app, length_map. lia.
    + simpl in Hb1. lia.
Qed.

(** Revalidating an accepted meal gives the verdict it was accepted on: the
    attached summary and flag are not read by the validator. *)
Lemma accepted_is_compliant meal :
  accepted lookup planning_context constraints meal ->
  exists vr, validate_recipe lookup meal planning_context constraints = Some vr
             /\ is_compliant vr = true.
Proof.
  intros (recipe & vr & -> & Hv & Hc). exists vr. split; [|exact Hc].
  rewrite <- Hv. reflexivity.
Qed.

(** *** Runs, slot by slot *)

Local Notation "'outcome_of'" :=
  (slot_outcome SourceState generate lookup planning_context constraints max_retries).
Local Notation "'run_of'" :=
  (slots_run SourceState generate lookup planning_context constraints max_retries).

Lemma _generate_validated_recipe_outcome meal (w : World SourceState) r w' :
  validated_slot meal planning_context constraints max_retries w = Some (r, w') ->
  exists tried,
    rejected_from SourceState generate lookup planning_context constraints meal 0 tried
    /\ match r with
       | Some recipe_dict =>
           (length tried < Z.to_nat max_retries)%nat
           /\ (exists recipe validation,
                 attempt_answer SourceState generate planning_context constraints meal
                                (Z.of_nat (length tried)) recipe
                 /\ validate_recipe lookup (model_dump recipe) planning_context constraints
                    = Some validation
                 /\ is_compliant validation = true
                 /\ recipe_dict = accept (model_dump recipe) validation)
           /\ log w' = log w ++ rejection_events 0 tried
       | None =>
           length tried = Z.to_nat max_retries
           /\ log w' = log w ++ rejection_events 0 tried
                             ++ [recipe_generation_exhausted meal max_retries]
       end.
Proof.
  unfold _generate_validated_recipe, bind at 1. intros Hrun.
  destruct (attempts meal planning_context constraints max_retries
                     (Z.to_nat max_retries) 0 w) as [[r0 w0]|] eqn:L; [|discriminate].
  apply attempt_loop_outcome in L as (tried & Hrej & Hlog & Hr).
  exists tried. split; [exact Hrej|].
  destruct r0 as [rd|].
  - injection Hrun as <- <-. destruct Hr as (Hlen & Hacc). auto.
  - unfold bind, log_event, ret in Hrun. injection Hrun as <- <-. cbn.
    split; [exact Hr|]. rewrite Hlog, <- app_assoc. reflexivity.
Qed.

(** One slot as the plan sees it: the recipe of the outcome, if any, is
    appended to the day's meals. *)
Lemma plan_meal_outcome day_num day_meals meal (w : World SourceState) day_meals' w' :
  plan_meal SourceState generate lookup planning_context constraints max_retries
            day_num day_meals meal w = Some (day_meals', w') ->
  exists outcome,
    outcome_of day_num meal w w' outcome
    /\ day_meals' = day_meals ++ omap id [outcome].
Proof.
  unfold plan_meal, bind at 1. intros Hrun.
  destruct (validated_slot meal planning_context constraints max_retries w)
    as [[r w0]|] eqn:G; [|discriminate].
  apply _generate_validated_recipe_outcome in G as (tried & Hrej & Hr).
  exists r. destruct r as [rd|].
  - injection Hrun as <- <-. split; [|reflexivity].
    exists tried. split; [exact Hrej|exact Hr].
  - unfold bind, log_event, ret in Hrun. injection Hrun as <- <-.
    split; [|cbn; rewrite app_nil_r; reflexivity].
    exists tried. split; [exact Hrej|]. destruct Hr as (Hlen & Hlog).
    split; [exact Hlen|]. cbn. rewrite Hlog, <- !app_assoc. reflexivity.
Qed.

Lemma slots_run_app slots1 slots2 outcomes1 outcomes2 (w w1 w' : World SourceState) :
  run_of slots1 w outcomes1 w1 ->
  run_of slots2 w1 outcomes2 w' ->
  run_of (slots1 ++ slots2) w (outcomes1 ++ outcomes2) w'.
Proof.
  revert outcomes1 w. induction slots1 as [|[day_num meal] slots1 IH];
    intros [|outcome outcomes1] w H1 H2; cbn in H1; try contradiction.
  - subst w1. exact H2.
  - destruct H1 as (w0 & Hslot & Hrest). cbn. exists w0. split; [exact Hslot|].
    exact (IH _ _ Hrest H2).
Qed.

Lemma slots_run_length slots outcomes (w w' : World SourceState) :
  run_of slots w outcomes w' -> length outcomes = length slots.
Proof.
  revert outcomes w. induction slots as [|[day_num meal] slots IH];
    intros [|outcome outcomes] w H; cbn in H; try contradiction; [reflexivity|].
  destruct H as (w0 & _ & Hrest). cbn. f_equal. exact (IH _ _ Hrest).
Qed.

Lemma failed_slots_rejection_events attempt tried :
  failed_slots (rejection_events attempt tried) = [].
Proof.
  revert attempt. induction tried as [|[recipe validation] tried IH]; intros attempt;
    [reflexivity|]. cbn. apply IH.
Qed.

(** The failures the log reports are those of the slots left without a
    recipe, in planning order. *)
Lemma slots_run_failed_slots slots outcomes (w w' : World SourceState) :
  run_of slots w outcomes w' ->
  failed_slots (log w') = failed_slots (log w) ++ unfilled slots outcomes.
Proof.
  revert outcomes w. induction slots as [|[day_num meal] slots IH];
    intros [|outcome outcomes] w H; cbn in H; try contradiction.
  - subst w'. cbn. rewrite app_nil_r. reflexivity.
  - destruct H as (w0 & (tried & _ & Hslot) & Hrest).
    rewrite (IH _ _ Hrest). destruct outcome as [rd|].
    + destruct Hslot as (_ & _ & Hlog). rewrite Hlog, failed_slots_app.
      rewrite failed_slots_rejection_events, app_nil_r. reflexivity.
    + destruct Hslot as (_ & Hlog). rewrite Hlog, !failed_slots_app.
      rewrite failed_slots_rejection_events. cbn. rewrite <- app_assoc. reflexivity.
Qed.

Lemma plan_meals_outcome day_num types day_meals (w : World SourceState) day_meals' w' :
  plan_meals SourceState generate lookup planning_context constraints max_retries
             day_num types day_meals w = Some (day_meals', w') ->
  exists outcomes,
    run_of (map (pair day_num) types) w outcomes w'
    /\ day_meals' = day_meals ++ omap id outcomes.
Proof.
  revert day_meals w. induction types as [|meal types IH]; intros day_meals w Hrun.
  - cbn in Hrun. injection Hrun as <- <-. exists []. cbn.
    rewrite app_nil_r. auto.
  - cbn [plan_meals] in Hrun. unfold bind at 1 in Hrun.
    destruct (plan_meal SourceState generate lookup planning_context constraints max_retries
                        day_num day_meals meal w) as [[meals1 w1]|] eqn:P; [|discriminate].
    apply plan_meal_outcome in P as (outcome & Hslot & ->).
    apply IH in Hrun as (outcomes & Hrest & ->).
    exists (outcome :: outcomes). split.
    + cbn. exists w1. auto.
    + rewrite <- app_assoc. f_equal. destruct outcome; reflexivity.
Qed.

Lemma plan_days_outcome remaining day_num weekly_plan (w : World SourceState)
  weekly_plan' w' :
  plan_days SourceState generate lookup planning_context constraints max_retries
            remaining day_num weekly_plan w = Some (weekly_plan', w') ->
  exists outcomes,
    run_of (flat_map (fun d => map (pair d) meal_types) (day_numbers remaining day_num))
           w outcomes w'
    /\ weekly_plan' = weekly_plan ++ plan_of (day_numbers remaining day_num) outcomes.
Proof.
  revert day_num weekly_plan w. induction remaining as [|k IH];
    intros day_num weekly_plan w Hrun.
  - cbn in Hrun. injection Hrun as <- <-. exists []. cbn.
    rewrite app_nil_r. auto.
  - cbn [plan_days] in Hrun. unfold bind at 1 in Hrun.
    destruct (plan_meals SourceState generate lookup planning_context constraints max_retries
                         day_num meal_types [] w) as [[day_meals w1]|] eqn:P; [|discriminate].
    apply plan_meals_outcome in P as (outcomes1 & Hday & ->).
    apply IH in Hrun as (outcomes & Hrest & ->).
    pose proof (slots_run_length _ _ _ _ Hday) as Hlen. cbn in Hlen.
    exists (outcomes1 ++ outcomes). split.
    + cbn [day_numbers flat_map]. exact (slots_run_app _ _ _ _ _ _ _ Hday Hrest).
    + cbn [day_numbers plan_of]. rewrite <- app_assoc. f_equal. cbn [app]. f_equal.
      * f_equal. rewrite take_app_length'; [reflexivity|symmetry; exact Hlen].
      * rewrite drop_app_length'; [reflexivity|symmetry; exact Hlen].
Qed.

(** *** Runs that do not raise *)

Hypothesis source_returns :
  forall meal additional retry s,
    exists answer, generate meal planning_context constraints additional retry s = Some answer.

(** The validator returns on every answer to an attempt for [meal]. *)
Definition validation_returns (meal : string) : Prop :=
  forall attempt s recipe s',
    generate meal planning_context constraints None attempt s = Some (recipe, s') ->
    exists vr,
      validate_recipe lookup (model_dump recipe) planning_context constraints = Some vr.

Lemma attempt_loop_total meal remaining attempt (w : World SourceState) :
  validation_returns meal ->
  exists r w',
    attempts meal planning_context constraints max_retries remaining attempt w = Some (r, w').
Proof.
  intros Hval. revert attempt w. induction remaining as [|k IH]; intros attempt w.
  - cbn. eexists. eexists. reflexivity.
  - cbn [attempt_loop]. unfold bind at 1.
    destruct (source_returns meal None attempt (source_state w)) as [[recipe s1] G].
    destruct (generate_recipe_returns _ _ _ _ _ _ G) as (w1 & G1). rewrite G1.
    unfold bind at 1, raise_or.
    destruct (Hval _ _ _ _ G) as [validation V]. rewrite V.
    destruct (is_compliant validation).
    + eexists. eexists. reflexivity.
    + unfold bind at 1, log_event. unfold bind at 1.
      destruct (attempt <? max_retries - 1)%Z.
      * unfold bind at 1, regenerate_recipe.
        match goal with
        | |- context [generate_recipe _ _ ?m _ _ ?a ?rc ?w0] =>
            destruct (source_returns m a rc (source_state w0)) as [[r2 s2] G2];
            destruct (generate_recipe_returns _ _ _ _ _ _ G2) as (w2 & G3); rewrite G3
        end.
        unfold ret at 1. apply IH.
      * unfold ret at 1. apply IH.
Qed.

Lemma _generate_validated_recipe_total meal (w : World SourceState) :
  validation_returns meal ->
  exists r w',
    validated_slot meal planning_context constraints max_retries w = Some (r, w').
Proof.
  intros Hval. unfold _generate_validated_recipe, bind at 1.
  destruct (attempt_loop_total meal (Z.to_nat max_retries) 0 w Hval) as (r & w1 & L).
  rewrite L. destruct r; eexists; eexists; reflexivity.
Qed.

Lemma plan_meal_total day_num day_meals meal (w : World SourceState) :
  validation_returns meal ->
  exists day_meals' w',
    plan_meal SourceState generate lookup planning_context constraints max_retries
              day_num day_meals meal w = Some (day_meals', w').
Proof.
  intros Hval. unfold plan_meal, bind at 1.
  destruct (_generate_validated_recipe_total meal w Hval) as (r & w1 & G).
  rewrite G. destruct r; eexists; eexists; reflexivity.
Qed.

Lemma plan_meals_total day_num types day_meals (w : World SourceState) :
  (forall meal, In meal types -> validation_returns meal) ->
  exists day_meals' w',
    plan_meals SourceState generate lookup planning_context constraints max_retries
               day_num types day_meals w = Some (day_meals', w').
Proof.
  revert day_meals w. induction types as [|meal types IH]; intros day_meals w Hval.
  - eexists. eexists. reflexivity.
  - cbn [plan_meals]. unfold bind at 1.
    destruct (plan_meal_total day_num day_meals meal w) as (m1 & w1 & P).
    { apply Hval. left. reflexivity. }
    rewrite P. apply IH. intros m Hm. apply Hval. right. exact Hm.
Qed.

Lemma plan_days_total remaining day_num weekly_plan (w : World SourceState) :
  (forall meal, In meal meal_types -> validation_returns meal) ->
  exists weekly_plan' w',
    plan_days SourceState generate lookup planning_context constraints max_retries
              remaining day_num weekly_plan w = Some (weekly_plan', w').
Proof.
  intros Hval. revert day_num weekly_plan w.
  induction remaining as [|k IH]; intros day_num weekly_plan w.
  - eexists. eexists. reflexivity.
  - cbn [plan_days]. unfold bind at 1.
    destruct (plan_meals_total day_num meal_types [] w Hval) as (m1 & w1 & P).
    rewrite P. apply IH.
Qed.

End Runs.

End OrchestratorFacts.

Module OrchestratorClaims.
Import PyStr NutritionCompliance ScheduleOptimizer RecipeGenerator Orchestrator.
Import OrchestratorReading ValidatorFacts OrchestratorFacts.

(** C1.  The failing input of the retry bound.  With two attempts allowed
    and a Recipe Source that violates on its first answer and complies on
    every later one, the slot costs three generation calls, not two: the
    first attempt, the regeneration with feedback, and the second attempt.
    The answer to the regeneration call is never validated; the accepted
    recipe is the third answer.  When only the second answer complies, that
    answer is discarded in the same way and the slot fails. *)
Theorem retry_discards_the_regenerated_recipe :
  (exists rd w',
     _generate_validated_recipe nat violating_then_compliant NutritionLookup.lookup
       "breakfast" bob_context Fixtures.peanut_constraints 2 start = Some (Some rd, w')
     /\ length (generation_calls w') = 3%nat
     /\ map call_retry_count (generation_calls w') = [0; 1; 1]%Z
     /\ map (fun c => bool_decide (is_Some (call_additional_requirements c)))
            (generation_calls w') = [false; true; false]
     /\ d_name rd = "Candidate 3")
  /\ (exists w',
        _generate_validated_recipe nat compliant_on_second_only NutritionLookup.lookup
          "breakfast" bob_context Fixtures.peanut_constraints 2 start = Some (None, w')
        /\ length (generation_calls w') = 3%nat)
  /\ option_map is_compliant
       (validate_recipe NutritionLookup.lookup (model_dump (candidate 2 "breakfast" [oats]))
                        bob_context Fixtures.peanut_constraints) = Some true.
Proof.
  split; [|split].
  - vm_compute. eexists. eexists. repeat split.
  - vm_compute. eexists. repeat split.
  - vm_compute. reflexivity.
Qed.

(** The bound the loop does meet: at most [2 * max_retries - 1] generation
    calls for a slot. *)
Lemma generation_calls_per_slot SourceState generate lookup planning_context constraints
  max_retries meal (w : World SourceState) r w' :
  _generate_validated_recipe SourceState generate lookup meal planning_context constraints
                             max_retries w = Some (r, w') ->
  (length (generation_calls w')
   <= length (generation_calls w) + (2 * Z.to_nat max_retries - 1))%nat.
Proof.
  intros H. eapply _generate_validated_recipe_spec in H as (_ & _ & Hb & _). exact Hb.
Qed.

(** When every answer of the Recipe Source is found non-compliant, the loop
    with [remaining] turns left ends without a recipe after exactly
    [2 * remaining - 1] generation calls. *)
Lemma attempt_loop_exhausted SourceState generate lookup planning_context constraints
  max_retries meal remaining attempt (w : World SourceState) :
  (forall m additional retry s,
      exists recipe s' vr,
        generate m planning_context constraints additional retry s = Some (recipe, s')
        /\ validate_recipe lookup (model_dump recipe) planning_context constraints = Some vr
        /\ is_compliant vr = false) ->
  (Z.of_nat remaining + attempt = max_retries)%Z ->
  exists w',
    attempt_loop SourceState generate lookup meal planning_context constraints max_retries
                 remaining attempt w = Some (None, w')
    /\ length (generation_calls w')
       = (length (generation_calls w) + (2 * remaining - 1))%nat.
Proof.
  intros Hbad. revert attempt w. induction remaining as [|k IH]; intros attempt w Hinv.
  - exists w. split; [reflexivity|]. simpl. lia.
  - cbn [attempt_loop]. unfold bind at 1.
    destruct (Hbad meal None attempt (source_state w)) as (recipe & s1 & vr & G & V & C).
    destruct (generate_recipe_returns SourceState generate planning_context constraints
                _ _ _ _ _ _ G) as (w1 & G1).
    rewrite G1. unfold bind at 1, raise_or. rewrite V, C.
    apply generate_recipe_run in G1 as (_ & Hc1 & _).
    unfold bind at 1, log_event. unfold bind at 1.
    destruct (attempt <? max_retries - 1)%Z eqn:A.
    + unfold bind at 1, regenerate_recipe.
      match goal with
      | |- context [generate_recipe _ _ ?m _ _ ?a ?rc ?w0] =>
          destruct (Hbad m a rc (source_state w0)) as (r2 & s2 & _ & G2 & _ & _);
          destruct (generate_recipe_returns SourceState generate planning_context constraints
                      _ _ _ _ _ _ G2) as (w2 & G3);
          rewrite G3; apply generate_recipe_run in G3 as (_ & Hc2 & _)
      end.
      unfold ret at 1. apply Z.ltb_lt in A.
      destruct (IH (attempt + 1)%Z w2) as (w' & L & Hn); [lia|].
      exists w'. split; [exact L|]. rewrite Hn, Hc2. cbn. rewrite Hc1. lia.
    + unfold ret at 1. apply Z.ltb_ge in A.
      assert (k = 0%nat) by lia. subst k.
      eexists. split; [reflexivity|]. cbn. lia.
Qed.

Lemma exhausted_slot_costs SourceState generate lookup planning_context constraints
  max_retries meal (w : World SourceState) :
  (forall m additional retry s,
      exists recipe s' vr,
        generate m planning_context constraints additional retry s = Some (recipe, s')
        /\ validate_recipe lookup (model_dump recipe) planning_context constraints = Some vr
        /\ is_compliant vr = false) ->
  (0 <= max_retries)%Z ->
  exists w',
    _generate_validated_recipe SourceState generate lookup meal planning_context constraints
                               max_retries w = Some (None, w')
    /\ length (generation_calls w')
       = (length (generation_calls w) + (2 * Z.to_nat max_retries - 1))%nat.
Proof.
  intros Hbad Hpos. unfold _generate_validated_recipe, bind at 1.
  destruct (attempt_loop_exhausted SourceState generate lookup planning_context constraints
              max_retries meal (Z.to_nat max_retries) 0 w Hbad) as (w1 & L & Hn); [lia|].
  rewrite L. unfold bind, log_event, ret. eexists. split; [reflexivity|]. simpl. exact Hn.
Qed.

(** C4.  Whenever [generate_complete_meal_plan] returns, every meal of every
    day of the weekly plan is a generated recipe on which the validator
    returned [is_compliant = true], with the summary attached, and validating
    the meal as it stands in the plan gives a compliant verdict again.  A
    day holds at most three meals, and every one of the [3 * days] slots is
    either a meal of the plan or a slot failure reported in the log: a slot
    that found no compliant candidate contributes no recipe. *)
Theorem plan_holds_only_compliant_recipes
  SourceState generate lookup profiles memory household_id days max_retries
  (w : World SourceState) weekly_plan w' :
  generate_complete_meal_plan SourceState generate lookup profiles memory household_id
                              days max_retries w = Some (weekly_plan, w') ->
  exists planning_context failed,
    ProfileManager.generate_planning_context profiles household_id = Some planning_context
    /\ Forall (fun d =>
         Forall (fun meal =>
           accepted lookup planning_context
                    (ProfileManager.get_all_constraints profiles memory household_id) meal
           /\ exists vr,
                validate_recipe lookup meal planning_context
                  (ProfileManager.get_all_constraints profiles memory household_id) = Some vr
                /\ is_compliant vr = true) (meals d)
         /\ (length (meals d) <= 3)%nat) weekly_plan
    /\ failed_slots (log w') = failed_slots (log w) ++ failed
    /\ (total_meals weekly_plan + length failed = 3 * Z.to_nat days)%nat.
Proof.
  unfold generate_complete_meal_plan, bind at 1, raise_or. intros Hrun.
  destruct (ProfileManager.generate_planning_context profiles household_id)
    as [planning_context|]; [|discriminate].
  destruct (negb _); [discriminate|].
  apply plan_days_spec in Hrun as (new_days & failed & Hp & _ & Hall & Hf & Hn & _).
  simpl in Hp. subst weekly_plan.
  exists planning_context, failed. split; [reflexivity|]. split; [|auto].
  eapply List.Forall_impl; [|exact Hall]. intros d [Hm Hl]. split; [|exact Hl].
  eapply List.Forall_impl; [|exact Hm]. intros meal Hacc. split; [exact Hacc|].
  eapply accepted_is_compliant. exact Hacc.
Qed.

(** One day planned from a source whose first answer violates. *)
Lemma plan_holds_only_compliant_recipes_witness :
  exists weekly_plan w' planning_context failed,
    generate_complete_meal_plan nat violating_then_compliant NutritionLookup.lookup
      peanut_household SessionManager._initialize_memory_structure "home" 1 2 start
    = Some (weekly_plan, w')
    /\ ProfileManager.generate_planning_context peanut_household "home" = Some planning_context
    /\ Forall (fun d =>
         Forall (fun meal =>
           accepted NutritionLookup.lookup planning_context
                    (ProfileManager.get_all_constraints peanut_household
                       SessionManager._initialize_memory_structure "home") meal
           /\ exists vr,
                validate_recipe NutritionLookup.lookup meal planning_context
                  (ProfileManager.get_all_constraints peanut_household
                     SessionManager._initialize_memory_structure "home") = Some vr
                /\ is_compliant vr = true) (meals d)
         /\ (length (meals d) <= 3)%nat) weekly_plan
    /\ failed_slots (log w') = failed_slots (log start) ++ failed
    /\ (total_meals weekly_plan + length failed = 3 * Z.to_nat 1)%nat.
Proof.
  assert (E : exists p,
             generate_complete_meal_plan nat violating_then_compliant NutritionLookup.lookup
               peanut_household SessionManager._initialize_memory_structure "home" 1 2 start
             = Some p).
  { vm_compute. eexists. reflexivity. }
  destruct E as [[weekly_plan w'] E].
  destruct (plan_holds_only_compliant_recipes nat violating_then_compliant
              NutritionLookup.lookup peanut_household
              SessionManager._initialize_memory_structure "home" 1 2 start weekly_plan w' E)
    as (planning_context & failed & H).
  exists weekly_plan, w', planning_context, failed. split; [exact E|exact H].
Defined.

Lemma map_day_plan_of day_nums outcomes : map day (plan_of day_nums outcomes) = day_nums.
Proof.
  revert outcomes. induction day_nums as [|d rest IH]; intros outcomes; [reflexivity|].
  cbn. rewrite IH. reflexivity.
Qed.

(** C3, as the code has it.  Take a household whose profile is complete, a
    Recipe Source that never raises, and a validator that returns on every
    answer the Recipe Source gives to an attempt (it raises on an answer
    that declares zero servings).  Then the planning loop returns, and its
    run is the run of the [3 * days] slots one after the other, in order,
    whatever the outcome of the slots before.  A slot whose [max_retries]
    candidates were each validated and rejected is logged as exhausted and
    as failed, with its day and meal type, and adds nothing to its day; any
    other slot adds the candidate it accepted.  The weekly plan has one
    entry for each of the days 1 to [days], holding the recipes of the
    filled slots of that day, and the failures in the log are the
    unfilled slots, in order. *)
Theorem exhausted_slot_is_logged_and_skipped
  SourceState generate lookup profiles memory household_id days max_retries planning_context
  (w : World SourceState) :
  let constraints := ProfileManager.get_all_constraints profiles memory household_id in
  ProfileManager.generate_planning_context profiles household_id = Some planning_context ->
  ProfileManager.valid (ProfileManager.validate_profile_completeness profiles household_id)
  = true ->
  (forall meal additional retry s,
      exists answer,
        generate meal planning_context constraints additional retry s = Some answer) ->
  (forall meal attempt s recipe s',
      In meal meal_types ->
      generate meal planning_context constraints None attempt s = Some (recipe, s') ->
      exists validation,
        validate_recipe lookup (model_dump recipe) planning_context constraints
        = Some validation) ->
  exists weekly_plan w' outcomes,
    generate_complete_meal_plan SourceState generate lookup profiles memory household_id
                                days max_retries w = Some (weekly_plan, w')
    /\ slots_run SourceState generate lookup planning_context constraints max_retries
                 (all_slots (Z.to_nat days)) w outcomes w'
    /\ weekly_plan = plan_of (day_numbers (Z.to_nat days) 1) outcomes
    /\ map day weekly_plan = day_numbers (Z.to_nat days) 1
    /\ failed_slots (log w')
       = failed_slots (log w) ++ unfilled (all_slots (Z.to_nat days)) outcomes.
Proof.
  intros constraints Hpc Hvalid Hsrc Hval.
  unfold generate_complete_meal_plan, bind at 1, raise_or. rewrite Hpc, Hvalid.
  cbn [negb]. fold constraints.
  destruct (plan_days_total SourceState generate lookup planning_context constraints
              max_retries Hsrc (Z.to_nat days) 1 [] w) as (weekly_plan & w' & P).
  { intros meal Hin attempt s recipe s' G. exact (Hval meal attempt s recipe s' Hin G). }
  rewrite P.
  apply plan_days_outcome in P as (outcomes & Hrun & Hplan). cbn [app] in Hplan.
  exists weekly_plan, w', outcomes. split; [reflexivity|].
  split; [exact Hrun|]. split; [exact Hplan|]. split.
  - rewrite Hplan. apply map_day_plan_of.
  - exact (slots_run_failed_slots _ _ _ _ _ _ _ _ _ _ Hrun).
Qed.

(** Two days planned from a source whose every answer violates. *)
Lemma exhausted_slot_is_logged_and_skipped_witness :
  exists weekly_plan w' outcomes,
    generate_complete_meal_plan nat always_peanut_butter NutritionLookup.lookup
      peanut_household SessionManager._initialize_memory_structure "home" 2 2 start
    = Some (weekly_plan, w')
    /\ slots_run nat always_peanut_butter NutritionLookup.lookup bob_context
         (ProfileManager.get_all_constraints peanut_household
            SessionManager._initialize_memory_structure "home") 2
         (all_slots (Z.to_nat 2)) start outcomes w'
    /\ weekly_plan = plan_of (day_numbers (Z.to_nat 2) 1) outcomes
    /\ map day weekly_plan = day_numbers (Z.to_nat 2) 1
    /\ failed_slots (log w')
       = failed_slots (log start) ++ unfilled (all_slots (Z.to_nat 2)) outcomes.
Proof.
  refine (exhausted_slot_is_logged_and_skipped nat always_peanut_butter
            NutritionLookup.lookup peanut_household
            SessionManager._initialize_memory_structure "home" 2 2 bob_context start
            _ _ _ _).
  - vm_compute. reflexivity.
  - vm_compute. reflexivity.
  - intros meal additional retry s. eexists. reflexivity.
  - intros meal attempt s recipe s' Hin G. injection G as <- _.
    destruct Hin as [<-|[<-|[<-|[]]]]; vm_compute; eexists; reflexivity.
Defined.

(** The two conditions are needed: the plan is lost when one answer of the
    Recipe Source declares zero servings, and when one call of the Recipe
    Source raises. *)
Lemma one_bad_answer_aborts_the_plan :
  generate_complete_meal_plan nat zero_servings_first NutritionLookup.lookup
    peanut_household SessionManager._initialize_memory_structure "home" 7 3 start = None
  /\ generate_complete_meal_plan nat raises_on_third_call NutritionLookup.lookup
       peanut_household SessionManager._initialize_memory_structure "home" 7 3 start = None.
Proof. split; vm_compute; reflexivity. Qed.

(** C3, as the specification words it, fails: two runs whose slots all fail,
    for different reasons, return the same weekly plan, a day with no meals.
    The plan records neither the failed slots nor the validation results
    that failed them; the log has the slots, and nothing has the results. *)
Lemma failed_slots_leave_no_trace_in_the_plan :
  option_map fst
    (generate_complete_meal_plan nat always_peanut_butter NutritionLookup.lookup
       peanut_household SessionManager._initialize_memory_structure "home" 1 2 start)
  = Some [{| day := 1; meals := [] |}]
  /\ option_map fst
       (generate_complete_meal_plan nat always_peanut_oil NutritionLookup.lookup
          peanut_household SessionManager._initialize_memory_structure "home" 1 2 start)
     = Some [{| day := 1; meals := [] |}]
  /\ option_map violations
       (validate_recipe NutritionLookup.lookup
          (model_dump (candidate 3 "breakfast" [Fixtures.peanut_butter]))
          bob_context Fixtures.peanut_constraints)
     = Some ["ALLERGEN ALERT: peanut (found in Peanut Butter)"]
  /\ option_map violations
       (validate_recipe NutritionLookup.lookup
          (model_dump (candidate 3 "breakfast" [peanut_oil]))
          bob_context Fixtures.peanut_constraints)
     = Some ["ALLERGEN ALERT: peanut (found in Peanut Oil)"]
  /\ option_map (fun r => failed_slots (log (snd r)))
       (generate_complete_meal_plan nat always_peanut_butter NutritionLookup.lookup
          peanut_household SessionManager._initialize_memory_structure "home" 1 2 start)
     = Some [(1%Z, "breakfast"); (1%Z, "lunch"); (1%Z, "dinner")].
Proof.
  vm_compute. repeat split.
Qed.

End OrchestratorClaims.

(** * More properties of the validator *)

Module ValidatorExtras.
Import PyStr PyNum NutritionCompliance Reading Fixtures ValidatorFacts Hits.

Lemma flat_map_nil_iff {A B : Type} (f : A -> list B) (l : list A) :
  flat_map f l = [] <-> forall x, In x l -> f x = [].
Proof.
  split; [apply flat_map_nil_inv|].
  induction l as [|a l IH]; simpl; intros H; [reflexivity|].
  rewrite (H a (or_introl eq_refl)), IH; auto.
Qed.

Lemma check_allergens_nil_iff recipe constraints :
  check_allergens recipe (c_allergies constraints) = [] <-> ~ allergen_hit recipe constraints.
Proof.
  unfold check_allergens, allergen_hit. rewrite flat_map_nil_iff. split.
  - intros H (ingredient & allergen & Hi & Ha & Hs).
    specialize (H ingredient Hi). cbv zeta in H.
    apply flat_map_nil_inv with (x := allergen) in H; [|exact Ha].
    cbv zeta in H. rewrite Hs in H. discriminate.
  - intros H ingredient Hi. cbv zeta. apply flat_map_nil_iff. intros allergen Ha. cbv zeta.
    destruct (str_in (lower allergen) (lower (ing_name ingredient))) eqn:E; [|reflexivity].
    exfalso. apply H. exists ingredient, allergen. auto.
Qed.

Lemma check_dietary_restrictions_nil_iff recipe constraints :
  check_dietary_restrictions recipe (c_dietary_restrictions constraints) = []
  <-> ~ restriction_hit recipe constraints.
Proof.
  unfold check_dietary_restrictions, restriction_hit. rewrite flat_map_nil_iff. split.
  - intros H (restriction & forbidden & ingredient & term & Hr & Hp & Hi & Ht & Hs).
    specialize (H restriction Hr). cbv zeta in H. rewrite Hp in H.
    apply flat_map_nil_inv with (x := ingredient) in H; [|exact Hi].
    cbv zeta in H.
    assert (E : existsb (fun forbidden_item => str_in forbidden_item (lower (ing_name ingredient)))
                        forbidden = true) by (apply existsb_exists; exists term; auto).
    rewrite E in H. discriminate.
  - intros H restriction Hr. cbv zeta.
    destruct (restriction_patterns !! lower restriction) as [forbidden|] eqn:Hp; [|reflexivity].
    apply flat_map_nil_iff. intros ingredient Hi. cbv zeta.
    destruct (existsb _ forbidden) eqn:E; [|reflexivity].
    apply existsb_exists in E as (term & Ht & Hs).
    exfalso. apply H. exists restriction, forbidden, ingredient, term. auto.
Qed.

(** The loop over the conditions, split into its two outputs. *)
Lemma check_health_conditions_from recipe hg conditions vs ws :
  fold_left (fun (acc : list string * list string) condition =>
     let '(violations, warnings) := acc in
     let guidelines := condition_guidelines hg condition in
     let found :=
       flat_map (fun ingredient =>
         let ingredient_name := lower (ing_name ingredient) in
         flat_map (fun avoid_item =>
           if str_in (lower avoid_item) ingredient_name
           then [condition +:+ ": should avoid " +:+ ing_name ingredient]
           else []) (avoid guidelines)) (d_ingredients recipe) in
     let has_preferred :=
       existsb (fun ingredient =>
         let ingredient_name := lower (ing_name ingredient) in
         existsb (fun prefer_item => str_in (lower prefer_item) ingredient_name)
                 (prefer guidelines)) (d_ingredients recipe) in
     let warning :=
       match prefer guidelines with
       | [] => []
       | _ :: _ =>
           if has_preferred then []
           else [condition +:+ ": consider adding " +:+ join ", " (take 3 (prefer guidelines))]
       end in
     (violations ++ found, warnings ++ warning)) conditions (vs, ws)
  = (vs ++ flat_map (condition_violations recipe hg) conditions,
     ws ++ flat_map (condition_warning recipe hg) conditions).
Proof.
  revert vs ws. induction conditions as [|c conditions IH]; intros vs ws; simpl.
  - rewrite !app_nil_r. reflexivity.
  - rewrite IH. rewrite <- !app_assoc. reflexivity.
Qed.

Lemma check_health_conditions_split recipe conditions hg :
  check_health_conditions recipe conditions hg
  = (flat_map (condition_violations recipe hg) conditions,
     flat_map (condition_warning recipe hg) conditions).
Proof. unfold check_health_conditions. apply check_health_conditions_from. Qed.

Lemma condition_violations_nil_iff recipe constraints :
  fst (check_health_conditions recipe (c_health_conditions constraints)
                               (c_health_guidelines constraints)) = []
  <-> ~ avoid_hit recipe constraints.
Proof.
  rewrite check_health_conditions_split. simpl. unfold avoid_hit.
  rewrite flat_map_nil_iff. split.
  - intros H (condition & term & ingredient & Hc & Ht & Hi & Hs).
    specialize (H condition Hc). unfold condition_violations in H.
    apply flat_map_nil_inv with (x := ingredient) in H; [|exact Hi].
    apply flat_map_nil_inv with (x := term) in H; [|exact Ht].
    rewrite Hs in H. discriminate.
  - intros H condition Hc. unfold condition_violations.
    apply flat_map_nil_iff. intros ingredient Hi.
    apply flat_map_nil_iff. intros term Ht.
    destruct (str_in (lower term) (lower (ing_name ingredient))) eqn:E; [|reflexivity].
    exfalso. apply H. exists condition, term, ingredient. auto.
Qed.

Lemma recipe_violations_nil_iff recipe constraints :
  recipe_violations recipe constraints = []
  <-> ~ allergen_hit recipe constraints
      /\ ~ restriction_hit recipe constraints
      /\ ~ avoid_hit recipe constraints.
Proof.
  unfold recipe_violations.
  rewrite <- check_allergens_nil_iff, <- check_dietary_restrictions_nil_iff,
          <- condition_violations_nil_iff.
  split.
  - intros H. apply app_eq_nil in H as [H1 H]. apply app_eq_nil in H as [H2 H3].
    split; [|auto]. destruct (check_allergens _ _); [reflexivity|discriminate].
  - intros (H1 & H2 & H3). rewrite H1, H2, H3. reflexivity.
Qed.

(** The verdict of a returned validation, read off the three checks. *)
Lemma compliance_criterion lookup recipe planning_context constraints vr :
  validate_recipe lookup recipe planning_context constraints = Some vr ->
  (is_compliant vr = true
   <-> ~ allergen_hit recipe constraints
       /\ ~ restriction_hit recipe constraints
       /\ ~ avoid_hit recipe constraints).
Proof.
  intros Hv. rewrite <- recipe_violations_nil_iff.
  apply validate_recipe_inv in Hv as (_ & Hvs & Hc). rewrite Hc, Hvs.
  destruct (recipe_violations recipe constraints); simpl; split; congruence.
Qed.



End ValidatorExtras.

Module ValidatorExtras2.
Import PyStr PyNum NutritionCompliance Reading Fixtures ValidatorFacts Hits PrimitiveFacts.
Import ValidatorExtras.

Lemma In_name_exists (r : RecipeDict) n :
  In n (map ing_name (d_ingredients r)) <-> exists i, In i (d_ingredients r) /\ ing_name i = n.
Proof.
  rewrite in_map_iff. split; intros (i & H1 & H2); exists i; auto.
Qed.

Section SameNames.

Variables r1 r2 : RecipeDict.
Variable constraints : Constraints.
Hypothesis same_names :
  forall n, In n (map ing_name (d_ingredients r1)) <-> In n (map ing_name (d_ingredients r2)).

Lemma same_name_in i :
  In i (d_ingredients r1) -> exists j, In j (d_ingredients r2) /\ ing_name j = ing_name i.
Proof.
  intros Hi. apply In_name_exists, same_names, in_map. exact Hi.
Qed.

Lemma allergen_hit_names : allergen_hit r1 constraints -> allergen_hit r2 constraints.
Proof.
  intros (i & a & Hi & Ha & Hs). destruct (same_name_in i Hi) as (j & Hj & E).
  exists j, a. rewrite E. auto.
Qed.

Lemma restriction_hit_names : restriction_hit r1 constraints -> restriction_hit r2 constraints.
Proof.
  intros (r & f & i & t & Hr & Hp & Hi & Ht & Hs).
  destruct (same_name_in i Hi) as (j & Hj & E).
  exists r, f, j, t. rewrite E. auto.
Qed.

Lemma avoid_hit_names : avoid_hit r1 constraints -> avoid_hit r2 constraints.
Proof.
  intros (c & t & i & Hc & Ht & Hi & Hs). destruct (same_name_in i Hi) as (j & Hj & E).
  exists c, t, j. rewrite E. auto.
Qed.

End SameNames.

(** X2.  The verdict depends on the ingredient names only: two recipes
    whose ingredient lines carry the same set of names get the same verdict
    under the same constraints, whenever both validations return, whatever
    the order, the amounts and the units of the lines, the nutrient lookup
    and the roster. *)
Theorem verdict_depends_on_names_only
  lookup1 lookup2 r1 r2 context1 context2 constraints v1 v2 :
  (forall n, In n (map ing_name (d_ingredients r1)) <-> In n (map ing_name (d_ingredients r2))) ->
  validate_recipe lookup1 r1 context1 constraints = Some v1 ->
  validate_recipe lookup2 r2 context2 constraints = Some v2 ->
  is_compliant v1 = is_compliant v2.
Proof.
  intros Hn E1 E2.
  pose proof (compliance_criterion _ _ _ _ _ E1) as C1.
  pose proof (compliance_criterion _ _ _ _ _ E2) as C2.
  assert (Hn' : forall n, In n (map ing_name (d_ingredients r2))
                          <-> In n (map ing_name (d_ingredients r1)))
    by (intros n; symmetry; apply Hn).
  destruct (is_compliant v1) eqn:B1, (is_compliant v2) eqn:B2; try reflexivity.
  - destruct (proj1 C1 eq_refl) as (A & R & V).
    symmetry. apply (proj2 C2). repeat split.
    + intros H. apply A. eapply allergen_hit_names; eassumption.
    + intros H. apply R. eapply restriction_hit_names; eassumption.
    + intros H. apply V. eapply avoid_hit_names; eassumption.
  - destruct (proj1 C2 eq_refl) as (A & R & V).
    apply (proj2 C1). repeat split.
    + intros H. apply A. eapply allergen_hit_names; eassumption.
    + intros H. apply R. eapply restriction_hit_names; eassumption.
    + intros H. apply V. eapply avoid_hit_names; eassumption.
Qed.

End ValidatorExtras2.

Module ValidatorExtras3.
Import PyStr PyNum NutritionCompliance Reading Fixtures ValidatorFacts Hits PrimitiveFacts.
Import ValidatorExtras ValidatorExtras2 ValidatorInputs.

(** The tofu bowl and a reordering of it, on two lookups and two rosters. *)
Lemma verdict_depends_on_names_only_witness :
  exists v1 v2,
    validate_recipe NutritionLookup.lookup tofu_bowl (context_of [bob])
                    vegetarian_constraints = Some v1
    /\ validate_recipe (fun _ _ => None) tofu_bowl_reordered (context_of [])
                       vegetarian_constraints = Some v2
    /\ is_compliant v1 = is_compliant v2.
Proof.
  assert (E1 : exists v1,
             validate_recipe NutritionLookup.lookup tofu_bowl (context_of [bob])
                             vegetarian_constraints = Some v1)
    by (vm_compute; eexists; reflexivity).
  assert (E2 : exists v2,
             validate_recipe (fun _ _ => None) tofu_bowl_reordered (context_of [])
                             vegetarian_constraints = Some v2)
    by (vm_compute; eexists; reflexivity).
  destruct E1 as [v1 E1], E2 as [v2 E2].
  exists v1, v2. split; [exact E1|]. split; [exact E2|].
  refine (verdict_depends_on_names_only NutritionLookup.lookup (fun _ _ => None)
            tofu_bowl tofu_bowl_reordered (context_of [bob]) (context_of [])
            vegetarian_constraints v1 v2 _ E1 E2).
  intros n. simpl. split; intros H; repeat (destruct H as [<-|H]; [simpl; auto 6|]);
    destruct H.
Defined.

End ValidatorExtras3.

Module RestrictionExtras.
Import PyStr PyNum NutritionCompliance Reading Fixtures ValidatorFacts Hits PrimitiveFacts.
Import ValidatorExtras ValidatorInputs2.




Lemma flat_map_length_le {A B : Type} (f : A -> list B) (l : list A) (n : nat) :
  (forall x, length (f x) <= n)%nat -> (length (flat_map f l) <= length l * n)%nat.
Proof.
  intros H. induction l as [|a l IH]; simpl; [lia|].
  rewrite length_app. specialize (H a). lia.
Qed.

(** X4.  The restriction check reports an ingredient at most once per
    restriction, however many forbidden terms its name contains: the number
    of restriction violations is at most the number of restrictions times the
    number of ingredient lines. *)
Theorem one_violation_per_restriction_and_ingredient recipe restrictions :
  (length (check_dietary_restrictions recipe restrictions)
   <= length restrictions * length (d_ingredients recipe))%nat.
Proof.
  unfold check_dietary_restrictions. apply flat_map_length_le. intros r. cbv zeta.
  destruct (restriction_patterns !! lower r) as [forbidden|]; [|simpl; lia].
  rewrite <- (Nat.mul_1_r (length (d_ingredients recipe))).
  apply flat_map_length_le. intros i. cbv zeta.
  destruct (existsb _ forbidden); simpl; lia.
Qed.

(** The skewer contains both chicken and beef and is reported once. *)
Example skewer_is_reported_once :
  check_dietary_restrictions surf_and_turf ["vegetarian"]
  = ["vegetarian restriction violated: contains Chicken and Beef Skewer";
     "vegetarian restriction violated: contains salmon"].
Proof. vm_compute. reflexivity. Qed.

End RestrictionExtras.

Module HealthExtras.
Import PyStr PyNum NutritionCompliance Reading Fixtures ValidatorFacts Hits PrimitiveFacts.
Import ValidatorExtras ValidatorInputs2.

Lemma condition_warning_length recipe hg c : (length (condition_warning recipe hg c) <= 1)%nat.
Proof.
  unfold condition_warning. cbv zeta.
  destruct (prefer _); [simpl; lia|]. destruct (has_preferred _ _); simpl; lia.
Qed.

(** Conditions without an entry in the guidelines map add nothing. *)
Lemma unknown_conditions_add_nothing recipe conditions hg :
  (forall c, In c conditions -> hg !! lower c = None) ->
  check_health_conditions recipe conditions hg = ([], []).
Proof.
  intros H. rewrite check_health_conditions_split.
  assert (Hg : forall c, In c conditions ->
                         condition_guidelines hg c = {| avoid := []; prefer := [] |}).
  { intros c Hc. unfold condition_guidelines. rewrite (H c Hc). reflexivity. }
  f_equal; apply flat_map_nil_iff; intros c Hc.
  - unfold condition_violations. rewrite (Hg c Hc). simpl. apply flat_map_const_nil.
  - unfold condition_warning. rewrite (Hg c Hc). reflexivity.
Qed.

(** X5.  The health-condition check emits at most one warning per
    condition, and emits it exactly when the condition's guidelines prefer
    something and no ingredient name contains a preferred term; the warning
    names the first three preferred terms.  A violation is emitted exactly
    for an ingredient whose name contains an avoid term.  Conditions with no
    entry under their lower-cased name in the guidelines map add nothing. *)
Theorem health_check_outputs recipe conditions hg :
  let result := check_health_conditions recipe conditions hg in
  (length (snd result) <= length conditions)%nat
  /\ (forall w, In w (snd result) <->
        exists c, In c conditions
                  /\ prefer (condition_guidelines hg c) <> []
                  /\ has_preferred recipe (condition_guidelines hg c) = false
                  /\ w = c +:+ ": consider adding "
                           +:+ join ", " (take 3 (prefer (condition_guidelines hg c))))
  /\ (forall v, In v (fst result) <->
        exists c term ingredient,
          In c conditions
          /\ In term (avoid (condition_guidelines hg c))
          /\ In ingredient (d_ingredients recipe)
          /\ str_in (lower term) (lower (ing_name ingredient)) = true
          /\ v = c +:+ ": should avoid " +:+ ing_name ingredient)
  /\ ((forall c, In c conditions -> hg !! lower c = None) -> result = ([], [])).
Proof.
  cbv zeta. rewrite check_health_conditions_split. cbn [fst snd]. split; [|split; [|split]].
  - rewrite <- (Nat.mul_1_r (length conditions)).
    apply RestrictionExtras.flat_map_length_le. apply condition_warning_length.
  - intros w. rewrite in_flat_map. split.
    + intros (c & Hc & Hw). exists c. split; [exact Hc|].
      unfold condition_warning in Hw. cbv zeta in Hw.
      destruct (prefer (condition_guidelines hg c)) as [|p ps] eqn:P; [destruct Hw|].
      destruct (has_preferred recipe (condition_guidelines hg c)) eqn:Hh; [destruct Hw|].
      destruct Hw as [<-|[]]. split; [discriminate|]. split; reflexivity.
    + intros (c & Hc & Hp & Hh & ->). exists c. split; [exact Hc|].
      unfold condition_warning. cbv zeta.
      destruct (prefer (condition_guidelines hg c)) as [|p ps] eqn:P; [congruence|].
      rewrite Hh. left. reflexivity.
  - intros v. rewrite in_flat_map. split.
    + intros (c & Hc & Hv). unfold condition_violations in Hv.
      apply in_flat_map in Hv as (i & Hi & Hv). apply in_flat_map in Hv as (t & Ht & Hv).
      destruct (str_in (lower t) (lower (ing_name i))) eqn:E; [|destruct Hv].
      destruct Hv as [<-|[]]. exists c, t, i. auto.
    + intros (c & t & i & Hc & Ht & Hi & Hs & ->). exists c. split; [exact Hc|].
      unfold condition_violations. apply in_flat_map. exists i. split; [exact Hi|].
      apply in_flat_map. exists t. split; [exact Ht|]. rewrite Hs. left. reflexivity.
  - intros H. rewrite <- check_health_conditions_split.
    apply unknown_conditions_add_nothing. exact H.
Qed.

End HealthExtras.

Module GuidelineExtras.
Import PyStr PyNum NutritionCompliance Reading Fixtures ValidatorFacts Hits PrimitiveFacts.
Import SessionManager MemoryReading GuidelineInputs ValidatorExtras.

(** Reading a dictionary filled key by key from a list. *)
Lemma fold_insert_lookup {V : Type} (f : string -> V) (l : list string) (m : gmap string V) k :
  fold_left (fun (hg : gmap string V) c => <[c := f c]> hg) l m !! k
  = if bool_decide (k ∈ l) then Some (f k) else m !! k.
Proof.
  revert m. induction l as [|c l IH]; intros m; [reflexivity|].
  cbn [fold_left]. rewrite IH.
  destruct (bool_decide (k ∈ l)) eqn:E.
  - apply bool_decide_eq_true in E.
    rewrite bool_decide_eq_true_2 by (apply list_elem_of_further; exact E). reflexivity.
  - apply bool_decide_eq_false in E. destruct (decide (c = k)) as [->|N].
    + rewrite lookup_insert_eq.
      rewrite bool_decide_eq_true_2 by (apply list_elem_of_here). reflexivity.
    + rewrite lookup_insert_ne by exact N.
      rewrite bool_decide_eq_false_2; [reflexivity|].
      intros H. apply elem_of_cons in H as [H|H]; [congruence|contradiction].
Qed.

(** X6.  The profile manager files a household's guidelines under each
    condition as the members spelled it, and the validator reads them under
    the lower-cased spelling.  So the guidelines the validator finds for a
    condition are those of the memory when the lower-cased spelling is itself
    one of the household's conditions, and empty otherwise; when no
    condition's lower-cased spelling is among the household's conditions
    (say every condition is capitalised), the health check of any recipe
    returns no violation and no warning. *)
Theorem guidelines_reach_the_validator_in_lower_case_only profiles memory household_id :
  let constraints := ProfileManager.get_all_constraints profiles memory household_id in
  (forall condition,
     condition_guidelines (c_health_guidelines constraints) condition
     = if bool_decide (lower condition ∈ c_health_conditions constraints)
       then get_health_condition_guidelines memory condition
       else no_guidelines)
  /\ ((forall condition, condition ∈ c_health_conditions constraints ->
                         lower condition ∉ c_health_conditions constraints) ->
      forall recipe,
        check_health_conditions recipe (c_health_conditions constraints)
                                (c_health_guidelines constraints) = ([], [])).
Proof.
  cbv zeta.
  assert (L : forall condition,
     c_health_guidelines (ProfileManager.get_all_constraints profiles memory household_id)
       !! lower condition
     = if bool_decide (lower condition ∈
            c_health_conditions (ProfileManager.get_all_constraints profiles memory household_id))
       then Some (get_health_condition_guidelines memory condition) else None).
  { intros condition. unfold ProfileManager.get_all_constraints. cbn.
    rewrite fold_insert_lookup, lookup_empty.
    unfold get_health_condition_guidelines. cbv zeta. rewrite lower_idempotent. reflexivity. }
  split.
  - intros condition. unfold condition_guidelines. rewrite L.
    destruct (bool_decide _); reflexivity.
  - intros H recipe. apply HealthExtras.unknown_conditions_add_nothing.
    intros c Hc. rewrite L. rewrite bool_decide_eq_false_2; [reflexivity|].
    apply H, list_elem_of_In, Hc.
Qed.

(** A sugar recipe passes for a member with "Diabetes" and fails for a
    member with "diabetes". *)
Example capitalised_diabetes_is_not_checked :
  option_map is_compliant
    (validate_recipe NutritionLookup.lookup candy_bar (context_of [])
       (ProfileManager.get_all_constraints capital_diabetes_household
                                           _initialize_memory_structure "home")) = Some true
  /\ option_map violations
       (validate_recipe NutritionLookup.lookup candy_bar (context_of [])
          (ProfileManager.get_all_constraints diabetes_household
                                              _initialize_memory_structure "home"))
     = Some ["diabetes: should avoid Brown Sugar"].
Proof. split; vm_compute; reflexivity. Qed.

End GuidelineExtras.

Module FeedbackExtras.
Import PyStr PyNum NutritionCompliance Reading Fixtures ValidatorFacts Hits PrimitiveFacts.
Import RecipeGenerator ValidatorInputs2.

Lemma append_assoc (s t u : string) : (s +:+ t) +:+ u = s +:+ (t +:+ u).
Proof.
  induction s as [|c s IH]; [reflexivity|]. rewrite !append_cons, IH. reflexivity.
Qed.

Lemma append_nil_r (s : string) : s +:+ EmptyString = s.
Proof.
  induction s as [|c s IH]; [reflexivity|]. rewrite append_cons, IH. reflexivity.
Qed.

Lemma str_in_refl s : str_in s s = true.
Proof.
  apply str_in_substring. exists EmptyString, EmptyString. rewrite append_nil_r. reflexivity.
Qed.

(** A substring of a part is a substring of the whole. *)
Lemma str_in_middle sub pre s post :
  str_in sub s = true -> str_in sub (pre +:+ s +:+ post) = true.
Proof.
  intros H. apply str_in_substring in H as (a & b & ->). apply str_in_substring.
  exists (pre +:+ a), (b +:+ post). rewrite !append_assoc. reflexivity.
Qed.

Lemma join_cons sep x y l : join sep (x :: y :: l) = x +:+ sep +:+ join sep (y :: l).
Proof. reflexivity. Qed.

(** Every joined line occurs in the joined text. *)
Lemma str_in_join sep x l : In x l -> str_in x (join sep l) = true.
Proof.
  induction l as [|y l IH]; [intros []|].
  intros Hin. destruct l as [|z l].
  - destruct Hin as [->|[]]. apply str_in_refl.
  - rewrite join_cons. destruct Hin as [->|Hin].
    + apply (str_in_middle x EmptyString x (sep +:+ join sep (z :: l))). apply str_in_refl.
    + specialize (IH Hin).
      rewrite <- (append_nil_r (join sep (z :: l))), <- append_assoc.
      apply str_in_middle. exact IH.
Qed.

(** X7.  The feedback written for a recipe that failed validation holds one
    bullet line for every violation, every warning and every recommendation
    of the validation result, and the requirements text handed to the
    recipe generator for the retry holds them too. *)
Theorem feedback_lists_every_issue validation issue original_name :
  is_compliant validation = false ->
  In issue (violations validation ++ warnings validation ++ recommendations validation) ->
  str_in ("  - " +:+ issue) (generate_feedback validation) = true
  /\ str_in ("  - " +:+ issue)
            (regeneration_requirements original_name (generate_feedback validation)) = true.
Proof.
  intros Hc Hin.
  assert (F : str_in ("  - " +:+ issue) (generate_feedback validation) = true).
  { unfold generate_feedback. rewrite Hc. cbv zeta. apply str_in_join.
    rewrite !in_app_iff in *.
    destruct Hin as [H|[H|H]]; [left|right; left|right; right].
    - destruct (violations validation); [destruct H|].
      right. apply (in_map (fun s => "  - " +:+ s)), H.
    - destruct (warnings validation); [destruct H|].
      right. apply (in_map (fun s => "  - " +:+ s)), H.
    - destruct (recommendations validation); [destruct H|].
      right. apply (in_map (fun s => "  - " +:+ s)), H. }
  split; [exact F|].
  unfold regeneration_requirements.
  apply (str_in_middle _
           (newline +:+ "Previous recipe " +:+ dquote +:+ original_name +:+ dquote
              +:+ " had issues:" +:+ newline)
           _
           (newline +:+ newline
              +:+ "Please generate a NEW recipe that addresses these issues." +:+ newline)) in F.
  rewrite !append_assoc in F. exact F.
Qed.

Lemma feedback_lists_every_issue_witness :
  str_in "  - Consider adding more protein sources" (generate_feedback failed_validation) = true
  /\ str_in "  - Consider adding more protein sources"
            (regeneration_requirements "Peanut Toast" (generate_feedback failed_validation)) = true.
Proof.
  apply (feedback_lists_every_issue failed_validation "Consider adding more protein sources").
  - reflexivity.
  - vm_compute. right. right. left. reflexivity.
Defined.

End FeedbackExtras.

Module EmptyRecipeExtras.
Import PyStr PyNum NutritionCompliance Reading Fixtures ValidatorFacts Hits PrimitiveFacts.
Import ValidatorExtras ValidatorInputs2.

(** X8.  A recipe without any ingredient line passes every validation that
    returns, for every household, whatever its allergies, restrictions and
    conditions: the three blocking checks only look at ingredient names. *)
Theorem recipe_without_ingredients_is_compliant
  lookup recipe planning_context constraints validation :
  d_ingredients recipe = [] ->
  validate_recipe lookup recipe planning_context constraints = Some validation ->
  is_compliant validation = true /\ violations validation = [].
Proof.
  intros He Hv.
  assert (C : is_compliant validation = true).
  { apply (compliance_criterion _ _ _ _ _ Hv).
    unfold allergen_hit, restriction_hit, avoid_hit. rewrite He.
    split; [|split].
    - intros (i & a & [] & _).
    - intros (r & f & i & t & _ & _ & [] & _).
    - intros (c & t & i & _ & _ & [] & _). }
  split; [exact C|].
  pose proof (compliant_no_violations _ _ _ _ _ Hv C) as N.
  apply validate_recipe_inv in Hv as (_ & Hv' & _). congruence.
Qed.

Lemma recipe_without_ingredients_is_compliant_witness :
  exists validation,
    validate_recipe NutritionLookup.lookup empty_recipe (context_of [bob]) strict_constraints
    = Some validation
    /\ is_compliant validation = true
    /\ violations validation = [].
Proof.
  assert (E : exists validation,
             validate_recipe NutritionLookup.lookup empty_recipe (context_of [bob])
                             strict_constraints = Some validation)
    by (vm_compute; eexists; reflexivity).
  destruct E as [validation E]. exists validation. split; [exact E|].
  exact (recipe_without_ingredients_is_compliant NutritionLookup.lookup empty_recipe
           (context_of [bob]) strict_constraints validation eq_refl E).
Defined.

End EmptyRecipeExtras.

Module ScheduleExtras.
Import NutritionCompliance ScheduleOptimizer ScheduleReading Fixtures ScheduleFacts.

Lemma fold_time_step_daily weekly_plan acc :
  acc_daily_times (fold_left time_step weekly_plan acc)
  = acc_daily_times acc ++ map day_cooking_time weekly_plan.
Proof.
  revert acc. induction weekly_plan as [|d plan IH]; intros acc; simpl.
  - rewrite app_nil_r. reflexivity.
  - rewrite IH. simpl. rewrite <- app_assoc. reflexivity.
Qed.

Lemma fold_time_step_total weekly_plan acc :
  acc_total_time (fold_left time_step weekly_plan acc)
  = fold_left Z.add (map day_cooking_time weekly_plan) (acc_total_time acc).
Proof.
  revert acc. induction weekly_plan as [|d plan IH]; intros acc; simpl; [reflexivity|].
  rewrite IH. reflexivity.
Qed.

Lemma fold_time_step_max weekly_plan acc :
  let m := acc_max_time (fold_left time_step weekly_plan acc) in
  (acc_max_time acc <= m)%Z
  /\ Forall (fun t => (t <= m)%Z) (map day_cooking_time weekly_plan)
  /\ (m = acc_max_time acc \/ In m (map day_cooking_time weekly_plan)).
Proof.
  cbv zeta. revert acc. induction weekly_plan as [|d plan IH]; intros acc; simpl.
  - split; [lia|]. split; [constructor|left; reflexivity].
  - destruct (IH (time_step acc d)) as (H1 & H2 & H3). simpl in H1, H3.
    split; [lia|]. split; [constructor; [lia|exact H2]|].
    destruct H3 as [H3|H3]; [|right; right; exact H3].
    rewrite H3. destruct (Z.max_spec (acc_max_time acc) (day_cooking_time d)) as [[_ E]|[_ E]];
      rewrite E; [right; left; reflexivity|left; reflexivity].
Qed.

Lemma fold_time_step_min weekly_plan acc :
  match acc_min_time (fold_left time_step weekly_plan acc) with
  | PosInf => acc_min_time acc = PosInf /\ weekly_plan = []
  | Fin m =>
      Forall (fun t => (m <= t)%Z) (map day_cooking_time weekly_plan)
      /\ match acc_min_time acc with
         | PosInf => In m (map day_cooking_time weekly_plan)
         | Fin a => (m <= a)%Z /\ (m = a \/ In m (map day_cooking_time weekly_plan))
         end
  end.
Proof.
  revert acc. induction weekly_plan as [|d plan IH]; intros acc; simpl.
  - destruct (acc_min_time acc) as [a|]; [|split; reflexivity].
    split; [constructor|]. split; [lia|left; reflexivity].
  - specialize (IH (time_step acc d)). simpl in IH.
    destruct (acc_min_time (fold_left time_step plan (time_step acc d))) as [m|].
    + destruct IH as [F IH]. unfold ext_min in IH.
      destruct (acc_min_time acc) as [a|].
      * destruct (Z.ltb_spec (day_cooking_time d) a) as [L|L]; destruct IH as [Hle Hin].
        -- split; [constructor; [lia|exact F]|]. split; [lia|].
           right. destruct Hin as [->|Hin]; [left; reflexivity|right; exact Hin].
        -- split; [constructor; [lia|exact F]|]. split; [lia|].
           destruct Hin as [->|Hin]; [left; reflexivity|right; right; exact Hin].
      * destruct IH as [Hle Hin]. split; [constructor; [lia|exact F]|].
        destruct Hin as [->|Hin]; [left; reflexivity|right; exact Hin].
    + destruct IH as [IH _]. unfold ext_min in IH.
      destruct (acc_min_time acc); [destruct (_ <? _)%Z|]; discriminate.
Qed.

(** X9.  The statistics of [analyze_cooking_times] summarise the per-day
    totals: the per-day list holds each day's summed cooking time in plan
    order, the total is their sum, no day exceeds the reported maximum, and
    the maximum is one of the daily totals or the 0 the loop starts from.  On
    a non-empty plan the reported minimum is a daily total and no day lies
    below it. *)
Theorem cooking_time_stats_summarise_the_days weekly_plan :
  let stats := analyze_cooking_times weekly_plan in
  daily_times stats = map day_cooking_time weekly_plan
  /\ total_minutes stats = fold_left Z.add (daily_times stats) 0%Z
  /\ Forall (fun t => (t <= max_day stats)%Z) (daily_times stats)
  /\ (max_day stats = 0%Z \/ In (max_day stats) (daily_times stats))
  /\ (weekly_plan <> [] ->
      exists m, min_day stats = Fin m
                /\ In m (daily_times stats)
                /\ Forall (fun t => (m <= t)%Z) (daily_times stats)).
Proof.
  cbv zeta. unfold analyze_cooking_times. cbn [daily_times total_minutes max_day min_day].
  rewrite fold_time_step_daily, fold_time_step_total. cbn [time_init acc_daily_times acc_total_time app].
  destruct (fold_time_step_max weekly_plan time_init) as (_ & M1 & M2).
  pose proof (fold_time_step_min weekly_plan time_init) as N.
  split; [reflexivity|]. split; [reflexivity|]. split; [exact M1|]. split; [exact M2|].
  intros Hne. destruct (acc_min_time (fold_left time_step weekly_plan time_init)) as [m|].
  - exists m. destruct N as [F I]. cbn in I. auto.
  - destruct N as [_ E]. contradiction.
Qed.

End ScheduleExtras.

Module MealOrderExtras.
Import NutritionCompliance ScheduleOptimizer MealOrder ScheduleInputs.

Lemma insert_desc_perm meal l : Permutation (meal :: l) (insert_desc meal l).
Proof.
  induction l as [|m rest IH]; simpl; [reflexivity|].
  destruct (meal_time meal <? meal_time m)%Z; [|reflexivity].
  rewrite perm_swap. apply perm_skip. exact IH.
Qed.

Lemma sorted_desc_perm l : Permutation l (sorted_desc l).
Proof.
  induction l as [|m rest IH]; simpl; [reflexivity|].
  rewrite <- insert_desc_perm. apply perm_skip. exact IH.
Qed.

Lemma insert_desc_sorted meal l : longest_first l -> longest_first (insert_desc meal l).
Proof.
  induction l as [|m rest IH]; simpl; [intros _; split; [constructor|exact I]|].
  intros [F S]. destruct (Z.ltb_spec (meal_time meal) (meal_time m)) as [L|L]; simpl.
  - split; [|apply IH; exact S].
    rewrite <- insert_desc_perm. constructor; [lia|exact F].
  - split; [|split; assumption].
    constructor; [exact L|].
    apply (List.Forall_impl _ (P := fun later => (meal_time later <= meal_time m)%Z)); [|exact F].
    intros later H. lia.
Qed.

Lemma sorted_desc_sorted l : longest_first (sorted_desc l).
Proof.
  induction l as [|m rest IH]; simpl; [exact I|]. apply insert_desc_sorted. exact IH.
Qed.

Lemma cooking_for_insert t meal l :
  cooking_for t (insert_desc meal l) = cooking_for t (meal :: l).
Proof.
  induction l as [|m rest IH]; [reflexivity|].
  cbn [insert_desc]. destruct (Z.ltb_spec (meal_time meal) (meal_time m)) as [L|L]; [|reflexivity].
  unfold cooking_for in *. cbn [List.filter] in *. rewrite IH.
  destruct (Z.eqb_spec (meal_time m) t) as [E1|N1];
    destruct (Z.eqb_spec (meal_time meal) t) as [E2|N2]; try reflexivity. lia.
Qed.

Lemma cooking_for_sorted t l : cooking_for t (sorted_desc l) = cooking_for t l.
Proof.
  induction l as [|m rest IH]; [reflexivity|].
  cbn [sorted_desc fold_right]. rewrite cooking_for_insert.
  unfold cooking_for in *. cbn [List.filter]. fold (sorted_desc rest). rewrite IH. reflexivity.
Qed.

Lemma fold_add_shift (l : list Z) (a : Z) : fold_left Z.add l a = (a + fold_left Z.add l 0)%Z.
Proof.
  revert a. induction l as [|x l IH]; intros a; cbn [fold_left]; [lia|].
  rewrite (IH (a + x)%Z), (IH (0 + x)%Z). lia.
Qed.

Lemma fold_add_perm (l1 l2 : list Z) :
  Permutation l1 l2 -> fold_left Z.add l1 0%Z = fold_left Z.add l2 0%Z.
Proof.
  induction 1 as [|x l1 l2 _ IH|x y l|l1 l2 l3 _ IH1 _ IH2]; cbn [fold_left].
  - reflexivity.
  - rewrite (fold_add_shift l1), (fold_add_shift l2), IH. reflexivity.
  - rewrite (fold_add_shift l (0 + y + x)), (fold_add_shift l (0 + x + y)). lia.
  - congruence.
Qed.

(** X10.  [optimize_meal_order] returns one entry per day, in plan order
    and under the day's number.  The entry holds exactly the day's meals (none
    lost, none duplicated) reordered longest cooking time first, meals that
    tie keeping their order; its total is the day's summed cooking time, and
    it is flagged within the limit exactly when that total does not exceed
    [cooking_time_max]. *)
Theorem optimize_meal_order_sorts_each_day weekly_plan cooking_time_max :
  Forall2 (fun d od =>
             od_day od = day d
             /\ Permutation (meals d) (od_meals od)
             /\ longest_first (od_meals od)
             /\ (forall t, cooking_for t (od_meals od) = cooking_for t (meals d))
             /\ od_total_cooking_time od = day_cooking_time d
             /\ (od_within_limit od = true <-> (day_cooking_time d <= cooking_time_max)%Z))
          weekly_plan (optimize_meal_order weekly_plan cooking_time_max).
Proof.
  unfold optimize_meal_order.
  induction weekly_plan as [|d plan IH]; [constructor|].
  cbn [map]. constructor; [|exact IH].
  assert (T : fold_left Z.add (map meal_time (sorted_desc (meals d))) 0%Z = day_cooking_time d).
  { unfold day_cooking_time. apply fold_add_perm, Permutation_map.
    symmetry. apply sorted_desc_perm. }
  unfold optimize_day. cbn. rewrite T.
  split; [reflexivity|]. split; [apply sorted_desc_perm|]. split; [apply sorted_desc_sorted|].
  split; [intros t; apply cooking_for_sorted|]. split; [reflexivity|]. apply Z.leb_le.
Qed.

(** The first day of the busy week: the roast first, the two 20-minute
    meals in their order, the meal without a time last. *)
Example busy_week_order :
  map (fun od => (map d_name (od_meals od), od_total_cooking_time od, od_within_limit od))
      (optimize_meal_order busy_week 45)
  = [ (["Roast"; "Toast"; "Soup"; "Fruit"], 130%Z, false);
      (["Fried Rice"], 30%Z, true) ].
Proof. reflexivity. Qed.

End MealOrderExtras.

Module ReuseExtras.
Import PyStr NutritionCompliance ScheduleOptimizer IngredientReuse ScheduleInputs.








(** Rice is named three times in the busy week, in three spellings. *)
Example busy_week_reuse :
  analyze_ingredient_reuse busy_week
  = [("bread", 1%Z); ("egg", 3%Z); ("chicken", 1%Z); ("rice", 3%Z); ("apple", 1%Z)].
Proof. reflexivity. Qed.

End ReuseExtras.

Module StoreExtras.
Import PyStr NutritionCompliance FamilyProfileStore StoreReading StoreFacts StoreUpdates.
Import StoreInputs Fixtures.

Lemma dict_get_set_eq name member ms : dict_get name (dict_set name member ms) = Some member.
Proof.
  induction ms as [|[k v] rest IH]; cbn [dict_set dict_get].
  - rewrite String.eqb_refl. reflexivity.
  - destruct (String.eqb_spec k name) as [->|N]; cbn [dict_get].
    + rewrite String.eqb_refl. reflexivity.
    + destruct (String.eqb_spec k name); [contradiction|exact IH].
Qed.

Lemma dict_get_set_ne name other member ms :
  other <> name -> dict_get other (dict_set name member ms) = dict_get other ms.
Proof.
  intros N. induction ms as [|[k v] rest IH]; cbn [dict_set dict_get].
  - destruct (String.eqb_spec name other); [congruence|reflexivity].
  - destruct (String.eqb_spec k name) as [->|N']; cbn [dict_get].
    + destruct (String.eqb_spec name other); [congruence|reflexivity].
    + rewrite IH. reflexivity.
Qed.

Lemma length_dict_set name member ms :
  length (dict_set name member ms)
  = match dict_get name ms with
    | Some _ => length ms
    | None => S (length ms)
    end.
Proof.
  induction ms as [|[k v] rest IH]; cbn [dict_set dict_get]; [reflexivity|].
  destruct (String.eqb_spec k name); cbn [length]; [reflexivity|].
  rewrite IH. destruct (dict_get name rest); reflexivity.
Qed.

(** X12.  [add_member] raises exactly for an unknown household.  When it
    returns, the stored member is found again under its name; a member
    already filed under that name is replaced, so the household grows by one
    member only for a new name; every other member of the household and
    every other household are as before, and so are the household's
    settings. *)
Theorem added_member_is_found_again profiles household_id name age health_conditions
  allergies dietary_restrictions preferences dislikes calorie_target :
  let result := add_member profiles household_id name age health_conditions allergies
                           dietary_restrictions preferences dislikes calorie_target in
  (result = None <-> get_household profiles household_id = None)
  /\ (forall member profiles',
        result = Some (member, profiles') ->
        get_member profiles' household_id name = Some member
        /\ (forall other, other <> name ->
              get_member profiles' household_id other = get_member profiles household_id other)
        /\ (forall h, h <> household_id -> get_household profiles' h = get_household profiles h)
        /\ exists before after,
             get_household profiles household_id = Some before
             /\ get_household profiles' household_id = Some after
             /\ length (members after)
                = match get_member profiles household_id name with
                  | Some _ => length (members before)
                  | None => S (length (members before))
                  end
             /\ cooking_time_max_minutes after = cooking_time_max_minutes before
             /\ shared_appliances after = shared_appliances before
             /\ budget_weekly after = budget_weekly before
             /\ cuisine_preferences after = cuisine_preferences before).
Proof.
  cbv zeta. unfold add_member, get_member, get_household.
  destruct (profiles !! household_id) as [profile|] eqn:P.
  - split; [split; discriminate|].
    intros member profiles' H. injection H as <- <-.
    rewrite lookup_insert_eq. cbn [with_member members].
    split; [apply dict_get_set_eq|].
    split; [intros other N; apply dict_get_set_ne; exact N|].
    split; [intros h N; apply lookup_insert_ne; congruence|].
    exists profile. eexists. split; [reflexivity|]. split; [reflexivity|].
    cbn. split; [apply length_dict_set|]. auto.
  - split; [split; reflexivity|]. intros member profiles' H. discriminate.
Qed.

(** What the store aggregates for a known household. *)
Lemma constraints_listed profiles household_id profile :
  profiles !! household_id = Some profile ->
  let constraints := get_all_constraints profiles household_id in
  (forall x, In x (sc_allergies constraints) <-> listed m_allergies (members profile) x)
  /\ (forall x, In x (sc_dietary_restrictions constraints)
                <-> listed m_dietary_restrictions (members profile) x)
  /\ (forall x, In x (sc_health_conditions constraints)
                <-> listed m_health_conditions (members profile) x)
  /\ (forall x, In x (sc_dislikes constraints) <-> listed m_dislikes (members profile) x).
Proof.
  intros P. cbv zeta. unfold get_all_constraints, get_household. rewrite P. cbn.
  destruct (aggregate_members_unions (members profile)) as (A & B & C & D).
  rewrite A, B, C, D. repeat split; intros; apply In_elements_union; assumption.
Qed.

Lemma In_dict_set name member ms : In (name, member) (dict_set name member ms).
Proof.
  induction ms as [|[k v] rest IH]; cbn [dict_set]; [left; reflexivity|].
  destruct (String.eqb_spec k name) as [->|N]; [left; reflexivity|right; exact IH].
Qed.

Lemma In_dict_set_inv name member ms e :
  In e (dict_set name member ms) -> e = (name, member) \/ In e ms.
Proof.
  induction ms as [|[k v] rest IH]; cbn [dict_set]; [intros [<-|[]]; left; reflexivity|].
  destruct (String.eqb_spec k name) as [->|N].
  - intros [<-|H]; [left; reflexivity|right; right; exact H].
  - intros [<-|H]; [right; left; reflexivity|]. destruct (IH H) as [E|E]; [left|right; right]; exact E.
Qed.

Lemma In_dict_set_other name member ms e :
  In e ms -> fst e <> name -> In e (dict_set name member ms).
Proof.
  intros H N. induction ms as [|[k v] rest IH]; [destruct H|]. cbn [dict_set].
  destruct (String.eqb_spec k name) as [->|N'].
  - destruct H as [<-|H]; [contradiction N; reflexivity|right; exact H].
  - destruct H as [<-|H]; [left; reflexivity|right; apply IH; exact H].
Qed.

(** The entries listed after [members[name] = member]. *)
Lemma listed_dict_set (field : Member -> list string) name member ms x :
  (In x (field member) -> listed field (dict_set name member ms) x)
  /\ (listed field (dict_set name member ms) x -> In x (field member) \/ listed field ms x)
  /\ ((exists e, In e ms /\ fst e <> name /\ In x (field (snd e))) ->
      listed field (dict_set name member ms) x).
Proof.
  unfold listed. split; [|split].
  - intros H. exists (name, member). split; [apply In_dict_set|exact H].
  - intros (e & He & Hx). apply In_dict_set_inv in He as [->|He]; [left; exact Hx|].
    right. exists e. auto.
  - intros (e & He & N & Hx). exists e. split; [apply In_dict_set_other; assumption|exact Hx].
Qed.

End StoreExtras.

Module MemoryExtras.
Import PyStr NutritionCompliance SessionManager MemoryUpdates MemoryInputs.

Section HistoryFacts.

Context {Plan : Type} `{EqDecision Plan}.

Implicit Types (l plans historical_plans stored : list (PlanEntry Plan)) (x y : PlanEntry Plan).
Implicit Types (plan : Plan).

Lemma plans_of_app h l1 l2 : plans_of h (l1 ++ l2) = plans_of h l1 ++ plans_of h l2.
Proof. unfold plans_of. apply List.filter_app. Qed.

Lemma plans_of_head h l x rest :
  plans_of h l = x :: rest -> entry_household_id x = h.
Proof.
  intros E. assert (I : In x (plans_of h l)) by (rewrite E; left; reflexivity).
  apply List.filter_In in I as [_ I]. apply String.eqb_eq in I. exact I.
Qed.

(** Removing the oldest entry of a household removes that very entry. *)
Lemma list_remove_oldest h l x rest :
  plans_of h l = x :: rest ->
  exists l', list_remove x l = Some l'
             /\ plans_of h l' = rest
             /\ forall other, other <> h -> plans_of other l' = plans_of other l.
Proof.
  revert x rest. induction l as [|y l IH]; intros x rest E; [discriminate|].
  pose proof (plans_of_head _ _ _ _ E) as Hx.
  unfold plans_of in E. cbn [List.filter] in E. cbn [list_remove].
  destruct (String.eqb_spec (entry_household_id y) h) as [Hy|Hy].
  - injection E as -> <-. rewrite decide_True by reflexivity.
    exists l. split; [reflexivity|]. split; [reflexivity|].
    intros other N. unfold plans_of. cbn [List.filter].
    destruct (String.eqb_spec (entry_household_id x) other); [congruence|reflexivity].
  - rewrite decide_False by (intros ->; contradiction).
    destruct (IH x rest E) as (l' & R & P & O). rewrite R. cbn [option_map].
    exists (y :: l'). split; [reflexivity|]. split.
    + unfold plans_of. cbn [List.filter].
      destruct (String.eqb_spec (entry_household_id y) h); [contradiction|exact P].
    + intros other N. unfold plans_of in *. cbn [List.filter]. rewrite (O other N). reflexivity.
Qed.

Lemma remove_all_oldest h k l :
  exists l', remove_all (take k (plans_of h l)) l = Some l'
             /\ plans_of h l' = drop k (plans_of h l)
             /\ forall other, other <> h -> plans_of other l' = plans_of other l.
Proof.
  revert l. induction k as [|k IH]; intros l.
  - exists l. cbn. auto.
  - destruct (plans_of h l) as [|x rest] eqn:E.
    + exists l. cbn. rewrite E. auto.
    + destruct (list_remove_oldest h l x rest E) as (l1 & R & P & O).
      cbn [take remove_all drop]. rewrite R.
      destruct (IH l1) as (l' & R' & P' & O'). rewrite P in R', P'.
      exists l'. split; [exact R'|]. split; [exact P'|].
      intros other N. rewrite (O' other N). apply O, N.
Qed.

(** What [store_meal_plan] leaves in the history. *)
Lemma store_meal_plan_spec historical_plans household_id now plan :
  let plan_entry := {| entry_household_id := household_id; entry_created_at := now;
                       entry_plan := plan |} in
  let household_plans := plans_of household_id historical_plans ++ [plan_entry] in
  exists stored,
    store_meal_plan historical_plans household_id now plan = Some stored
    /\ plans_of household_id stored = drop (length household_plans - 10) household_plans
    /\ (forall other, other <> household_id ->
                      plans_of other stored = plans_of other historical_plans).
Proof.
  cbv zeta. unfold store_meal_plan. cbv zeta.
  set (plan_entry := {| entry_household_id := household_id; entry_created_at := now;
                        entry_plan := plan |}).
  assert (A : plans_of household_id (historical_plans ++ [plan_entry])
              = plans_of household_id historical_plans ++ [plan_entry]).
  { rewrite plans_of_app. f_equal. unfold plans_of. cbn. rewrite String.eqb_refl. reflexivity. }
  assert (B : forall other, other <> household_id ->
                plans_of other (historical_plans ++ [plan_entry])
                = plans_of other historical_plans).
  { intros other N. rewrite plans_of_app. unfold plans_of at 2. cbn.
    destruct (String.eqb_spec household_id other); [congruence|apply app_nil_r]. }
  destruct (Nat.ltb_spec 10 (length (plans_of household_id (historical_plans ++ [plan_entry]))))
    as [L|L].
  - destruct (remove_all_oldest household_id
                (length (plans_of household_id (historical_plans ++ [plan_entry])) - 10)
                (historical_plans ++ [plan_entry])) as (stored & R & P & O).
    exists stored. split; [exact R|]. rewrite <- A. split; [exact P|].
    intros other N. rewrite (O other N). apply B, N.
  - exists (historical_plans ++ [plan_entry]). split; [reflexivity|].
    rewrite <- A. split; [|exact B].
    replace (length _ - 10)%nat with 0%nat by lia. reflexivity.
Qed.

(** X13.  [store_meal_plan] never fails on the removal of old entries.
    Afterwards the history of the household is its earlier history followed
    by the new entry, cut to the ten most recent: the new entry is the last
    one, at most ten are kept, and nothing is dropped while there are ten or
    fewer.  The histories of the other households are untouched. *)
Theorem stored_history_keeps_the_last_ten historical_plans household_id now plan :
  let plan_entry := {| entry_household_id := household_id; entry_created_at := now;
                       entry_plan := plan |} in
  let household_plans := plans_of household_id historical_plans ++ [plan_entry] in
  exists stored,
    store_meal_plan historical_plans household_id now plan = Some stored
    /\ plans_of household_id stored = drop (length household_plans - 10) household_plans
    /\ length (plans_of household_id stored) = Nat.min (length household_plans) 10
    /\ last (plans_of household_id stored) = Some plan_entry
    /\ (forall other, other <> household_id ->
                      plans_of other stored = plans_of other historical_plans).
Proof.
  cbv zeta.
  destruct (store_meal_plan_spec historical_plans household_id now plan)
    as (stored & S & P & O).
  exists stored. split; [exact S|]. split; [exact P|]. rewrite P.
  split; [rewrite length_drop; lia|]. split; [|exact O].
  rewrite length_app. cbn [length].
  set (old := plans_of household_id historical_plans).
  rewrite drop_app_le by lia. apply last_snoc.
Qed.

(** X14.  [get_recent_plans] with a positive limit returns the most recent
    plans of the household, oldest first, at most [limit] of them; directly
    after [store_meal_plan] the last of them is the plan just stored.  With
    limit 0 the slice [[-0:]] is the whole list: every plan of the household
    is returned, not none. *)
Theorem recent_plans_end_with_the_stored_plan historical_plans household_id now plan stored limit :
  store_meal_plan historical_plans household_id now plan = Some stored ->
  (0 < limit)%Z ->
  let recent := get_recent_plans stored household_id limit in
  (exists older, plans_of household_id stored = older ++ recent)
  /\ length recent = Nat.min (length (plans_of household_id stored)) (Z.to_nat limit)
  /\ last recent = Some {| entry_household_id := household_id; entry_created_at := now;
                           entry_plan := plan |}
  /\ get_recent_plans stored household_id 0 = plans_of household_id stored.
Proof.
  intros S Hl. cbv zeta.
  destruct (store_meal_plan_spec historical_plans household_id now plan)
    as (stored' & S' & P & _).
  rewrite S in S'. injection S' as <-.
  unfold get_recent_plans. cbv zeta.
  destruct (Z.ltb_spec 0 limit) as [_|]; [|lia].
  set (hp := plans_of household_id stored) in *.
  set (k := (length hp - Z.to_nat limit)%nat).
  split; [exists (take k hp); symmetry; apply take_drop|].
  split; [rewrite length_drop; lia|].
  split; [|reflexivity].
  assert (N : hp <> []).
  { rewrite P. rewrite length_app. cbn [length].
    rewrite drop_app_le by lia. intros E. apply (f_equal length) in E.
    rewrite length_app in E. cbn [length] in E. lia. }
  assert (Lhp : last hp = Some {| entry_household_id := household_id; entry_created_at := now;
                                  entry_plan := plan |}).
  { rewrite P. rewrite length_app. cbn [length]. rewrite drop_app_le by lia. apply last_snoc. }
  destruct (exists_last N) as (front & x & E).
  rewrite E in Lhp. rewrite last_snoc in Lhp. injection Lhp as ->.
  assert (K : (k <= length front)%nat).
  { unfold k. rewrite E, length_app. cbn [length]. lia. }
  rewrite E, drop_app_le by exact K. apply last_snoc.
Qed.

End HistoryFacts.

(** A thirteenth plan for the household: its three oldest plans go. *)
Lemma recent_plans_end_with_the_stored_plan_witness :
  exists stored,
    store_meal_plan long_history "home" "2025-02-01T00:00:00" 13%nat = Some stored
    /\ map entry_plan (plans_of "home" stored) = seq 4 10
    /\ map entry_plan (get_recent_plans stored "home" 3) = [11; 12; 13]%nat
    /\ last (get_recent_plans stored "home" 3)
       = Some {| entry_household_id := "home"; entry_created_at := "2025-02-01T00:00:00";
                 entry_plan := 13%nat |}.
Proof.
  assert (E : exists stored,
             store_meal_plan long_history "home" "2025-02-01T00:00:00" 13%nat = Some stored
             /\ map entry_plan (plans_of "home" stored) = seq 4 10
             /\ map entry_plan (get_recent_plans stored "home" 3) = [11; 12; 13]%nat).
  { vm_compute. eexists. split; [reflexivity|]. split; reflexivity. }
  destruct E as (stored & S & A & B). exists stored.
  split; [exact S|]. split; [exact A|]. split; [exact B|].
  exact (proj1 (proj2 (proj2
    (recent_plans_end_with_the_stored_plan long_history "home" "2025-02-01T00:00:00" 13%nat
       stored 3 S eq_refl)))).
Defined.

End MemoryExtras.

Module ProfileExtras.
Import PyStr NutritionCompliance FamilyProfileStore SessionManager StoreReading StoreFacts.
Import StoreUpdates MemoryUpdates ProfileUpdates StoreExtras StoreInputs Fixtures Hits.
Import ValidatorFacts ValidatorExtras.

Lemma get_disliked_add memory household_id ingredient :
  get_disliked_ingredients (add_disliked_ingredient memory household_id ingredient) household_id
  = if bool_decide (ingredient ∈ get_disliked_ingredients memory household_id)
    then get_disliked_ingredients memory household_id
    else get_disliked_ingredients memory household_id ++ [ingredient].
Proof.
  unfold get_disliked_ingredients, add_disliked_ingredient. cbn.
  rewrite lookup_insert_eq. reflexivity.
Qed.

Lemma get_disliked_add_other memory household_id ingredient other :
  other <> household_id ->
  get_disliked_ingredients (add_disliked_ingredient memory household_id ingredient) other
  = get_disliked_ingredients memory other.
Proof.
  intros N. unfold get_disliked_ingredients, add_disliked_ingredient. cbn.
  rewrite lookup_insert_ne by congruence. reflexivity.
Qed.

(** The memory after a list of dislikes went in one by one. *)
Lemma fold_add_disliked dislikes memory household_id :
  let memory' :=
    fold_left (fun memory dislike => add_disliked_ingredient memory household_id dislike)
              dislikes memory in
  (exists added, get_disliked_ingredients memory' household_id
                 = get_disliked_ingredients memory household_id ++ added
                 /\ forall d, In d added -> In d dislikes)
  /\ (forall d, In d dislikes -> In d (get_disliked_ingredients memory' household_id))
  /\ (NoDup (get_disliked_ingredients memory household_id) ->
      NoDup (get_disliked_ingredients memory' household_id))
  /\ (forall other, other <> household_id ->
        get_disliked_ingredients memory' other = get_disliked_ingredients memory other)
  /\ health_condition_mappings memory' = health_condition_mappings memory.
Proof.
  cbv zeta. revert memory. induction dislikes as [|d ds IH]; intros memory; cbn [fold_left].
  - split; [exists []; rewrite app_nil_r; split; [reflexivity|intros ? []]|].
    split; [intros ? []|]. auto.
  - destruct (IH (add_disliked_ingredient memory household_id d))
      as ((added & E & A) & I & N & O & M).
    rewrite get_disliked_add in E, N.
    split; [|split; [|split; [|split]]].
    + destruct (bool_decide (d ∈ get_disliked_ingredients memory household_id)).
      * exists added. split; [exact E|]. intros x Hx. right. apply A, Hx.
      * exists (d :: added). rewrite E, <- app_assoc. split; [reflexivity|].
        intros x [<-|Hx]; [left; reflexivity|right; apply A, Hx].
    + intros x [Hx|Hx]; [subst x|apply I, Hx]. rewrite E.
      destruct (bool_decide (d ∈ get_disliked_ingredients memory household_id)) eqn:B.
      * apply bool_decide_eq_true in B. apply in_or_app. left. apply list_elem_of_In, B.
      * apply in_or_app. left. apply in_or_app. right. left. reflexivity.
    + intros Hn. apply N.
      destruct (bool_decide (d ∈ get_disliked_ingredients memory household_id)) eqn:B;
        [exact Hn|].
      apply bool_decide_eq_false in B. apply NoDup_app. split; [exact Hn|]. split.
      * intros x Hx Hx'. apply list_elem_of_singleton in Hx'. congruence.
      * apply NoDup_singleton.
    + intros other No. rewrite (O other No). apply get_disliked_add_other, No.
    + rewrite M. reflexivity.
Qed.



(** X16.  The dislikes given with a new member are recorded twice: they are
    among the household's aggregated dislikes and in the long-term memory,
    and both lists are part of the constraints handed to planning.  The
    memory keeps what it held, in order, and appends only dislikes of the new
    member; it stays free of duplicates if it was; the memory of the other
    households and the health guidelines are untouched. *)
Theorem dislikes_of_added_member_are_remembered profiles memory household_id name age
  health_conditions allergies dietary_restrictions preferences dislikes calorie_target
  member profiles' memory' :
  add_family_member profiles memory household_id name age health_conditions allergies
                    dietary_restrictions preferences dislikes calorie_target
  = Some (member, profiles', memory') ->
  let constraints := ProfileManager.get_all_constraints profiles' memory' household_id in
  (forall d, In d (default [] dislikes) ->
             In d (c_dislikes constraints) /\ In d (c_disliked_ingredients_memory constraints))
  /\ (exists added,
        c_disliked_ingredients_memory constraints
        = get_disliked_ingredients memory household_id ++ added
        /\ forall d, In d added -> In d (default [] dislikes))
  /\ (NoDup (get_disliked_ingredients memory household_id) ->
      NoDup (c_disliked_ingredients_memory constraints))
  /\ (forall other, other <> household_id ->
        get_disliked_ingredients memory' other = get_disliked_ingredients memory other)
  /\ health_condition_mappings memory' = health_condition_mappings memory.
Proof.
  unfold add_family_member, add_member. intros H.
  destruct (profiles !! household_id) as [profile|] eqn:P; [|discriminate].
  injection H as <- <- <-. cbv zeta.
  destruct (fold_add_disliked (default [] dislikes) memory household_id)
    as (E & I & N & O & M).
  match goal with
  | |- context [<[household_id := with_member profile name ?m]> profiles] =>
      set (new_member := m)
  end.
  assert (P' : <[household_id := with_member profile name new_member]> profiles !! household_id
               = Some (with_member profile name new_member)) by apply lookup_insert_eq.
  destruct (constraints_listed _ _ _ P') as (_ & _ & _ & D).
  unfold ProfileManager.get_all_constraints.
  cbn [c_dislikes c_disliked_ingredients_memory].
  split; [|split; [exact E|split; [exact N|split; [exact O|exact M]]]].
  intros d Hd. split; [|apply I, Hd].
  apply D. cbn [with_member members].
  apply (proj1 (listed_dict_set m_dislikes name new_member (members profile) d)). exact Hd.
Qed.

(** Ann joins with two dislikes, one of them given twice. *)
Lemma dislikes_of_added_member_are_remembered_witness :
  exists member profiles' memory',
    add_family_member empty_home _initialize_memory_structure "home" "Ann" None None None None
                      None (Some ["olives"; "liver"; "olives"]) None
    = Some (member, profiles', memory')
    /\ get_disliked_ingredients memory' "home" = ["olives"; "liver"]
    /\ NoDup (c_disliked_ingredients_memory
                (ProfileManager.get_all_constraints profiles' memory' "home")).
Proof.
  assert (E : exists member profiles' memory',
             add_family_member empty_home _initialize_memory_structure "home" "Ann" None None
                               None None None (Some ["olives"; "liver"; "olives"]) None
             = Some (member, profiles', memory')
             /\ get_disliked_ingredients memory' "home" = ["olives"; "liver"]).
  { vm_compute. eexists. eexists. eexists. split; reflexivity. }
  destruct E as (member & profiles' & memory' & E & G).
  exists member, profiles', memory'. split; [exact E|]. split; [exact G|].
  apply (proj1 (proj2 (proj2
    (dislikes_of_added_member_are_remembered _ _ _ _ _ _ _ _ _ _ _ _ _ _ E)))).
  vm_compute. constructor.
Defined.

End ProfileExtras.
Module PlanningExtras.
Import PyStr NutritionCompliance ScheduleOptimizer RecipeGenerator Orchestrator.
Import FamilyProfileStore OrchestratorReading ValidatorFacts OrchestratorFacts PlanReading.
Import StoreUpdates StoreInputs.

(** The profile check passes exactly for a known household with a member
    and a positive cooking-time limit. *)
Lemma valid_iff_complete profiles household_id :
  ProfileManager.valid (ProfileManager.validate_profile_completeness profiles household_id) = true
  <-> complete_profile profiles household_id.
Proof.
  unfold ProfileManager.validate_profile_completeness, complete_profile, get_household.
  destruct (profiles !! household_id) as [profile|].
  - cbv zeta. cbn [ProfileManager.valid].
    destruct (members profile) as [|m ms] eqn:M;
      destruct (Z.leb_spec (cooking_time_max_minutes profile) 0) as [L|L]; cbn.
    + split; [discriminate|]. intros (p & [= <-] & N & _). congruence.
    + split; [discriminate|]. intros (p & [= <-] & N & _). congruence.
    + split; [discriminate|]. intros (p & [= <-] & _ & T). lia.
    + split; [intros _|reflexivity]. exists profile. rewrite M. split; [reflexivity|].
      split; [discriminate|exact L].
  - cbn. split; [discriminate|]. intros (p & E & _). discriminate.
Qed.

Section Planning.

Variable SourceState : Type.
Variable generate : string -> PlanningContext -> Constraints -> option string -> Z ->
                    SourceState -> option (Recipe * SourceState).
Variable lookup : string -> float -> option Nutrition.

(** Past the profile check the run is the loop over the days. *)
Lemma complete_plan_unfold profiles memory household_id days max_retries (w : World SourceState) :
  complete_profile profiles household_id ->
  exists planning_context,
    ProfileManager.generate_planning_context profiles household_id = Some planning_context
    /\ generate_complete_meal_plan SourceState generate lookup profiles memory household_id
                                   days max_retries w
       = plan_days SourceState generate lookup planning_context
                   (ProfileManager.get_all_constraints profiles memory household_id)
                   max_retries (Z.to_nat days) 1 [] w.
Proof.
  intros C. pose proof (proj2 (valid_iff_complete profiles household_id) C) as V.
  destruct C as (profile & P & _).
  unfold generate_complete_meal_plan, ProfileManager.generate_planning_context, get_household
    in *.
  rewrite P. eexists. split; [reflexivity|].
  unfold bind, raise_or. cbv zeta. rewrite V. reflexivity.
Qed.



(** A slot when no attempt is allowed. *)
Lemma plan_meal_without_attempt planning_context constraints max_retries day_num day_meals meal
  (w : World SourceState) :
  (max_retries <= 0)%Z ->
  plan_meal SourceState generate lookup planning_context constraints max_retries
            day_num day_meals meal w
  = Some (day_meals,
          {| source_state := source_state w;
             generation_calls := generation_calls w;
             log := log w ++ [recipe_generation_exhausted meal max_retries]
                          ++ [recipe_generation_failed day_num meal] |}).
Proof.
  intros H. unfold plan_meal, _generate_validated_recipe.
  replace (Z.to_nat max_retries) with 0%nat by lia.
  cbn. rewrite <- app_assoc. reflexivity.
Qed.

Lemma plan_days_without_attempt planning_context constraints max_retries remaining day_num
  weekly_plan (w : World SourceState) :
  (max_retries <= 0)%Z ->
  exists w',
    plan_days SourceState generate lookup planning_context constraints max_retries
              remaining day_num weekly_plan w
    = Some (weekly_plan ++ empty_days remaining day_num, w')
    /\ generation_calls w' = generation_calls w
    /\ source_state w' = source_state w
    /\ failed_slots (log w') = failed_slots (log w) ++ slots_from remaining day_num.
Proof.
  intros H. revert day_num weekly_plan w.
  induction remaining as [|k IH]; intros day_num weekly_plan w.
  - exists w. cbn. rewrite !app_nil_r. auto.
  - cbn [plan_days]. unfold bind at 1. unfold meal_types. cbn [plan_meals].
    unfold bind at 1. rewrite (plan_meal_without_attempt _ _ _ _ _ _ _ H).
    unfold bind at 1. rewrite (plan_meal_without_attempt _ _ _ _ _ _ _ H).
    unfold bind at 1. rewrite (plan_meal_without_attempt _ _ _ _ _ _ _ H).
    unfold ret at 1.
    match goal with
    | |- context [plan_days _ _ _ _ _ _ k ?d ?p ?w0] =>
        destruct (IH d p w0) as (w' & R & G & S & F)
    end.
    exists w'. rewrite R. cbn [generation_calls source_state log] in G, S, F.
    split; [|split; [exact G|split; [exact S|]]].
    + unfold empty_days. cbn [day_numbers map]. rewrite <- app_assoc. reflexivity.
    + rewrite F. rewrite !failed_slots_app. cbn. rewrite <- !app_assoc. reflexivity.
Qed.

(** X18.  With [max_retries] zero or negative no attempt is made: the
    Recipe Source is never called, every slot of every day is reported as
    failed, and the run returns, without an error, a plan whose days hold no
    meal. *)
Theorem no_attempt_allowed_plans_nothing profiles memory household_id days max_retries
  (w : World SourceState) :
  complete_profile profiles household_id ->
  (max_retries <= 0)%Z ->
  exists w',
    generate_complete_meal_plan SourceState generate lookup profiles memory household_id
                                days max_retries w
    = Some (empty_days (Z.to_nat days) 1, w')
    /\ generation_calls w' = generation_calls w
    /\ source_state w' = source_state w
    /\ failed_slots (log w') = failed_slots (log w) ++ all_slots (Z.to_nat days).
Proof.
  intros C H.
  destruct (complete_plan_unfold profiles memory household_id days max_retries w C)
    as (planning_context & _ & E).
  rewrite E.
  apply (plan_days_without_attempt planning_context _ max_retries (Z.to_nat days) 1 [] w H).
Qed.

End Planning.


(** Bob's household planned for two days with no attempt allowed. *)
Lemma no_attempt_allowed_plans_nothing_witness :
  exists w',
    generate_complete_meal_plan nat always_peanut_butter NutritionLookup.lookup peanut_household
      SessionManager._initialize_memory_structure "home" 2 0 start
    = Some (empty_days 2 1, w')
    /\ generation_calls w' = []
    /\ source_state w' = 0%nat
    /\ failed_slots (log w')
       = [(1, "breakfast"); (1, "lunch"); (1, "dinner");
          (2, "breakfast"); (2, "lunch"); (2, "dinner")]%Z.
Proof.
  apply (no_attempt_allowed_plans_nothing nat always_peanut_butter NutritionLookup.lookup
           peanut_household SessionManager._initialize_memory_structure "home" 2 0 start).
  - exists (StoreReading.household_of [("Bob", Fixtures.bob)]).
    split; [reflexivity|]. split; [discriminate|reflexivity].
  - lia.
Defined.

End PlanningExtras.

Module SourceExtras.
Import PyStr NutritionCompliance ScheduleOptimizer RecipeGenerator Orchestrator.
Import FamilyProfileStore OrchestratorReading ValidatorFacts OrchestratorFacts PlanReading.
Import MockRecipes MockReading PlanningExtras.

Section Sources.

Variable SourceState : Type.
Variable generate : string -> PlanningContext -> Constraints -> option string -> Z ->
                    SourceState -> option (Recipe * SourceState).
Variable lookup : string -> float -> option Nutrition.
Variable planning_context : PlanningContext.
Variable constraints : Constraints.
Variable max_retries : Z.

Section Compliant.

(** Every answer of the Recipe Source to the first attempt at a slot
    passes validation. *)
Hypothesis always_compliant :
  forall meal s,
    In meal meal_types ->
    exists recipe s' validation,
      generate meal planning_context constraints None 0%Z s = Some (recipe, s')
      /\ validate_recipe lookup (model_dump recipe) planning_context constraints
         = Some validation
      /\ is_compliant validation = true.

Hypothesis one_attempt : (1 <= max_retries)%Z.




End Compliant.

Section IgnoresFeedback.

(** The answer of the Recipe Source depends on the meal type, the context
    and the constraints only. *)
Variable answer : string -> PlanningContext -> Constraints -> Recipe.

Hypothesis ignores_feedback :
  forall meal pc c additional retry s,
    exists s', generate meal pc c additional retry s = Some (answer meal pc c, s').

Lemma generate_recipe_answers meal additional retry (w : World SourceState) :
  exists w',
    generate_recipe SourceState generate meal planning_context constraints additional retry w
    = Some (answer meal planning_context constraints, w')
    /\ length (generation_calls w') = S (length (generation_calls w)).
Proof.
  destruct (ignores_feedback meal planning_context constraints additional retry
              (source_state w)) as (s' & G).
  destruct (generate_recipe_returns SourceState generate planning_context constraints
              _ _ _ _ _ _ G) as (w' & G').
  exists w'. split; [exact G'|].
  apply generate_recipe_run in G' as (_ & Hc & _). exact Hc.
Qed.

Lemma attempts_repeat_the_failure meal validation remaining attempt (w : World SourceState) :
  validate_recipe lookup (model_dump (answer meal planning_context constraints))
                  planning_context constraints = Some validation ->
  is_compliant validation = false ->
  (Z.of_nat remaining + attempt = max_retries)%Z ->
  exists w',
    attempt_loop SourceState generate lookup meal planning_context constraints max_retries
                 remaining attempt w = Some (None, w')
    /\ length (generation_calls w')
       = (length (generation_calls w) + (2 * remaining - 1))%nat.
Proof.
  intros V C. revert attempt w. induction remaining as [|k IH]; intros attempt w Hinv.
  - exists w. split; [reflexivity|]. simpl. lia.
  - cbn [attempt_loop]. unfold bind at 1.
    destruct (generate_recipe_answers meal None attempt w) as (w1 & G & Hc1).
    rewrite G. unfold bind at 1, raise_or. rewrite V, C.
    unfold bind at 1, log_event. unfold bind at 1.
    destruct (attempt <? max_retries - 1)%Z eqn:A.
    + unfold bind at 1, regenerate_recipe.
      match goal with
      | |- context [generate_recipe _ _ ?m _ _ ?a ?rc ?w0] =>
          destruct (generate_recipe_answers m a rc w0) as (w2 & G2 & Hc2)
      end.
      rewrite G2. unfold ret at 1. apply Z.ltb_lt in A.
      destruct (IH (attempt + 1)%Z w2) as (w' & L & Hn); [lia|].
      exists w'. split; [exact L|]. rewrite Hn, Hc2. cbn. rewrite Hc1. lia.
    + unfold ret at 1. apply Z.ltb_ge in A.
      assert (k = 0%nat) by lia. subst k.
      eexists. split; [reflexivity|]. cbn. lia.
Qed.

(** A slot of a source that ignores the feedback: the first answer decides. *)
Lemma first_answer_decides meal validation (w : World SourceState) :
  (1 <= max_retries)%Z ->
  validate_recipe lookup (model_dump (answer meal planning_context constraints))
                  planning_context constraints = Some validation ->
  exists w',
    _generate_validated_recipe SourceState generate lookup meal planning_context constraints
                               max_retries w
    = Some (if is_compliant validation
            then Some (accept (model_dump (answer meal planning_context constraints)) validation)
            else None, w')
    /\ length (generation_calls w')
       = (length (generation_calls w)
          + if is_compliant validation then 1 else 2 * Z.to_nat max_retries - 1)%nat.
Proof.
  intros H1 V. destruct (is_compliant validation) eqn:C.
  - unfold _generate_validated_recipe.
    destruct (Z.to_nat max_retries) as [|k] eqn:K; [lia|].
    cbn [attempt_loop]. unfold bind at 1. unfold bind at 1.
    destruct (generate_recipe_answers meal None 0%Z w) as (w1 & G & Hc1).
    rewrite G. unfold bind at 1, raise_or. rewrite V, C. unfold ret.
    eexists. split; [reflexivity|]. rewrite Hc1. lia.
  - unfold _generate_validated_recipe, bind at 1.
    destruct (attempts_repeat_the_failure meal validation (Z.to_nat max_retries) 0 w V C)
      as (w1 & L & Hn); [lia|].
    rewrite L. unfold bind, log_event, ret. eexists. split; [reflexivity|]. simpl. exact Hn.
Qed.

End IgnoresFeedback.

End Sources.




(** X20.  A Recipe Source whose answer does not depend on the feedback, the
    retry count or its own state gains nothing from the retries: the first
    answer decides the slot.  If it passes validation it is accepted after
    one generation call; if not, the slot is given up after all
    [2 * max_retries - 1] calls. *)
Theorem retry_cannot_help_a_source_that_ignores_feedback SourceState generate lookup
  planning_context constraints max_retries answer meal validation (w : World SourceState) :
  (forall m pc c additional retry s,
      exists s', generate m pc c additional retry s = Some (answer m pc c, s')) ->
  (1 <= max_retries)%Z ->
  validate_recipe lookup (model_dump (answer meal planning_context constraints))
                  planning_context constraints = Some validation ->
  exists w',
    _generate_validated_recipe SourceState generate lookup meal planning_context constraints
                               max_retries w
    = Some (if is_compliant validation
            then Some (accept (model_dump (answer meal planning_context constraints)) validation)
            else None, w')
    /\ length (generation_calls w')
       = (length (generation_calls w)
          + if is_compliant validation then 1 else 2 * Z.to_nat max_retries - 1)%nat.
Proof.
  intros Hi H1 V.
  apply (first_answer_decides SourceState generate lookup planning_context constraints
           max_retries answer Hi meal validation w H1 V).
Qed.

End SourceExtras.

Module MockExtras.
Import PyStr NutritionCompliance ScheduleOptimizer RecipeGenerator Orchestrator.
Import FamilyProfileStore OrchestratorReading ValidatorFacts OrchestratorFacts PlanReading.
Import MockRecipes MockReading PlanningExtras SourceExtras Hits ValidatorExtras.

(** The offline generator on a vegan household: the quinoa bowl with its
    feta cheese is rejected, and the slot is given up after five calls. *)
Lemma retry_cannot_help_a_source_that_ignores_feedback_witness :
  exists w',
    _generate_validated_recipe unit mock_generate NutritionLookup.lookup "lunch"
      (Fixtures.context_of [])
      (ProfileManager.get_all_constraints vegan_household
         SessionManager._initialize_memory_structure "home") 3 offline_start
    = Some (None, w')
    /\ length (generation_calls w') = 5%nat.
Proof.
  assert (E : exists validation,
             validate_recipe NutritionLookup.lookup
               (model_dump (_generate_mock_recipe "lunch" (Fixtures.context_of [])
                              (ProfileManager.get_all_constraints vegan_household
                                 SessionManager._initialize_memory_structure "home")))
               (Fixtures.context_of [])
               (ProfileManager.get_all_constraints vegan_household
                  SessionManager._initialize_memory_structure "home") = Some validation
             /\ is_compliant validation = false)
    by (vm_compute; eexists; split; reflexivity).
  destruct E as (validation & V & C).
  destruct (retry_cannot_help_a_source_that_ignores_feedback unit mock_generate
              NutritionLookup.lookup (Fixtures.context_of [])
              (ProfileManager.get_all_constraints vegan_household
                 SessionManager._initialize_memory_structure "home")
              3 _generate_mock_recipe "lunch" validation offline_start
              (fun m pc c additional retry s => ex_intro _ s eq_refl) ltac:(lia) V)
    as (w' & R & N).
  rewrite C in R, N. exists w'. split; [exact R|exact N].
Defined.





Lemma lower_listed r restrictions s :
  In r restrictions -> lower r = s -> bool_decide (s ∈ map lower restrictions) = true.
Proof.
  intros H <-. apply bool_decide_eq_true_2, list_elem_of_In, in_map, H.
Qed.




(** The lunch the offline generator gives a household with a vegan member
    lists feta cheese. *)
Lemma mock_vegan_lunch_has_cheese planning_context constraints :
  (exists r, In r (c_dietary_restrictions constraints) /\ lower r = "vegan") ->
  In (ingredient "feta cheese" 100 "grams")
     (ingredients (_generate_mock_recipe "lunch" planning_context constraints)).
Proof.
  intros (r & Hin & E). unfold _generate_mock_recipe. cbv zeta.
  rewrite (lower_listed _ _ _ Hin E), orb_true_r.
  change (String.eqb "lunch" "breakfast") with false.
  change (String.eqb "lunch" "lunch") with true.
  cbv iota. cbn [ingredients]. do 7 right. left. reflexivity.
Qed.

(** The mock lunch of a vegan household is rejected. *)
Lemma mock_vegan_lunch_fails lookup planning_context constraints validation :
  (exists r, In r (c_dietary_restrictions constraints) /\ lower r = "vegan") ->
  validate_recipe lookup
    (model_dump (_generate_mock_recipe "lunch" planning_context constraints))
    planning_context constraints = Some validation ->
  is_compliant validation = false.
Proof.
  intros Hv V. pose proof (mock_vegan_lunch_has_cheese planning_context constraints Hv) as Hc.
  destruct Hv as (r & Hin & E).
  destruct (is_compliant validation) eqn:C; [|reflexivity]. exfalso.
  apply (compliance_criterion _ _ _ _ _ V) in C as (_ & C & _). apply C.
  exists r, ["meat"; "chicken"; "beef"; "pork"; "fish"; "egg"; "milk";
             "cheese"; "butter"; "cream"; "yogurt"],
         (ingredient "feta cheese" 100 "grams"), "cheese".
  split; [exact Hin|]. split; [rewrite E; reflexivity|].
  split; [exact Hc|]. split; [do 7 right; left; reflexivity|reflexivity].
Qed.

(** X21.  Without a language model the recipe generator answers a lunch
    request of a household with a vegan member with the quinoa bowl and its
    feta cheese, which the validator, when it returns, rejects under the
    vegan restriction; the retries get the same answer, so the lunch slot of
    such a household is never filled, whatever the number of retries. *)
Theorem offline_vegan_household_gets_no_lunch lookup planning_context constraints max_retries
  validation (w : World unit) :
  (exists r, In r (c_dietary_restrictions constraints) /\ lower r = "vegan") ->
  validate_recipe lookup
    (model_dump (_generate_mock_recipe "lunch" planning_context constraints))
    planning_context constraints = Some validation ->
  is_compliant validation = false
  /\ exists w',
       _generate_validated_recipe unit mock_generate lookup "lunch" planning_context
                                  constraints max_retries w = Some (None, w')
       /\ length (generation_calls w')
          = (length (generation_calls w) + (2 * Z.to_nat max_retries - 1))%nat.
Proof.
  intros Hv V.
  pose proof (mock_vegan_lunch_fails lookup planning_context constraints validation Hv V) as C.
  split; [exact C|].
  destruct (Z.le_gt_cases 1 max_retries) as [H1|H0].
  - destruct (first_answer_decides unit mock_generate lookup planning_context constraints
                max_retries _generate_mock_recipe
                (fun m pc c additional retry s => ex_intro _ s eq_refl)
                "lunch" validation w H1 V) as (w' & R & N).
    rewrite C in R, N. exists w'. split; [exact R|exact N].
  - unfold _generate_validated_recipe.
    replace (Z.to_nat max_retries) with 0%nat by lia.
    eexists. split; [reflexivity|]. cbn. lia.
Qed.

(** Vera's household, three attempts allowed. *)
Lemma offline_vegan_household_gets_no_lunch_witness :
  exists validation w',
    validate_recipe NutritionLookup.lookup
      (model_dump (_generate_mock_recipe "lunch" (Fixtures.context_of [])
                     (ProfileManager.get_all_constraints vegan_household
                        SessionManager._initialize_memory_structure "home")))
      (Fixtures.context_of [])
      (ProfileManager.get_all_constraints vegan_household
         SessionManager._initialize_memory_structure "home") = Some validation
    /\ is_compliant validation = false
    /\ _generate_validated_recipe unit mock_generate NutritionLookup.lookup "lunch"
         (Fixtures.context_of [])
         (ProfileManager.get_all_constraints vegan_household
            SessionManager._initialize_memory_structure "home") 3 offline_start
       = Some (None, w')
    /\ length (generation_calls w') = 5%nat.
Proof.
  assert (E : exists validation,
             validate_recipe NutritionLookup.lookup
               (model_dump (_generate_mock_recipe "lunch" (Fixtures.context_of [])
                              (ProfileManager.get_all_constraints vegan_household
                                 SessionManager._initialize_memory_structure "home")))
               (Fixtures.context_of [])
               (ProfileManager.get_all_constraints vegan_household
                  SessionManager._initialize_memory_structure "home") = Some validation)
    by (vm_compute; eexists; reflexivity).
  destruct E as (validation & V).
  destruct (offline_vegan_household_gets_no_lunch NutritionLookup.lookup
              (Fixtures.context_of [])
              (ProfileManager.get_all_constraints vegan_household
                 SessionManager._initialize_memory_structure "home") 3 validation
              offline_start) as (C & w' & R & N).
  - exists "Vegan". split; [vm_compute; left; reflexivity|reflexivity].
  - exact V.
  - exists validation, w'. auto.
Defined.






(** X23.  The nutrition per serving the validator computes, on the offline
    lookup, for the seven recipes of the offline generator: no lookup
    fails, and the sums are those of the floating-point arithmetic (the
    fat of the scrambled eggs is 28.1 / 4, which rounds to 7.03). *)
Theorem offline_nutrition_of_the_mock_recipes :
  let nutrition_of meal restrictions :=
    calculate_recipe_nutrition NutritionLookup.lookup
      (model_dump (_generate_mock_recipe meal (Fixtures.context_of [])
                     (Fixtures.constraints_of [] restrictions))) in
  let per_serving c p cb f fi :=
    ([], Some {| calories := c; protein_g := p; carbs_g := cb; fat_g := f; fiber_g := fi;
                 sugar_g := 0; sodium_mg := 0 |}) in
  (nutrition_of "breakfast" ["gluten-free"] = per_serving 171.2 4.96 23.59 7.03 3.28
   /\ nutrition_of "breakfast" ["vegetarian"] = per_serving 266.25 13.31 39.94 7.99 5.33
   /\ nutrition_of "breakfast" [] = per_serving 168.95 4.85 23.1 7 3.12
   /\ nutrition_of "lunch" ["vegetarian"] = per_serving 367.4 13.95 42.45 18.2 6
   /\ nutrition_of "lunch" [] = per_serving 467.8 54.2 23.7 17.35 3.5
   /\ nutrition_of "dinner" ["vegetarian"] = per_serving 381.75 17.06 65.06 8.29 7.42
   /\ nutrition_of "dinner" [] = per_serving 557.9 36.85 30.5 31.55 5.15)%float.
Proof. vm_compute. repeat split. Qed.

End MockExtras.
